(** * Dashboard-driven SLI/SLO derivation of the dynatrace-service

    A shallow embedding of the Go package [dynatrace] (the dashboard loader,
    the metrics query builder, the SLI/SLO synthesizer and the ad-hoc
    resolver [GetSLIValue]) and the properties its specification states.

    Conventions.
    - A Go [string] is a byte sequence: [String.string].
    - A Go [float64] is a primitive IEEE-754 binary64 [float].
    - A Go [int] is a [Z]; lengths and list indices are [nat].
    - A Go [(T, error)] result is a [res T]; [Panic] stands for a run-time
      panic (index out of range, failed type assertion).
    - [map[string]T] is [gmap string T].
    - What lies outside the package (the HTTP backend, [encoding/json],
      [net/url], the helpers of package [common_sli]) is gathered in the
      record [Env]; every definition that needs it takes an [Env]. *)

From Stdlib Require Import ZArith List String Ascii Floats Lia Bool DecimalString.
From stdpp Require Import base option strings gmap list sorting.

Local Open Scope string_scope.
Local Open Scope Z_scope.

(** ** Results of fallible calls *)

Inductive res (A : Type) : Type :=
| Ok (a : A)
| Err (msg : string)
| Panic.
Arguments Ok {A} a.
Arguments Err {A} msg.
Arguments Panic {A}.

#[global] Instance res_ret : MRet res := fun _ a => Ok a.
#[global] Instance res_bind : MBind res := fun _ _ k r =>
  match r with
  | Ok a => k a
  | Err e => Err e
  | Panic => Panic
  end.

(** ** Go's package [strings], on byte strings *)

Module Strings.

Definition HasPrefix (s prefix : string) : bool := String.prefix prefix s.

Fixpoint drop (n : nat) (s : string) : string :=
  match n, s with
  | O, _ => s
  | S n', String _ s' => drop n' s'
  | S _, EmptyString => EmptyString
  end.

Fixpoint take (n : nat) (s : string) : string :=
  match n, s with
  | S n', String c s' => String c (take n' s')
  | _, _ => EmptyString
  end.

(** Position of the first occurrence of [substr] in [s]. *)
Fixpoint index_of (s substr : string) : option nat :=
  if String.prefix substr s then Some O
  else match s with
       | EmptyString => None
       | String _ s' => option_map S (index_of s' substr)
       end.

(** [strings.Index]: -1 when [substr] does not occur. *)
Definition Index (s substr : string) : Z :=
  match index_of s substr with
  | Some i => Z.of_nat i
  | None => -1
  end.

Definition Contains (s substr : string) : bool :=
  match index_of s substr with
  | Some _ => true
  | None => false
  end.

(** [strings.Compare(a, b) == 0]. *)
Definition Equal (a b : string) : bool := String.eqb a b.

(** [strings.Split(s, sep)] for a separator of one byte, which is what
    every call site passes. *)
Fixpoint Split (s : string) (sep : ascii) : list string :=
  match s with
  | EmptyString => [EmptyString]
  | String c s' =>
      if Ascii.eqb c sep then EmptyString :: Split s' sep
      else match Split s' sep with
           | h :: t => String c h :: t
           | [] => [String c EmptyString]
           end
  end.

(** [strings.Replace(s, old, new, n)] for a non-empty [old]; [skip] counts
    the bytes of a replaced occurrence still to be passed over, [limit] is
    the number of replacements left ([None]: no limit, Go's [n < 0]). *)
Fixpoint replace_go (old new : string) (skip : nat) (limit : option nat)
    (s : string) : string :=
  match s with
  | EmptyString => EmptyString
  | String c s' =>
      match skip with
      | S k => replace_go old new k limit s'
      | O =>
          match limit with
          | Some O => s
          | _ =>
              if String.prefix old s
              then new ++ replace_go old new (String.length old - 1)
                            (option_map Nat.pred limit) s'
              else String c (replace_go old new O limit s')
          end
      end
  end.

(** For an empty [old], Go inserts [new] before every character and at the
    end, up to the limit (bytes stand for characters here). *)
Fixpoint replace_empty (new : string) (limit : option nat) (s : string) : string :=
  match limit with
  | Some O => s
  | _ =>
      match s with
      | EmptyString => new
      | String c s' => new ++ String c (replace_empty new (option_map Nat.pred limit) s')
      end
  end.

Definition Replace (s old new : string) (n : Z) : string :=
  let limit := if n <? 0 then None else Some (Z.to_nat n) in
  match old with
  | EmptyString => replace_empty new limit s
  | _ => replace_go old new O limit s
  end.

Definition is_upper (c : ascii) : bool :=
  (65 <=? nat_of_ascii c)%nat && (nat_of_ascii c <=? 90)%nat.
Definition is_lower (c : ascii) : bool :=
  (97 <=? nat_of_ascii c)%nat && (nat_of_ascii c <=? 122)%nat.

Definition lower_byte (c : ascii) : ascii :=
  if is_upper c then ascii_of_nat (nat_of_ascii c + 32) else c.
Definition upper_byte (c : ascii) : ascii :=
  if is_lower c then ascii_of_nat (nat_of_ascii c - 32) else c.

Fixpoint map_bytes (f : ascii -> ascii) (s : string) : string :=
  match s with
  | EmptyString => EmptyString
  | String c s' => String (f c) (map_bytes f s')
  end.

(** The case mapping of ASCII text: the letters A-Z and a-z change case,
    every other byte is kept. Go's [strings.ToLower] and [strings.ToUpper]
    map every letter of Unicode and agree with these two on ASCII text only;
    the package's functions take them from the environment (fields
    [strings_ToLower] and [strings_ToUpper] of [Env]), and the examples use
    these two on ASCII text. *)
Definition lowerASCII (s : string) : string := map_bytes lower_byte s.
Definition upperASCII (s : string) : string := map_bytes upper_byte s.

(** Go's slice expressions [s[lo:]] and [s[:hi]]; out of range they panic. *)
Definition slice_from (s : string) (lo : Z) : res string :=
  if (lo <? 0) || (Z.of_nat (String.length s) <? lo) then Panic
  else Ok (drop (Z.to_nat lo) s).

Definition slice_to (s : string) (hi : Z) : res string :=
  if (hi <? 0) || (Z.of_nat (String.length s) <? hi) then Panic
  else Ok (take (Z.to_nat hi) s).

End Strings.

(** ** The regular expressions [IsValidUUID] needs

    The pattern has no alternation and no star: it is a sequence of literal
    bytes and of bracket classes repeated a fixed number of times, so a match
    consumes a fixed number of bytes and is deterministic. *)

Module Regexp.

Inductive regex : Type :=
| Lit (c : ascii)                         (* a literal byte *)
| Class (members : list ascii) (ranges : list (ascii * ascii))
                                          (* a bracket expression [...] *)
| Rep (n : nat) (r : regex)               (* r{n} *)
| Cat (r1 r2 : regex).

Definition in_range (c : ascii) (rg : ascii * ascii) : bool :=
  (nat_of_ascii (fst rg) <=? nat_of_ascii c)%nat
  && (nat_of_ascii c <=? nat_of_ascii (snd rg))%nat.

Definition in_class (members : list ascii) (ranges : list (ascii * ascii))
    (c : ascii) : bool :=
  existsb (Ascii.eqb c) members || existsb (in_range c) ranges.

(** [run r s]: the rest of [s] after a match of [r] at its start. *)
Fixpoint run (r : regex) (s : string) : option string :=
  match r with
  | Lit c =>
      match s with
      | String c' s' => if Ascii.eqb c' c then Some s' else None
      | EmptyString => None
      end
  | Class members ranges =>
      match s with
      | String c' s' => if in_class members ranges c' then Some s' else None
      | EmptyString => None
      end
  | Rep n r' =>
      (fix iter (k : nat) (t : string) : option string :=
         match k with
         | O => Some t
         | S k' => match run r' t with
                   | Some t' => iter k' t'
                   | None => None
                   end
         end) n s
  | Cat r1 r2 =>
      match run r1 s with
      | Some t => run r2 t
      | None => None
      end
  end.

(** [MatchString] for a pattern anchored as [^r$]. *)
Definition MatchAnchored (r : regex) (s : string) : bool :=
  match run r s with
  | Some EmptyString => true
  | _ => false
  end.

End Regexp.

(** ** [IsValidUUID] *)

Section UUID.
Import Regexp.
Local Open Scope char_scope.

(** [[a-fA-F0-9]] *)
Definition hex_class : regex := Class [] [("a", "f"); ("A", "F"); ("0", "9")].

(** [[8|9|aA|bB]]: inside brackets the bar is an ordinary member. *)
Definition variant_class : regex :=
  Class ["8"; "|"; "9"; "|"; "a"; "A"; "|"; "b"; "B"] [].

(** ^[a-fA-F0-9]{8}-[a-fA-F0-9]{4}-4[a-fA-F0-9]{3}-[8|9|aA|bB][a-fA-F0-9]{3}-[a-fA-F0-9]{12}$ *)
Definition uuid_regex : regex :=
  Cat (Rep 8 hex_class)
 (Cat (Lit "-")
 (Cat (Rep 4 hex_class)
 (Cat (Lit "-")
 (Cat (Lit "4")
 (Cat (Rep 3 hex_class)
 (Cat (Lit "-")
 (Cat variant_class
 (Cat (Rep 3 hex_class)
 (Cat (Lit "-")
      (Rep 12 hex_class)))))))))).

Definition IsValidUUID (uuid : string) : bool := MatchAnchored uuid_regex uuid.
End UUID.

(** ** [scaleData] *)

Definition scaleData (metricID unit : string) (value : float) : float :=
  if Strings.Equal unit "MicroSecond"
     || Strings.Contains metricID "builtin:service.response.time"
  then (value / 1000)%float
  else if Strings.Equal unit "Byte"
  then (value / 1024)%float
  else value.

(** ** Formatting helpers ([fmt], [strconv]) *)

(** [%d] and [strconv.Itoa]. *)
Definition Itoa (n : Z) : string := NilZero.string_of_int (Z.to_int n).

(** [float64(n)] for an [int] [n]. *)
Definition float64_of_int (n : Z) : float :=
  if n <? 0 then (- PrimFloat.of_uint63 (Uint63.of_Z (- n)))%float
  else PrimFloat.of_uint63 (Uint63.of_Z n).

(** ** Data model *)

(** [time.Time], as seconds since the epoch. *)
Definition Time : Type := Z.

Module MetricQueryResultNumbers.
Record t : Type := mk {
  Dimensions : list string;
  DimensionMap : gmap string string;
  Timestamps : list Z;
  Values : list float
}.
End MetricQueryResultNumbers.

Module MetricQueryResultValues.
Record t : Type := mk {
  MetricID : string;
  Data : list MetricQueryResultNumbers.t
}.
End MetricQueryResultValues.

(** A decoded JSON value of a USQL row ([interface{}] in the source). *)
Inductive json_value : Type :=
| JNumber (f : float)
| JString (s : string)
| JOther.

Module DTUSQLResult.
Record t : Type := mk {
  ExtrapolationLevel : Z;
  ColumnNames : list string;
  Values : list (list json_value)
}.
End DTUSQLResult.

Module SLI.
Record t : Type := mk {
  SpecVersion : string;
  Indicators : gmap string string
}.
End SLI.

Module Criterion.
Record t : Type := mk { Value : string; Evaluator : string }.
End Criterion.

(** The nested filters of a nested filter are never read and are left out. *)
Module NestedFilterDataExplorer.
Record t : Type := mk {
  Filter : string;
  FilterType : string;
  FilterOperator : string;
  Criteria : list Criterion.t
}.
End NestedFilterDataExplorer.

Module FilterBy.
Record t : Type := mk {
  FilterOperator : string;
  NestedFilters : list NestedFilterDataExplorer.t;
  Criteria : list Criterion.t
}.
End FilterBy.

Module DataExplorerQuery.
Record t : Type := mk {
  ID : string;
  Metric : string;
  SpaceAggregation : string;
  TimeAggregation : string;
  SplitBy : list string;
  FilterBy : option FilterBy.t
}.
End DataExplorerQuery.

Module SeriesDimension.
Record t : Type := mk {
  ID : string;
  Name : string;
  Values : list string;
  EntityDimension : bool
}.
End SeriesDimension.

Module ChartSeries.
Record t : Type := mk {
  Metric : string;
  Aggregation : string;
  Percentile : json_value;
  Type_ : string;
  EntityType : string;
  Dimensions : list SeriesDimension.t;
  AggregationRate : string
}.
End ChartSeries.

Module DashboardStub.
Record t : Type := mk { ID : string; Name : string; Owner : string }.
End DashboardStub.

Module DynatraceDashboards.
Record t : Type := mk { Dashboards : list DashboardStub.t }.
End DynatraceDashboards.

Module ManagementZone.
Record t : Type := mk { ID : string; Name : string }.
End ManagementZone.

Module DashboardFilter.
Record t : Type := mk {
  Timeframe : string;
  ManagementZone : option ManagementZone.t
}.
End DashboardFilter.

Module FilterConfig.
Record t : Type := mk {
  Type_ : string;
  CustomName : string;
  DefaultName : string;
  Series : list ChartSeries.t;       (* ChartConfig.Series *)
  FiltersPerEntityType : gmap string (gmap string (list string))
}.
End FilterConfig.

Module Tile.
Record t : Type := mk {
  Name : string;
  TileType : string;
  Configured : bool;
  Query : string;
  Type_ : string;
  CustomName : string;
  Markdown : string;
  TileFilter : DashboardFilter.t;
  Queries : list DataExplorerQuery.t;
  AssignedEntities : list string;
  FilterConfig : FilterConfig.t
}.
End Tile.

(** The fields of the dashboard no function reads (versions, sharing
    details, tile bounds) are left out. *)
Module DynatraceDashboard.
Record t : Type := mk {
  ID : string;
  Name : string;
  Owner : string;
  DashboardFilter : option DashboardFilter.t;   (* DashboardMetadata.DashboardFilter *)
  Tags : list string;
  Tiles : list Tile.t
}.
End DynatraceDashboard.

Module DimensionDefinition.
Record t : Type := mk {
  Name : string;
  Type_ : string;
  Key : string;
  DisplayName : string
}.
End DimensionDefinition.

Module MetricDefinition.
Record t : Type := mk {
  MetricID : string;
  DisplayName : string;
  Description : string;
  Unit : string;
  AggregationTypes : list string;
  Transformations : list string;
  DefaultAggregationType : string;             (* DefaultAggregation.Type *)
  DimensionDefinitions : list DimensionDefinition.t;
  EntityType : list string
}.
End MetricDefinition.

Module DynatraceSLOResult.
Record t : Type := mk {
  ID : string;
  Name : string;
  EvaluatedPercentage : float;
  Error : string;
  TargetSuccessOLD : float;
  TargetWarningOLD : float;
  Target : float;
  Warning : float
}.
End DynatraceSLOResult.

(** [error.code] and [error.message] of the backend's error envelope. *)
Module DtEnvAPIv2Error.
Record t : Type := mk { Code : Z; Message : string }.
End DtEnvAPIv2Error.

Module DynatraceMetricsQueryResult.
Record t : Type := mk {
  TotalCount : Z;
  NextPageKey : string;
  Result : list MetricQueryResultValues.t
}.
End DynatraceMetricsQueryResult.

(** The problem and security-problem lists themselves are never read. *)
Module DynatraceProblemQueryResult.
Record t : Type := mk { TotalCount : Z; PageSize : Z }.
End DynatraceProblemQueryResult.

Module DynatraceSecurityProblemQueryResult.
Record t : Type := mk { TotalCount : Z; PageSize : Z; NextPageKey : string }.
End DynatraceSecurityProblemQueryResult.

(** *** Types of the keptn libraries *)

(** [keptnv2.SLIFilter] *)
Module SLIFilter.
Record t : Type := mk { Key : string; Value : string }.
End SLIFilter.

(** [keptnv2.SLIResult] *)
Module SLIResult.
Record t : Type := mk {
  Metric : string;
  Value : float;
  Success : bool;
  Message : string
}.
End SLIResult.

(** [keptncommon.SLOCriteria] *)
Module SLOCriteria.
Record t : Type := mk { Criteria : list string }.
End SLOCriteria.

(** [keptncommon.SLO] *)
Module SLO.
Record t : Type := mk {
  SLI : string;
  Pass : list SLOCriteria.t;
  Warning : list SLOCriteria.t;
  Weight : Z;
  KeySLI : bool
}.
End SLO.

(** [keptncommon.SLOScore] *)
Module SLOScore.
Record t : Type := mk { Pass : string; Warning : string }.
End SLOScore.

(** [keptncommon.SLOComparison] *)
Module SLOComparison.
Record t : Type := mk {
  CompareWith : string;
  IncludeResultWithScore : string;
  NumberOfComparisonResults : Z;
  AggregateFunction : string
}.
End SLOComparison.

(** [keptncommon.ServiceLevelObjectives] *)
Module ServiceLevelObjectives.
Record t : Type := mk {
  Objectives : list SLO.t;
  TotalScore : SLOScore.t;
  Comparison : SLOComparison.t
}.
End ServiceLevelObjectives.

(** Modelled from the spec: [common_sli.BaseKeptnEvent], the delivery-context
    object "providing project/stage/service/deployment/test-strategy names and
    a label map"; its declaration is not among the sources. *)
Module BaseKeptnEvent.
Record t : Type := mk {
  Project : string;
  Stage : string;
  Service : string;
  Deployment : string;
  TestStrategy : string;
  Labels : gmap string string
}.
End BaseKeptnEvent.

Module Handler.
Record t : Type := mk {
  ApiURL : string;
  KeptnEvent : BaseKeptnEvent.t;
  Headers : gmap string string;
  CustomQueries : gmap string string;
  CustomFilters : list SLIFilter.t
}.
End Handler.

(** *** [net/url] *)

(** [url.Values] with [Get] and [Add]. *)
Module Values.
Definition Get (v : gmap string (list string)) (key : string) : string :=
  match v !! key with
  | Some (x :: _) => x
  | _ => ""
  end.

(** [v[key]]: all the values of a key. *)
Definition All (v : gmap string (list string)) (key : string) : list string :=
  default [] (v !! key).

Definition Add (v : gmap string (list string)) (key value : string)
    : gmap string (list string) :=
  <[key := (All v key ++ [value])%list]> v.
End Values.

(** [url.URL]; user information is left out. *)
Module URL.
Record t : Type := mk {
  Scheme : string;
  Opaque : string;
  Host : string;
  Path : string;
  RawPath : string;
  ForceQuery : bool;
  RawQuery : string;
  Fragment : string;
  RawFragment : string
}.

Definition set_RawQuery (u : t) (q : string) : t :=
  mk (Scheme u) (Opaque u) (Host u) (Path u) (RawPath u) (ForceQuery u) q
     (Fragment u) (RawFragment u).
End URL.

(** ** The environment of the package

    The HTTP client, [encoding/json], [fmt]'s float formatting, [net/url],
    the Unicode case mapping of package [strings] and the functions of package
    [common_sli] are not part of the package this file models; the
    package's functions are defined over any behaviour of them. *)

Record Env : Type := mkEnv {
  (** [strings.ToLower] and [strings.ToUpper]: the case mapping of Unicode
      text, letter by letter of the UTF-8 encoded string. *)
  strings_ToLower : string -> string;
  strings_ToUpper : string -> string;

  (** [http.Client.Do] followed by reading the body: from the method, the URL
      and the request headers to a transport error or to the status code and
      the body. *)
  http_Do : string -> string -> gmap string string -> res (Z * string);

  (** [json.Unmarshal] at each of the types the package decodes. *)
  json_DtEnvAPIv2Error : string -> res DtEnvAPIv2Error.t;
  json_DynatraceDashboards : string -> res DynatraceDashboards.t;
  json_DynatraceDashboard : string -> res DynatraceDashboard.t;
  json_DynatraceSLOResult : string -> res DynatraceSLOResult.t;
  json_DynatraceProblemQueryResult : string -> res DynatraceProblemQueryResult.t;
  json_DynatraceSecurityProblemQueryResult :
    string -> res DynatraceSecurityProblemQueryResult.t;
  json_MetricDefinition : string -> res MetricDefinition.t;
  json_DynatraceMetricsQueryResult : string -> res DynatraceMetricsQueryResult.t;
  json_DTUSQLResult : string -> res DTUSQLResult.t;
  (** [json.MarshalIndent(dashboard, "", "  ")] and [json.Marshal(result)]. *)
  json_MarshalIndent_Dashboard : DynatraceDashboard.t -> string;
  json_Marshal_MetricQueryResultValues : MetricQueryResultValues.t -> string;

  (** [fmt]'s verb [%f], at a [float64] and at an [interface{}]. *)
  fmt_f : float -> string;
  fmt_f_value : json_value -> string;

  (** [url.Parse], [url.ParseQuery] (the values read so far and the first
      error), [Values.Encode] and [URL.String]. *)
  url_Parse : string -> res URL.t;
  url_ParseQuery : string -> gmap string (list string) * option string;
  url_Encode : gmap string (list string) -> string;
  url_String : URL.t -> string;

  (** Package [common_sli]. *)
  TimestampToString : Time -> string;
  CleanIndicatorName : string -> string;
  ReplaceKeptnPlaceholders : string -> BaseKeptnEvent.t -> string;
  ParsePassAndWarningFromString :
    string -> list string -> list string ->
    string * list SLOCriteria.t * list SLOCriteria.t * Z * bool;
  ParseMarkdownConfiguration :
    string -> ServiceLevelObjectives.t -> ServiceLevelObjectives.t;
  GetKeptnResource : BaseKeptnEvent.t -> string -> string * option string;
  DynatraceDashboardFilename : string
}.

(** Modelled from the spec: the constant [common_sli.DynatraceConfigDashboardQUERY],
    declared outside the sources; the spec calls it 'the literal sentinel
    "query"'. *)
Definition DynatraceConfigDashboardQUERY : string := "query".

Definition MetricsAPIOldFormatNewFormatDoc : string :=
  "https://github.com/keptn-contrib/dynatrace-sli-service/blob/master/docs/CustomQueryFormatMigration.md".

Definition Throughput : string := "throughput".
Definition ErrorRate : string := "error_rate".
Definition ResponseTimeP50 : string := "response_time_p50".
Definition ResponseTimeP90 : string := "response_time_p90".
Definition ResponseTimeP95 : string := "response_time_p95".

(** The double quote, as a one-byte string. *)
Definition dquote : string := String (ascii_of_nat 34) EmptyString.

(** ** REST calls *)

Section Rest.
Context (env : Env).

(** The request carries the handler's headers, overridden by [addHeaders]. *)
Definition executeDynatraceREST (ph : Handler.t) (httpMethod requestUrl : string)
    (addHeaders : gmap string string) : res (Z * string) :=
  http_Do env httpMethod requestUrl (addHeaders ∪ Handler.Headers ph).

(** [resp] is the status code of the response, or [None] for a nil
    response; the result is the error, if any. *)
Definition checkApiResponse (resp : option Z) (body : string) : option string :=
  match resp with
  | None => Some "Dynatrace API did not return a response"
  | Some status =>
      if status =? 200 then None
      else match json_DtEnvAPIv2Error env body with
           | Ok e =>
               Some ("Dynatrace API returned error " ++ Itoa (DtEnvAPIv2Error.Code e)
                     ++ ": " ++ DtEnvAPIv2Error.Message e)
           | _ => Some ("Dynatrace API returned status code " ++ Itoa status)
           end
  end.

(** The shape shared by the [Execute...] functions: call, check the
    response, decode. *)
Definition call_and_decode {A : Type} (ph : Handler.t) (what targetURL : string)
    (addHeaders : gmap string string) (decode : string -> res A) : res A :=
  '(status, body) ← executeDynatraceREST ph "GET" targetURL addHeaders;
  match checkApiResponse (Some status) body with
  | Some e => Err (what ++ " API request " ++ targetURL ++ " was not successful: " ++ e)
  | None => decode body
  end.

Definition ExecuteGetDynatraceSLO (ph : Handler.t) (sloID : string)
    (startUnix endUnix : Time) : res DynatraceSLOResult.t :=
  let targetURL :=
    Handler.ApiURL ph ++ "/api/v2/slo/" ++ sloID
      ++ "?from=" ++ TimestampToString env startUnix
      ++ "&to=" ++ TimestampToString env endUnix in
  result ← call_and_decode ph "SLO" targetURL ∅ (json_DynatraceSLOResult env);
  if Strings.Equal (DynatraceSLOResult.Error result) "NONE" then Ok result
  else Err ("Dynatrace API returned an error: " ++ DynatraceSLOResult.Error result).

Definition ExecuteGetDynatraceProblems (ph : Handler.t) (problemQuery : string)
    (startUnix endUnix : Time) : res DynatraceProblemQueryResult.t :=
  let targetURL :=
    Handler.ApiURL ph ++ "/api/v2/problems?from=" ++ TimestampToString env startUnix
      ++ "&to=" ++ TimestampToString env endUnix ++ "&" ++ problemQuery in
  call_and_decode ph "Problems" targetURL ∅ (json_DynatraceProblemQueryResult env).

Definition ExecuteGetDynatraceSecurityProblems (ph : Handler.t) (problemQuery : string)
    (startUnix endUnix : Time) : res DynatraceSecurityProblemQueryResult.t :=
  let targetURL :=
    Handler.ApiURL ph ++ "/api/v2/securityProblems?from="
      ++ TimestampToString env startUnix
      ++ "&to=" ++ TimestampToString env endUnix ++ "&" ++ problemQuery in
  call_and_decode ph "Security Problems" targetURL ∅
    (json_DynatraceSecurityProblemQueryResult env).

Definition ExecuteMetricAPIDescribe (ph : Handler.t) (metricID : string)
    : res MetricDefinition.t :=
  let targetURL := Handler.ApiURL ph ++ "/api/v2/metrics/" ++ metricID in
  call_and_decode ph "Metrics" targetURL ∅ (json_MetricDefinition env).

Definition json_header : gmap string string :=
  {["Content-Type" := "application/json"]}.

Definition ExecuteMetricsAPIQuery (ph : Handler.t) (metricsQuery : string)
    : res DynatraceMetricsQueryResult.t :=
  result ← call_and_decode ph "Metrics" metricsQuery json_header
             (json_DynatraceMetricsQueryResult env);
  match DynatraceMetricsQueryResult.Result result with
  | [] => Err "Dynatrace Metrics API returned no DataPoints"
  | _ :: _ => Ok result
  end.

Definition ExecuteUSQLQuery (ph : Handler.t) (usql : string) : res DTUSQLResult.t :=
  result ← call_and_decode ph "USQL" usql json_header (json_DTUSQLResult env);
  match DTUSQLResult.Values result with
  | [] => Err "Dynatrace USQL Query didnt return any DataPoints"
  | _ :: _ => Ok result
  end.
End Rest.

(** ** Placeholder substitution *)

(** What [replaceQueryParameters] writes back into a filter: its value
    without quote characters. *)
Definition sanitizeFilter (f : SLIFilter.t) : SLIFilter.t :=
  SLIFilter.mk (SLIFilter.Key f)
    (Strings.Replace (Strings.Replace (SLIFilter.Value f) "'" "" (-1)) dquote "" (-1)).

(** The loop over [ph.CustomFilters]: the query after the replacements and
    the filters as the loop leaves them (it updates them in place). *)
Fixpoint applyCustomFilters (env : Env) (filters : list SLIFilter.t) (query : string)
    : string * list SLIFilter.t :=
  match filters with
  | [] => (query, [])
  | f :: rest =>
      let f' := sanitizeFilter f in
      let query := Strings.Replace query ("$" ++ SLIFilter.Key f') (SLIFilter.Value f') (-1) in
      let query :=
        Strings.Replace query ("$" ++ strings_ToUpper env (SLIFilter.Key f'))
          (SLIFilter.Value f') (-1) in
      let '(query, rest') := applyCustomFilters env rest query in
      (query, f' :: rest')
  end.

Section QueryBuilder.
Context (env : Env).

(** The query after substitution. The filters the handler keeps afterwards
    are [snd (applyCustomFilters ...)]; substituting with them again gives
    the same query (lemma [applyCustomFilters_again]), so the handler is not
    threaded through the callers. *)
Definition replaceQueryParameters (ph : Handler.t) (query : string) : string :=
  let query := fst (applyCustomFilters env (Handler.CustomFilters ph) query) in
  ReplaceKeptnPlaceholders env query (Handler.KeptnEvent ph).

(** The parameters are added in the iteration order of a Go map; their keys
    differ, so the order does not show in the resulting values. A URL that
    does not parse leaves a nil pointer behind, which the next line
    dereferences. *)
Definition BuildDynatraceUSQLQuery (ph : Handler.t) (query : string)
    (startUnix endUnix : Time) : res string :=
  let usql := replaceQueryParameters ph query in
  let targetURL := Handler.ApiURL ph ++ "/api/v1/userSessionQueryLanguage/table" in
  match url_Parse env targetURL with
  | Ok u =>
      let q := fst (url_ParseQuery env (URL.RawQuery u)) in
      let q := Values.Add q "query" usql in
      let q := Values.Add q "explain" "false" in
      let q := Values.Add q "addDeepLinkFields" "false" in
      let q := Values.Add q "startTimestamp" (TimestampToString env startUnix) in
      let q := Values.Add q "endTimestamp" (TimestampToString env endUnix) in
      Ok (url_String env (URL.set_RawQuery u (url_Encode env q)))
  | _ => Panic
  end.

(** The entity selector a legacy [scope=] value turns into. *)
Definition scopeAsEntitySelector (scopeData : string) : string :=
  if Strings.Contains scopeData "type(SERVICE)" then scopeData
  else scopeData ++ ",type(SERVICE)".

(** The query values after the default parameters and the converted scope
    have been added. *)
Definition finalQueryValues (q : gmap string (list string))
    (startUnix endUnix : Time) : gmap string (list string) :=
  let q := Values.Add q "resolution" "Inf" in
  let q := Values.Add q "from" (TimestampToString env startUnix) in
  let q := Values.Add q "to" (TimestampToString env endUnix) in
  let scopeData := Values.Get q "scope" in
  if Strings.Equal scopeData "" then q
  else Values.Add q "entitySelector" (scopeAsEntitySelector scopeData).

(** The first half of [BuildDynatraceMetricsQuery]: the metric selector of a
    query in the old format (empty for the new format) and the query
    parameters. *)
Definition splitMetricQuery (ph : Handler.t) (metricquery : string)
    : res (string * string) :=
  let metricquery := replaceQueryParameters ph metricquery in
  let metricquery :=
    if Strings.HasPrefix metricquery "?metricSelector="
    then Strings.Replace metricquery "?metricSelector=" "metricSelector=" 1
    else metricquery in
  let querySplit := Strings.Split metricquery "?" in
  match querySplit with
  | [only] => Ok ("", only)
  | q0 :: q1 :: _ => Ok (q0, "metricSelector=" ++ q0 ++ "&" ++ q1)
  | [] => Panic
  end.

Definition metricsTargetURL (ph : Handler.t) (metricQueryParams : string) : string :=
  Handler.ApiURL ph ++ "/api/v2/metrics/query/?" ++ metricQueryParams.

(** Returns the final query URL and the metric ID the query will return. *)
Definition BuildDynatraceMetricsQuery (ph : Handler.t) (metricquery : string)
    (startUnix endUnix : Time) : res (string * string) :=
  '(metricSelector, metricQueryParams) ← splitMetricQuery ph metricquery;
  let targetURL := metricsTargetURL ph metricQueryParams in
  match url_Parse env targetURL with
  | Err e => Err ("could not parse metrics URL: " ++ e)
  | Panic => Panic
  | Ok u =>
      match url_ParseQuery env (URL.RawQuery u) with
      | (_, Some e) => Err ("could not parse metrics URL: " ++ e)
      | (q, None) =>
          let q := finalQueryValues q startUnix endUnix in
          let metricSelector :=
            if Strings.Equal metricSelector "" then Values.Get q "metricSelector"
            else metricSelector in
          Ok (url_String env (URL.set_RawQuery u (url_Encode env q)), metricSelector)
      end
  end.
End QueryBuilder.

(** [strings.Split(s, sep)[0]]; [Split] never returns an empty list. *)
Definition firstSegment (s : string) (sep : ascii) : string :=
  hd "" (Strings.Split s sep).

Definition isMatchingMetricID (singleResultMetricID queryMetricID : string) : bool :=
  if Strings.Equal singleResultMetricID queryMetricID then true
  else if Strings.Contains singleResultMetricID "~"
  then if Strings.Contains singleResultMetricID ":"
       then Strings.Equal (firstSegment singleResultMetricID ":")
                          (firstSegment queryMetricID ":")
       else false
  else false.

Definition HasDashboardChanged (env : Env) (dashboardJSON : DynatraceDashboard.t)
    (existingDashboardContent : string) : bool :=
  let newDashboardContent := json_MarshalIndent_Dashboard env dashboardJSON in
  if Strings.Index newDashboardContent "KQG.QueryBehavior=ParseOnChange" =? -1 then true
  else if Strings.Equal newDashboardContent existingDashboardContent then false
  else true.

(** The result always starts with a comma when it is not empty. *)
Definition GetEntitySelectorFromEntityFilter
    (filtersPerEntityType : gmap string (gmap string (list string)))
    (entityType : string) : string :=
  match filtersPerEntityType !! entityType with
  | Some filters =>
      let entityTileFilter :=
        match filters !! "SPECIFIC_ENTITIES" with
        | Some entityArray =>
            fold_left (fun acc entityId =>
                         (acc ++ ",") ++ "entityId(" ++ dquote ++ entityId ++ dquote ++ ")")
                      entityArray ""
        | None => ""
        end in
      match filters !! "AUTO_TAGS" with
      | Some tagArray =>
          fold_left (fun acc tag => (acc ++ ",") ++ "tag(" ++ dquote ++ tag ++ dquote ++ ")")
                    tagArray entityTileFilter
      | None => entityTileFilter
      end
  | None => ""
  end.

(** ** Finding and loading the dashboard *)

(** The three name/value pairs a dashboard name has to carry. *)
Definition findValues (env : Env) (keptnEvent : BaseKeptnEvent.t) : list string :=
  [ strings_ToLower env ("project=" ++ BaseKeptnEvent.Project keptnEvent);
    strings_ToLower env ("service=" ++ BaseKeptnEvent.Service keptnEvent);
    strings_ToLower env ("stage=" ++ BaseKeptnEvent.Stage keptnEvent) ].

(** The inner loops of [findDynatraceDashboard], flag by flag. *)
Definition foundValue (env : Env) (findValue : string) (nameSplits : list string)
    : bool :=
  fold_left (fun found nameSplitValue =>
               if Strings.Equal findValue (strings_ToLower env nameSplitValue) then true
               else found)
            nameSplits false.

Definition dashboardMatch (env : Env) (values : list string) (nameSplits : list string)
    : bool :=
  fold_left (fun matching findValue =>
               if foundValue env findValue nameSplits then matching else false)
            values true.

Definition dashboardMatches (env : Env) (keptnEvent : BaseKeptnEvent.t)
    (d : DashboardStub.t) : bool :=
  if Strings.HasPrefix (strings_ToLower env (DashboardStub.Name d)) "kqg;"
  then dashboardMatch env (findValues env keptnEvent)
         (Strings.Split (DashboardStub.Name d) ";")
  else false.

(** The loop over the dashboards: the ID of the first one that matches. *)
Fixpoint searchDashboards (env : Env) (keptnEvent : BaseKeptnEvent.t)
    (ds : list DashboardStub.t) : string :=
  match ds with
  | [] => ""
  | d :: rest =>
      if dashboardMatches env keptnEvent d then DashboardStub.ID d
      else searchDashboards env keptnEvent rest
  end.

Section DashboardLoader.
Context (env : Env).

Definition findDynatraceDashboard (ph : Handler.t) (keptnEvent : BaseKeptnEvent.t)
    : res string :=
  let dashboardAPIUrl := Handler.ApiURL ph ++ "/api/config/v1/dashboards" in
  '(status, body) ← executeDynatraceREST env ph "GET" dashboardAPIUrl ∅;
  if negb (status =? 200) then Ok ""
  else
    dashboardsJSON ← json_DynatraceDashboards env body;
    Ok (searchDashboards env keptnEvent (DynatraceDashboards.Dashboards dashboardsJSON)).

(** Returns the parsed dashboard (if one was queried), the dashboard ID and
    the error. *)
Definition loadDynatraceDashboard (ph : Handler.t) (keptnEvent : BaseKeptnEvent.t)
    (dashboard : string)
    : res (option DynatraceDashboard.t * string * option string) :=
  dashboard ←
    (if Strings.Equal dashboard DynatraceConfigDashboardQUERY
     then match findDynatraceDashboard ph keptnEvent with
          | Ok found => Ok found
          | Err _ => Ok ""
          | Panic => Panic
          end
     else Ok dashboard);
  if Strings.Equal dashboard "" then Ok (None, dashboard, None)
  else if negb (IsValidUUID dashboard)
  then Ok (None, dashboard, Some ("Dashboard ID " ++ dashboard ++ " not a valid UUID"))
  else
    let dashboardAPIUrl := Handler.ApiURL ph ++ "/api/config/v1/dashboards/" ++ dashboard in
    match executeDynatraceREST env ph "GET" dashboardAPIUrl ∅ with
    | Panic => Panic
    | Err e => Ok (None, dashboard, Some e)
    | Ok (status, body) =>
        if negb (status =? 200)
        then Ok (None, dashboard, Some "No valid response from Dashboard API")
        else match json_DynatraceDashboard env body with
             | Panic => Panic
             | Err e => Ok (None, dashboard,
                            Some ("could not decode response payload: " ++ e))
             | Ok dashboardJSON => Ok (Some dashboardJSON, dashboard, None)
             end
    end.
End DashboardLoader.

(** ** Tile processors *)

Section TileProcessors.
Context (env : Env).

(** The SLO definition the SLO and problem tiles build from a generated
    tile name. *)
Definition sloDefinitionFrom (indicatorName sloString : string) : SLO.t :=
  let '(_, passSLOs, warningSLOs, weight, keySli) :=
    ParsePassAndWarningFromString env sloString [] [] in
  SLO.mk indicatorName passSLOs warningSLOs weight keySli.

Definition ProcessSLOTile (ph : Handler.t) (sloID : string) (startUnix endUnix : Time)
    : res (SLIResult.t * string * string * SLO.t) :=
  sloResult ← ExecuteGetDynatraceSLO env ph sloID startUnix endUnix;
  let indicatorName := CleanIndicatorName env (DynatraceSLOResult.Name sloResult) in
  let value := DynatraceSLOResult.EvaluatedPercentage sloResult in
  let sliResult := SLIResult.mk indicatorName value true "" in
  let sliQuery := "SLO;" ++ sloID in
  let warning :=
    if PrimFloat.leb (DynatraceSLOResult.Warning sloResult) 0
    then DynatraceSLOResult.TargetWarningOLD sloResult
    else DynatraceSLOResult.Warning sloResult in
  let target :=
    if PrimFloat.leb (DynatraceSLOResult.Target sloResult) 0
    then DynatraceSLOResult.TargetSuccessOLD sloResult
    else DynatraceSLOResult.Target sloResult in
  let sloString :=
    "sli=" ++ indicatorName ++ ";pass=>=" ++ fmt_f env warning
      ++ ";warning=>=" ++ fmt_f env target in
  Ok (sliResult, indicatorName, sliQuery, sloDefinitionFrom indicatorName sloString).

(** With an entity selector the query is overwritten, not extended, as in
    the source. *)
Definition openProblemQuery (problemSelector entitySelector : string) : string :=
  let problemQuery :=
    if Strings.Equal problemSelector "" then ""
    else "problemSelector=" ++ problemSelector in
  if Strings.Equal entitySelector "" then problemQuery
  else
    let separator := if Strings.Equal problemQuery "" then "" else "&" in
    separator ++ "entitySelector=" ++ entitySelector.

Definition ProcessOpenProblemTile (ph : Handler.t) (problemSelector entitySelector : string)
    (startUnix endUnix : Time) : res (SLIResult.t * string * string * SLO.t) :=
  let problemQuery := openProblemQuery problemSelector entitySelector in
  problemQueryResult ← ExecuteGetDynatraceProblems env ph problemQuery startUnix endUnix;
  let indicatorName := "problems" in
  let value := float64_of_int (DynatraceProblemQueryResult.TotalCount problemQueryResult) in
  let sliResult := SLIResult.mk indicatorName value true "" in
  let sliQuery := "PV2;" ++ problemQuery in
  let sloString := "sli=" ++ indicatorName ++ ";pass=<=0;key=true" in
  Ok (sliResult, indicatorName, sliQuery, sloDefinitionFrom indicatorName sloString).

Definition ProcessOpenSecurityProblemTile (ph : Handler.t)
    (securityProblemSelector : string) (startUnix endUnix : Time)
    : res (SLIResult.t * string * string * SLO.t) :=
  let problemQuery :=
    if Strings.Equal securityProblemSelector "" then ""
    else "securityProblemSelector=" ++ securityProblemSelector in
  problemQueryResult ←
    ExecuteGetDynatraceSecurityProblems env ph problemQuery startUnix endUnix;
  let indicatorName := "security_problems" in
  let value :=
    float64_of_int (DynatraceSecurityProblemQueryResult.TotalCount problemQueryResult) in
  let sliResult := SLIResult.mk indicatorName value true "" in
  let sliQuery := "SECPV2;" ++ problemQuery in
  let sloString := "sli=" ++ indicatorName ++ ";pass=<=0;key=true" in
  Ok (sliResult, indicatorName, sliQuery, sloDefinitionFrom indicatorName sloString).

(** The dimensions of a metric with their indices, last one first: the
    order in which both query generators walk them. *)
Definition dimensionsBackToFront (defs : list DimensionDefinition.t)
    : list (nat * DimensionDefinition.t) :=
  rev (combine (seq 0 (length defs)) defs).

Definition mergeClause (metricDimIx : nat) : string :=
  ":merge(" ++ Itoa (Z.of_nat metricDimIx) ++ ")".

(** The generated query of a tile: metric ID, unit, metric query, full
    query URL, and the two templates for the per-dimension SLI queries. *)
Record MetricQuery : Type := mkMetricQuery {
  mq_metricID : string;
  mq_metricUnit : string;
  mq_metricQuery : string;
  mq_fullMetricQuery : string;
  mq_entitySelectorSLIDefinition : string;
  mq_filterSLIDefinitionAggregator : string
}.

Definition GenerateMetricQueryFromDataExplorer (ph : Handler.t)
    (dataQuery : DataExplorerQuery.t) (tileManagementZoneFilter : string)
    (startUnix endUnix : Time) : res MetricQuery :=
  metricDefinition ← ExecuteMetricAPIDescribe env ph (DataExplorerQuery.Metric dataQuery);
  let metricAggregation := MetricDefinition.DefaultAggregationType metricDefinition in
  let mergeAggregator :=
    fold_left
      (fun mergeAggregator '(metricDimIx, def) =>
         let doMergeDimension :=
           fold_left (fun doMerge splitDimension =>
                        if Strings.Equal splitDimension (DimensionDefinition.Key def)
                        then false else doMerge)
                     (DataExplorerQuery.SplitBy dataQuery) true in
         if doMergeDimension then mergeAggregator ++ mergeClause metricDimIx
         else mergeAggregator)
      (dimensionsBackToFront (MetricDefinition.DimensionDefinitions metricDefinition))
      "" in
  (* (filterAggregator, filterSLIDefinitionAggregator,
      entitySelectorSLIDefinition, entityFilter) *)
  let '(filterAggregator, filterSLIDefinitionAggregator,
        entitySelectorSLIDefinition, entityFilter) :=
    match DataExplorerQuery.FilterBy dataQuery with
    | Some filterBy =>
        match FilterBy.NestedFilters filterBy with
        | nested :: _ =>
            match NestedFilterDataExplorer.Criteria nested with
            | [criterion] =>
                let filter := NestedFilterDataExplorer.Filter nested in
                if Strings.HasPrefix filter "dt.entity."
                then ("", "", ",entityId(FILTERDIMENSIONVALUE)",
                      "&entitySelector=entityId(" ++ Criterion.Value criterion ++ ")")
                else (":filter(" ++ Criterion.Evaluator criterion ++ "(" ++ filter
                        ++ "," ++ Criterion.Value criterion ++ "))",
                      ":filter(eq(" ++ filter ++ ",FILTERDIMENSIONVALUE))",
                      "", "")
            | _ => ("", "", "", "")
            end
        | [] => ("", "", "", "")
        end
    | None => ("", "", "", "")
    end in
  let filterSLIDefinitionAggregator :=
    match DataExplorerQuery.SplitBy dataQuery with
    | [splitBy] =>
        filterSLIDefinitionAggregator
          ++ ":filter(eq(" ++ splitBy ++ ",FILTERDIMENSIONVALUE))"
    | _ => filterSLIDefinitionAggregator
    end in
  let metricQuery :=
    "metricSelector=" ++ DataExplorerQuery.Metric dataQuery ++ mergeAggregator
      ++ filterAggregator ++ ":" ++ strings_ToLower env metricAggregation ++ ":names"
      ++ entityFilter ++ tileManagementZoneFilter in
  '(fullMetricQuery, metricID) ←
    BuildDynatraceMetricsQuery env ph metricQuery startUnix endUnix;
  Ok (mkMetricQuery metricID (MetricDefinition.Unit metricDefinition) metricQuery
        fullMetricQuery entitySelectorSLIDefinition filterSLIDefinitionAggregator).

(** What the loop over the metric's dimensions of a chart series keeps:
    merge clause, filter clause and the two SLI templates. *)
Record ChartAcc : Type := mkChartAcc {
  ca_mergeAggregator : string;
  ca_filterAggregator : string;
  ca_filterSLIDefinitionAggregator : string;
  ca_entitySelectorSLIDefinition : string
}.

(** One dimension of the metric against the dimensions of the series. *)
Definition chartDimensionStep (series : ChartSeries.t) (acc : ChartAcc)
    (metricDimIx : nat) : ChartAcc :=
  let metricDimIxAsString := Itoa (Z.of_nat metricDimIx) in
  let '(doMergeDimension, acc) :=
    fold_left
      (fun '(doMerge, acc) seriesDim =>
         if Strings.Equal (SeriesDimension.ID seriesDim) metricDimIxAsString
         then
           match SeriesDimension.Values seriesDim with
           | value :: _ =>
               (false,
                mkChartAcc (ca_mergeAggregator acc)
                  (":filter(eq(" ++ SeriesDimension.Name seriesDim ++ "," ++ value ++ "))")
                  (ca_filterSLIDefinitionAggregator acc)
                  (ca_entitySelectorSLIDefinition acc))
           | [] =>
               if Strings.HasPrefix (SeriesDimension.Name seriesDim) "dt.entity."
               then (false,
                     mkChartAcc (ca_mergeAggregator acc) (ca_filterAggregator acc)
                       (ca_filterSLIDefinitionAggregator acc)
                       ",entityId(FILTERDIMENSIONVALUE)")
               else (false,
                     mkChartAcc (ca_mergeAggregator acc) (ca_filterAggregator acc)
                       (":filter(eq(" ++ SeriesDimension.Name seriesDim
                          ++ ",FILTERDIMENSIONVALUE))")
                       (ca_entitySelectorSLIDefinition acc))
           end
         else (doMerge, acc))
      (ChartSeries.Dimensions series) (true, acc) in
  if doMergeDimension
  then mkChartAcc (ca_mergeAggregator acc ++ mergeClause metricDimIx)
         (ca_filterAggregator acc) (ca_filterSLIDefinitionAggregator acc)
         (ca_entitySelectorSLIDefinition acc)
  else acc.

(** The aggregation of a chart series as the metrics API names it. *)
Definition chartAggregation (series : ChartSeries.t) (defaultAggregation : string)
    : string :=
  let metricAggregation :=
    if Strings.Equal (ChartSeries.Aggregation series) "NONE" then defaultAggregation
    else ChartSeries.Aggregation series in
  let metricAggregation :=
    if Strings.Equal metricAggregation "PERCENTILE"
    then metricAggregation ++ "(" ++ fmt_f_value env (ChartSeries.Percentile series) ++ ")"
    else metricAggregation in
  let metricAggregation :=
    if Strings.Equal metricAggregation "OF_INTEREST_RATIO" then "avg"
    else metricAggregation in
  if Strings.Equal metricAggregation "OTHER_RATIO" then "avg" else metricAggregation.

Definition GenerateMetricQueryFromChart (ph : Handler.t) (series : ChartSeries.t)
    (tileManagementZoneFilter : string)
    (filtersPerEntityType : gmap string (gmap string (list string)))
    (startUnix endUnix : Time) : res MetricQuery :=
  metricDefinition ← ExecuteMetricAPIDescribe env ph (ChartSeries.Metric series);
  let acc :=
    fold_left (fun acc '(metricDimIx, _) => chartDimensionStep series acc metricDimIx)
      (dimensionsBackToFront (MetricDefinition.DimensionDefinitions metricDefinition))
      (mkChartAcc "" "" "" "") in
  let metricAggregation :=
    chartAggregation series (MetricDefinition.DefaultAggregationType metricDefinition) in
  let entityType :=
    match MetricDefinition.EntityType metricDefinition with
    | first :: _ => first
    | [] => ChartSeries.EntityType series
    end in
  let entityTileFilter :=
    GetEntitySelectorFromEntityFilter filtersPerEntityType entityType in
  let metricQuery :=
    "metricSelector=" ++ ChartSeries.Metric series ++ ca_mergeAggregator acc
      ++ ca_filterAggregator acc ++ ":" ++ strings_ToLower env metricAggregation
      ++ ":names&entitySelector=type(" ++ entityType ++ ")" ++ entityTileFilter
      ++ tileManagementZoneFilter in
  '(fullMetricQuery, metricID) ←
    BuildDynatraceMetricsQuery env ph metricQuery startUnix endUnix;
  Ok (mkMetricQuery metricID (MetricDefinition.Unit metricDefinition) metricQuery
        fullMetricQuery (ca_entitySelectorSLIDefinition acc)
        (ca_filterSLIDefinitionAggregator acc)).
End TileProcessors.

(** ** The SLI/SLO synthesizer *)

(** What one pass accumulates: the SLI results, the SLI definitions and the
    SLO document. The source passes the last two by pointer and appends in
    place. *)
Record Synth : Type := mkSynth {
  sliResults : list SLIResult.t;
  dashboardSLI : SLI.t;
  dashboardSLO : ServiceLevelObjectives.t
}.

Definition setIndicator (sli : SLI.t) (name query : string) : SLI.t :=
  SLI.mk (SLI.SpecVersion sli) (<[name := query]> (SLI.Indicators sli)).

Definition appendObjective (slo : ServiceLevelObjectives.t) (o : SLO.t)
    : ServiceLevelObjectives.t :=
  ServiceLevelObjectives.mk (ServiceLevelObjectives.Objectives slo ++ [o])%list
    (ServiceLevelObjectives.TotalScore slo) (ServiceLevelObjectives.Comparison slo).

(** [sliResults = append(sliResults, r); Indicators[name] = query;
    Objectives = append(Objectives, o)] *)
Definition emit (st : Synth) (r : SLIResult.t) (name query : string) (o : SLO.t) : Synth :=
  mkSynth (sliResults st ++ [r])%list
    (setIndicator (dashboardSLI st) name query)
    (appendObjective (dashboardSLO st) o).

(** A loop whose body may fail. *)
Fixpoint foldM {S A : Type} (f : S -> A -> res S) (l : list A) (s : S) : res S :=
  match l with
  | [] => Ok s
  | a :: rest => s' ← f s a; foldM f rest s'
  end.

(** The name, the replacement for [":names"] and the SLI query, as the loop
    over the dimensions of one data row builds them. *)
Record DimAcc : Type := mkDimAcc {
  da_indicatorName : string;
  da_filterSLIDefinitionAggregatorValue : string;
  da_metricQueryForSLI : string
}.

(** The loop over [singleDataEntry.Dimensions], in steps of two when
    [stride2] holds. In a step of two the entity ID is read at the next
    index, which is out of range when the list ends there. *)
Fixpoint dimensionLoop (stride2 : bool)
    (filterSLIDefinitionAggregator entitySelectorSLIDefinition : string)
    (dims : list string) (acc : DimAcc) : res DimAcc :=
  match dims with
  | [] => Ok acc
  | dimensionValue :: rest =>
      let indicatorName := da_indicatorName acc ++ "_" ++ dimensionValue in
      let filterValue :=
        ":names" ++ Strings.Replace filterSLIDefinitionAggregator
                      "FILTERDIMENSIONVALUE" dimensionValue 1 in
      if stride2 then
        if negb (Strings.Equal entitySelectorSLIDefinition "") then
          match rest with
          | dimensionEntityID :: rest' =>
              dimensionLoop stride2 filterSLIDefinitionAggregator
                entitySelectorSLIDefinition rest'
                (mkDimAcc indicatorName filterValue
                   (da_metricQueryForSLI acc
                      ++ Strings.Replace entitySelectorSLIDefinition
                           "FILTERDIMENSIONVALUE" dimensionEntityID 1))
          | [] => Panic
          end
        else
          match rest with
          | _ :: rest' =>
              dimensionLoop stride2 filterSLIDefinitionAggregator
                entitySelectorSLIDefinition rest'
                (mkDimAcc indicatorName filterValue (da_metricQueryForSLI acc))
          | [] => Ok (mkDimAcc indicatorName filterValue (da_metricQueryForSLI acc))
          end
      else
        dimensionLoop stride2 filterSLIDefinitionAggregator
          entitySelectorSLIDefinition rest
          (mkDimAcc indicatorName filterValue (da_metricQueryForSLI acc))
  end.

(** The arithmetic mean of the values of a data row. *)
Definition meanOfValues (values : list float) : float :=
  (fold_left PrimFloat.add values 0 / float64_of_int (Z.of_nat (length values)))%float.

Section Synthesizer.
Context (env : Env).

(** The settings of the tile every indicator of the tile shares. *)
Record TileSLO : Type := mkTileSLO {
  ts_baseIndicatorName : string;
  ts_passSLOs : list SLOCriteria.t;
  ts_warningSLOs : list SLOCriteria.t;
  ts_weight : Z;
  ts_keySli : bool
}.

Definition parseTileSLO (title : string) : TileSLO :=
  let '(baseIndicatorName, passSLOs, warningSLOs, weight, keySli) :=
    ParsePassAndWarningFromString env title [] [] in
  mkTileSLO baseIndicatorName passSLOs warningSLOs weight keySli.

Definition sloDefinitionOf (ts : TileSLO) (indicatorName : string) : SLO.t :=
  SLO.mk indicatorName (ts_passSLOs ts) (ts_warningSLOs ts) (ts_weight ts) (ts_keySli ts).

(** The names of one data row before cleaning: the base name, extended by
    the row's dimensions when the result has more than one row. *)
Definition rowNames (noOfDimensionsInChart : nat) (ts : TileSLO) (mq : MetricQuery)
    (dataResultCount : nat) (singleDataEntry : MetricQueryResultNumbers.t)
    : res DimAcc :=
  let start := mkDimAcc (ts_baseIndicatorName ts) ":names" (mq_metricQuery mq) in
  if (1 <? dataResultCount)%nat then
    let dims := MetricQueryResultNumbers.Dimensions singleDataEntry in
    let stride2 := (length dims =? noOfDimensionsInChart * 2)%nat in
    dimensionLoop stride2 (mq_filterSLIDefinitionAggregator mq)
      (mq_entitySelectorSLIDefinition mq) dims start
  else Ok start.

(** The body of the loop over the data rows of one matching result. *)
Definition processDataEntry (noOfDimensionsInChart : nat) (ts : TileSLO)
    (mq : MetricQuery) (dataResultCount : nat) (st : Synth)
    (singleDataEntry : MetricQueryResultNumbers.t) : res Synth :=
  acc ← rowNames noOfDimensionsInChart ts mq dataResultCount singleDataEntry;
  let indicatorName := CleanIndicatorName env (da_indicatorName acc) in
  let value := meanOfValues (MetricQueryResultNumbers.Values singleDataEntry) in
  let value := scaleData (mq_metricID mq) (mq_metricUnit mq) value in
  Ok (emit st (SLIResult.mk indicatorName value true "")
        indicatorName
        ("MV2;" ++ mq_metricUnit mq ++ ";"
           ++ Strings.Replace (da_metricQueryForSLI acc) ":names"
                (da_filterSLIDefinitionAggregatorValue acc) 1)
        (sloDefinitionOf ts indicatorName)).

(** The body of the loop over the results of the query. *)
Definition processSingleResult (noOfDimensionsInChart : nat) (ts : TileSLO)
    (mq : MetricQuery) (st : Synth) (singleResult : MetricQueryResultValues.t)
    : res Synth :=
  if isMatchingMetricID (MetricQueryResultValues.MetricID singleResult) (mq_metricID mq)
  then
    let data := MetricQueryResultValues.Data singleResult in
    foldM (processDataEntry noOfDimensionsInChart ts mq (length data)) data st
  else Ok st.

(** The results the call itself returns are the ones it appends to an
    empty list; the two documents are updated through their pointers. The
    result is the returned list, the SLI definitions and the SLO document. *)
Definition GenerateSLISLOFromMetricsAPIQuery (ph : Handler.t)
    (noOfDimensionsInChart : nat) (ts : TileSLO) (mq : MetricQuery)
    (dashboardSLI : SLI.t) (dashboardSLO : ServiceLevelObjectives.t)
    : res Synth :=
  match ExecuteMetricsAPIQuery env ph (mq_fullMetricQuery mq) with
  | Panic => Panic
  | Err e =>
      Ok (mkSynth [SLIResult.mk (ts_baseIndicatorName ts) 0 false e]
            (setIndicator dashboardSLI (ts_baseIndicatorName ts) (mq_metricQuery mq))
            dashboardSLO)
  | Ok queryResult =>
      foldM (processSingleResult noOfDimensionsInChart ts mq)
        (DynatraceMetricsQueryResult.Result queryResult)
        (mkSynth [] dashboardSLI dashboardSLO)
  end.

(** [newSliResults := GenerateSLISLO...(...); sliResults = append(sliResults,
    newSliResults...)] *)
Definition synthesize (ph : Handler.t) (noOfDimensionsInChart : nat) (ts : TileSLO)
    (mq : MetricQuery) (st : Synth) : res Synth :=
  new ← GenerateSLISLOFromMetricsAPIQuery ph noOfDimensionsInChart ts mq
          (dashboardSLI st) (dashboardSLO st);
  Ok (mkSynth (sliResults st ++ sliResults new)%list (dashboardSLI new) (dashboardSLO new)).
End Synthesizer.

(** ** USQL rows *)

(** [rowValue[i].(float64)] and [rowValue[i].(string)]: an index out of range
    or a value of another type panics. *)
Definition rowFloat (rowValue : list json_value) (i : nat) : res float :=
  match rowValue !! i with
  | Some (JNumber f) => Ok f
  | _ => Panic
  end.

Definition rowString (rowValue : list json_value) (i : nat) : res string :=
  match rowValue !! i with
  | Some (JString s) => Ok s
  | _ => Panic
  end.

(** The dimension name and value of a row for a visualization type; [None]
    for a type that is not supported (the row is skipped). *)
Definition usqlRow (tileType : string) (rowValue : list json_value)
    : res (option (string * float)) :=
  if Strings.Equal tileType "SINGLE_VALUE" then
    dimensionValue ← rowFloat rowValue 0; Ok (Some ("", dimensionValue))
  else if Strings.Equal tileType "PIE_CHART" then
    dimensionName ← rowString rowValue 0;
    dimensionValue ← rowFloat rowValue 1; Ok (Some (dimensionName, dimensionValue))
  else if Strings.Equal tileType "COLUMN_CHART" then
    dimensionName ← rowString rowValue 0;
    dimensionValue ← rowFloat rowValue 1; Ok (Some (dimensionName, dimensionValue))
  else if Strings.Equal tileType "TABLE" then
    dimensionName ← rowString rowValue 0;
    match length rowValue with
    | O => Panic
    | S last => dimensionValue ← rowFloat rowValue last;
                Ok (Some (dimensionName, dimensionValue))
    end
  else Ok None.

(** ** Dashboard processing *)

(** What [QueryDynatraceDashboardForSLIs] returns beside the error. *)
Record DashboardResult : Type := mkDashboardResult {
  dr_dashboardLinkAsLabel : string;
  dr_dashboard : option DynatraceDashboard.t;
  dr_SLI : option SLI.t;
  dr_SLO : option ServiceLevelObjectives.t;
  dr_sliResults : list SLIResult.t
}.

Definition managementZoneOf (f : option DashboardFilter.t) : option ManagementZone.t :=
  match f with
  | Some filter => DashboardFilter.ManagementZone filter
  | None => None
  end.

Section DashboardProcessing.
Context (env : Env).

(** [sliResults = append(...); Indicators[...] = ...; Objectives = append(...)]
    after a tile processor returned without error; an error is logged and
    nothing is added. *)
Definition addTileResult (st : Synth) (r : res (SLIResult.t * string * string * SLO.t))
    : res Synth :=
  match r with
  | Ok (sliResult, sliIndicator, sliQuery, sloDefinition) =>
      Ok (emit st sliResult sliIndicator sliQuery sloDefinition)
  | Err _ => Ok st
  | Panic => Panic
  end.

(** [status(...)] extended by the management zones of the dashboard and of
    the tile. *)
Definition problemSelectorOf (status : string) (dashboardJSON : DynatraceDashboard.t)
    (tile : Tile.t) : string :=
  let problemSelector :=
    match managementZoneOf (DynatraceDashboard.DashboardFilter dashboardJSON) with
    | Some mz => status ++ ",managementZoneIds(" ++ ManagementZone.ID mz ++ ")"
    | None => status
    end in
  match DashboardFilter.ManagementZone (Tile.TileFilter tile) with
  | Some mz => problemSelector ++ ",managementZoneIds(" ++ ManagementZone.ID mz ++ ")"
  | None => problemSelector
  end.

(** The DTAQL branch: one indicator per row of the USQL result. *)
Definition processUSQLRow (tile : Tile.t) (ts : TileSLO) (st : Synth)
    (rowValue : list json_value) : res Synth :=
  row ← usqlRow (Tile.Type_ tile) rowValue;
  match row with
  | None => Ok st
  | Some (dimensionName, dimensionValue) =>
      let indicatorName :=
        if Strings.Equal dimensionName "" then ts_baseIndicatorName ts
        else ts_baseIndicatorName ts ++ "_" ++ dimensionName in
      Ok (emit st (SLIResult.mk indicatorName dimensionValue true "")
            indicatorName
            ("USQL;" ++ Tile.Type_ tile ++ ";" ++ dimensionName ++ ";" ++ Tile.Query tile)
            (sloDefinitionOf ts indicatorName))
  end.

(** The management zone filter of a tile overrides the one of the
    dashboard. *)
Definition tileManagementZoneFilterOf (dashboardManagementZoneFilter : string)
    (tile : Tile.t) : string :=
  match DashboardFilter.ManagementZone (Tile.TileFilter tile) with
  | Some mz => ",mzId(" ++ ManagementZone.ID mz ++ ")"
  | None => dashboardManagementZoneFilter
  end.

(** Custom charts and USQL tiles name themselves in different fields. *)
Definition tileTitleOf (tile : Tile.t) : string :=
  let tileTitle := FilterConfig.CustomName (Tile.FilterConfig tile) in
  let tileTitle := if Strings.Equal tileTitle "" then Tile.CustomName tile
                   else tileTitle in
  if Strings.Equal tileTitle "" then Tile.Name tile else tileTitle.

(** The body of the loop over the queries of a data explorer tile: a query
    that cannot be generated is passed over. *)
Definition dataQueryStep (ph : Handler.t) (ts : TileSLO)
    (tileManagementZoneFilter : string) (startUnix endUnix : Time)
    (st : Synth) (dataQuery : DataExplorerQuery.t) : res Synth :=
  match GenerateMetricQueryFromDataExplorer env ph dataQuery
          tileManagementZoneFilter startUnix endUnix with
  | Ok mq => synthesize env ph (length (DataExplorerQuery.SplitBy dataQuery)) ts mq st
  | Err _ => Ok st
  | Panic => Panic
  end.

(** The body of the loop over the series of a custom chart. *)
Definition chartSeriesStep (ph : Handler.t) (tile : Tile.t) (ts : TileSLO)
    (tileManagementZoneFilter : string) (startUnix endUnix : Time)
    (st : Synth) (series : ChartSeries.t) : res Synth :=
  match GenerateMetricQueryFromChart env ph series tileManagementZoneFilter
          (FilterConfig.FiltersPerEntityType (Tile.FilterConfig tile))
          startUnix endUnix with
  | Ok mq => synthesize env ph (length (ChartSeries.Dimensions series)) ts mq st
  | Err _ => Ok st
  | Panic => Panic
  end.

(** The body of the loop over the tiles of the dashboard. *)
Definition processTile (ph : Handler.t) (dashboardJSON : DynatraceDashboard.t)
    (dashboardManagementZoneFilter : string) (startUnix endUnix : Time)
    (st : Synth) (tile : Tile.t) : res Synth :=
  let tileType := Tile.TileType tile in
  if Strings.Equal tileType "HEADER" then Ok st
  else if Strings.Equal tileType "SYNTHETIC_TESTS" then Ok st
  else if Strings.Equal tileType "MARKDOWN" then
    if Strings.Contains (Tile.Markdown tile) "KQG."
    then Ok (mkSynth (sliResults st) (dashboardSLI st)
               (ParseMarkdownConfiguration env (Tile.Markdown tile) (dashboardSLO st)))
    else Ok st
  else
    let tileManagementZoneFilter :=
      tileManagementZoneFilterOf dashboardManagementZoneFilter tile in
    if Strings.Equal tileType "SLO" then
      foldM (fun st sloEntity =>
               addTileResult st (ProcessSLOTile env ph sloEntity startUnix endUnix))
            (Tile.AssignedEntities tile) st
    else
      st ← (if Strings.Equal tileType "OPEN_PROBLEMS" then
              let entitySelector := "" in
              let problemSelector := problemSelectorOf "status(open)" dashboardJSON tile in
              addTileResult st
                (ProcessOpenProblemTile env ph problemSelector entitySelector
                   startUnix endUnix)
            else Ok st);
      st ← (if Strings.Equal tileType "OPEN_SECURITY_PROBLEMS"
               || Strings.Equal tileType "OPEN_PROBLEMS" then
              let problemSelector := problemSelectorOf "status(OPEN)" dashboardJSON tile in
              addTileResult st
                (ProcessOpenSecurityProblemTile env ph problemSelector startUnix endUnix)
            else Ok st);
      if Strings.Equal tileType "DATA_EXPLORER" then
        let ts := parseTileSLO env (Tile.Name tile) in
        if Strings.Equal (ts_baseIndicatorName ts) "" then Ok st
        else
          foldM (dataQueryStep ph ts tileManagementZoneFilter startUnix endUnix)
                (Tile.Queries tile) st
      else
        let ts := parseTileSLO env (tileTitleOf tile) in
        if Strings.Equal (ts_baseIndicatorName ts) "" then Ok st
        else
          st ← (if Strings.Equal tileType "CUSTOM_CHARTING" then
                  foldM (chartSeriesStep ph tile ts tileManagementZoneFilter
                           startUnix endUnix)
                        (FilterConfig.Series (Tile.FilterConfig tile)) st
                else Ok st);
          if Strings.Equal tileType "DTAQL" then
            usql ← BuildDynatraceUSQLQuery env ph (Tile.Query tile) startUnix endUnix;
            match ExecuteUSQLQuery env ph usql with
            | Ok usqlResult =>
                foldM (processUSQLRow tile ts) (DTUSQLResult.Values usqlResult) st
            | Err _ => Ok st
            | Panic => Panic
            end
          else Ok st.

Definition initialSLO : ServiceLevelObjectives.t :=
  ServiceLevelObjectives.mk []
    (SLOScore.mk "90%" "75%")
    (SLOComparison.mk "single_result" "pass" 1 "avg").

Definition initialSynth : Synth := mkSynth [] (SLI.mk "0.1.4" ∅) initialSLO.

(** A stored dashboard with an empty [dashboard] setting means "query", for
    backward compatibility. *)
Definition dashboardToLoad (existingDashboardContent : string) (err : option string)
    (dashboard : string) : string :=
  match err with
  | None =>
      if negb (Strings.Equal existingDashboardContent "") && Strings.Equal dashboard ""
      then DynatraceConfigDashboardQUERY else dashboard
  | Some _ => dashboard
  end.

Definition dashboardManagementZoneFilterOf (dashboardJSON : DynatraceDashboard.t)
    : string :=
  match managementZoneOf (DynatraceDashboard.DashboardFilter dashboardJSON) with
  | Some mz => ",mzId(" ++ ManagementZone.ID mz ++ ")"
  | None => ""
  end.

(** The loop over the tiles of a dashboard. *)
Definition processTiles (ph : Handler.t) (dashboardJSON : DynatraceDashboard.t)
    (startUnix endUnix : Time) (tiles : list Tile.t) (st : Synth) : res Synth :=
  foldM (processTile ph dashboardJSON (dashboardManagementZoneFilterOf dashboardJSON)
           startUnix endUnix)
        tiles st.

(** The link to the dashboard for the time frame and the management zone,
    passed back as a label. *)
Definition dashboardLink (ph : Handler.t) (dashboardJSON : DynatraceDashboard.t)
    (startUnix endUnix : Time) : string :=
  let startInString := TimestampToString env startUnix in
  let endInString := TimestampToString env endUnix in
  let mgmtZone :=
    match managementZoneOf (DynatraceDashboard.DashboardFilter dashboardJSON) with
    | Some mz => ";gf=" ++ ManagementZone.ID mz
    | None => ""
    end in
  Handler.ApiURL ph ++ "#dashboard;id=" ++ DynatraceDashboard.ID dashboardJSON
    ++ ";gtf=c_" ++ startInString ++ "_" ++ endInString ++ mgmtZone.

Definition QueryDynatraceDashboardForSLIs (ph : Handler.t) (keptnEvent : BaseKeptnEvent.t)
    (dashboard : string) (startUnix endUnix : Time) : res DashboardResult :=
  let '(existingDashboardContent, err) :=
    GetKeptnResource env keptnEvent (DynatraceDashboardFilename env) in
  let dashboard := dashboardToLoad existingDashboardContent err dashboard in
  '(dashboardJSON, dashboard, err) ← loadDynatraceDashboard env ph keptnEvent dashboard;
  match err with
  | Some e => Err ("Error while processing dashboard config '" ++ dashboard ++ "' - " ++ e)
  | None =>
      match dashboardJSON with
      | None => Ok (mkDashboardResult "" None None None [])
      | Some dashboardJSON =>
          let dashboardLinkAsLabel :=
            dashboardLink ph dashboardJSON startUnix endUnix in
          if negb (HasDashboardChanged env dashboardJSON existingDashboardContent)
          then Ok (mkDashboardResult dashboardLinkAsLabel None None None [])
          else
            st ← processTiles ph dashboardJSON startUnix endUnix
                   (DynatraceDashboard.Tiles dashboardJSON) initialSynth;
            Ok (mkDashboardResult dashboardLinkAsLabel (Some dashboardJSON)
                  (Some (dashboardSLI st)) (Some (dashboardSLO st)) (sliResults st))
      end
  end.
End DashboardProcessing.

(** ** The ad-hoc resolver *)

Definition defaultQuery (selector : string) : string :=
  "metricSelector=" ++ selector
    ++ "&entitySelector=type(SERVICE),tag(keptn_project:$PROJECT),tag(keptn_stage:$STAGE),tag(keptn_service:$SERVICE),tag(keptn_deployment:$DEPLOYMENT)".

Definition getTimeseriesConfig (ph : Handler.t) (metric : string) : res string :=
  match Handler.CustomQueries ph !! metric with
  | Some val => Ok val
  | None =>
      if Strings.Equal metric Throughput
      then Ok (defaultQuery "builtin:service.requestCount.total:merge(0):sum")
      else if Strings.Equal metric ErrorRate
      then Ok (defaultQuery "builtin:service.errors.total.rate:merge(0):avg")
      else if Strings.Equal metric ResponseTimeP50
      then Ok (defaultQuery "builtin:service.response.time:merge(0):percentile(50)")
      else if Strings.Equal metric ResponseTimeP90
      then Ok (defaultQuery "builtin:service.response.time:merge(0):percentile(90)")
      else if Strings.Equal metric ResponseTimeP95
      then Ok (defaultQuery "builtin:service.response.time:merge(0):percentile(95)")
      else Err ("Unsupported SLI metric " ++ metric)
  end.

(** The error for a result that does not hold exactly one data row. *)
Definition ambiguousResultError (env : Env) (metricsQuery : string)
    (i : MetricQueryResultValues.t) : string :=
  "Dynatrace Metrics API returned "
    ++ Itoa (Z.of_nat (length (MetricQueryResultValues.Data i)))
    ++ " result values, expected 1 for query: " ++ metricsQuery
    ++ "." ++ String (ascii_of_nat 10)
         "Please ensure the response contains exactly one value (e.g., by using :merge(0):avg for the metric). Here is the output for troubleshooting: "
    ++ json_Marshal_MetricQueryResultValues env i.

(** The loop over the results of a metrics query in [GetSLIValue]: it stops
    at the first result whose metric ID matches, with an error unless that
    result has exactly one data row. The result is [(metricIDExists,
    actualMetricValue)]. *)
Fixpoint firstMatchingValue (env : Env) (metricsQuery metricID : string)
    (results : list MetricQueryResultValues.t) : res (bool * float) :=
  match results with
  | [] => Ok (false, 0%float)
  | i :: rest =>
      if isMatchingMetricID (MetricQueryResultValues.MetricID i) metricID then
        match MetricQueryResultValues.Data i with
        | [data] =>
            match MetricQueryResultNumbers.Values data with
            | value :: _ => Ok (true, value)
            | [] => Panic
            end
        | _ =>
            Err (ambiguousResultError env metricsQuery i)
        end
      else firstMatchingValue env metricsQuery metricID rest
  end.

Section Resolver.
Context (env : Env).

(** The loop over the rows of a USQL result: the value of the last row
    whose dimension name is the requested one. *)
Definition usqlLookup (tileName requestedDimensionName : string)
    (acc : bool * float) (rowValue : list json_value) : res (bool * float) :=
  row ← usqlRow tileName rowValue;
  match row with
  | None => Ok acc
  | Some (dimensionName, dimensionValue) =>
      if Strings.Equal dimensionName requestedDimensionName
      then Ok (true, dimensionValue) else Ok acc
  end.

(** [MV2;<unit>;<query>]: the unit and the query. Without a second
    semicolon the index is -1 and the slice expression panics. *)
Definition splitMV2 (metricsQuery : string) : res (string * string) :=
  if Strings.HasPrefix metricsQuery "MV2;" then
    metricsQuery ← Strings.slice_from metricsQuery 4;
    let queryStartIndex := Strings.Index metricsQuery ";" in
    metricUnit ← Strings.slice_to metricsQuery queryStartIndex;
    metricsQuery ← Strings.slice_from metricsQuery (queryStartIndex + 1);
    Ok (metricUnit, metricsQuery)
  else Ok ("", metricsQuery).

Definition GetSLIValue (ph : Handler.t) (metric : string) (startUnix endUnix : Time)
    : res float :=
  match getTimeseriesConfig ph metric with
  | Panic => Panic
  | Err e => Err ("Error when fetching SLI config for " ++ metric ++ " " ++ e ++ ".")
  | Ok metricsQuery =>
      resolved ←
        ((if Strings.HasPrefix metricsQuery "USQL;" then
           match Strings.Split metricsQuery ";" with
           | [_; tileName; requestedDimensionName; usqlRawQuery] =>
               usql ← BuildDynatraceUSQLQuery env ph usqlRawQuery startUnix endUnix;
               match ExecuteUSQLQuery env ph usql with
               | Panic => Panic
               | Err e => Err ("Error executing USQL Query " ++ e)
               | Ok usqlResult =>
                   foldM (usqlLookup tileName requestedDimensionName)
                     (DTUSQLResult.Values usqlResult) (false, 0%float)
               end
           | _ => Err ("USQL Query incorrect format: " ++ metricsQuery)
           end
         else if Strings.HasPrefix metricsQuery "SLO;" then
           match Strings.Split metricsQuery ";" with
           | [_; sloID] =>
               match ExecuteGetDynatraceSLO env ph sloID startUnix endUnix with
               | Panic => Panic
               | Err e => Err ("Error executing SLO Dynatrace Query " ++ e)
               | Ok sloResult =>
                   Ok (true, DynatraceSLOResult.EvaluatedPercentage sloResult)
               end
           | _ => Err ("SLO Indicator query has wrong format. Should be SLO;<SLID> but is: "
                       ++ metricsQuery)
           end
         else if Strings.HasPrefix metricsQuery "PV2;" then
           match Strings.Split metricsQuery ";" with
           | [_; problemQuery] =>
               match ExecuteGetDynatraceProblems env ph problemQuery startUnix endUnix with
               | Panic => Panic
               | Err e => Err ("Error executing Dynatrace Problem v2 Query " ++ e)
               | Ok problemQueryResult =>
                   Ok (true, float64_of_int
                               (DynatraceProblemQueryResult.TotalCount problemQueryResult))
               end
           | _ => Err ("Problemv2 Indicator query has wrong format. Should be PV2;entitySelectory=selector&problemSelector=selector but is: "
                       ++ metricsQuery)
           end
         else if Strings.HasPrefix metricsQuery "SECPV2;" then
           match Strings.Split metricsQuery ";" with
           | [_; problemQuery] =>
               match ExecuteGetDynatraceSecurityProblems env ph problemQuery
                       startUnix endUnix with
               | Panic => Panic
               | Err e => Err ("Error executing Dynatrace Security Problem v2 Query " ++ e)
               | Ok problemQueryResult =>
                   Ok (true, float64_of_int
                               (DynatraceSecurityProblemQueryResult.TotalCount
                                  problemQueryResult))
               end
           | _ => Err ("Security Problemv2 Indicator query has wrong format. Should be SECPV2;securityProblemSelector=selector but is: "
                       ++ metricsQuery)
           end
         else
           '(metricUnit, metricsQuery) ← splitMV2 metricsQuery;
           '(metricsQuery, metricID) ←
             BuildDynatraceMetricsQuery env ph metricsQuery startUnix endUnix;
           match ExecuteMetricsAPIQuery env ph metricsQuery with
           | Panic => Panic
           | Err e =>
               Err ("Dynatrace Metrics API returned an error: " ++ e
                    ++ ". This was the query executed: " ++ metricsQuery)
           | Ok result =>
               '(metricIDExists, actualMetricValue) ←
                 firstMatchingValue env metricsQuery metricID
                   (DynatraceMetricsQueryResult.Result result);
               Ok (metricIDExists, scaleData metricID metricUnit actualMetricValue)
           end) : res (bool * float));
      let '(metricIDExists, actualMetricValue) := (resolved : bool * float) in
      if metricIDExists then Ok actualMetricValue
      else Err ("Not able to query identifier " ++ metric ++ " from Dynatrace")
  end.
End Resolver.

(** ** A concrete environment

    The theorems below hold for every [Env]. To run the package on concrete
    inputs the examples use the following stand-ins: a model of [net/url]
    for URLs made of a base URL followed by a query, simple versions of the
    [common_sli] helpers, and a backend given by a table of pages. *)

Module GoURL.

Definition isCTL (c : ascii) : bool :=
  (nat_of_ascii c <? 32)%nat || (nat_of_ascii c =? 127)%nat.

Fixpoint containsCTL (s : string) : bool :=
  match s with
  | EmptyString => false
  | String c s' => isCTL c || containsCTL s'
  end.

(** [strings.Cut] at a one-byte separator: before, after, found. *)
Fixpoint cut (s : string) (sep : ascii) : string * string * bool :=
  match s with
  | EmptyString => (EmptyString, EmptyString, false)
  | String c s' =>
      if Ascii.eqb c sep then (EmptyString, s', true)
      else let '(before, after, found) := cut s' sep in (String c before, after, found)
  end.

Definition hexDigit (n : nat) : ascii :=
  if (n <? 10)%nat then ascii_of_nat (48 + n) else ascii_of_nat (55 + n).

Definition unhex (c : ascii) : option nat :=
  let n := nat_of_ascii c in
  if (48 <=? n)%nat && (n <=? 57)%nat then Some (n - 48)%nat
  else if (97 <=? n)%nat && (n <=? 102)%nat then Some (n - 87)%nat
  else if (65 <=? n)%nat && (n <=? 70)%nat then Some (n - 55)%nat
  else None.

Definition isAlnum (c : ascii) : bool :=
  let n := nat_of_ascii c in
  ((48 <=? n) && (n <=? 57) || (65 <=? n) && (n <=? 90) || (97 <=? n) && (n <=? 122))%nat.

(** [shouldEscape] in the mode of a query component. *)
Definition shouldEscape (c : ascii) : bool :=
  negb (isAlnum c || existsb (Ascii.eqb c) ["-"; "_"; "."; "~"]%char).

Fixpoint QueryEscape (s : string) : string :=
  match s with
  | EmptyString => EmptyString
  | String c s' =>
      if Ascii.eqb c " "%char then String "+"%char (QueryEscape s')
      else if shouldEscape c
      then String "%"%char
             (String (hexDigit (nat_of_ascii c / 16))
                (String (hexDigit (nat_of_ascii c mod 16)) (QueryEscape s')))
      else String c (QueryEscape s')
  end.

Fixpoint QueryUnescape (s : string) : option string :=
  match s with
  | EmptyString => Some EmptyString
  | String c s' =>
      if Ascii.eqb c "%"%char then
        match s' with
        | String h (String l s'') =>
            match unhex h, unhex l, QueryUnescape s'' with
            | Some hi, Some lo, Some t => Some (String (ascii_of_nat (16 * hi + lo)) t)
            | _, _, _ => None
            end
        | _ => None
        end
      else
        option_map (String (if Ascii.eqb c "+"%char then " "%char else c))
                   (QueryUnescape s')
  end.

(** [url.ParseQuery]: pairs separated by [&]; a pair with a semicolon or a
    bad escape is skipped and reported. *)
Definition parsePair (acc : gmap string (list string) * option string) (pair : string)
    : gmap string (list string) * option string :=
  let '(m, err) := acc in
  if Strings.Contains pair ";"
  then (m, Some "invalid semicolon separator in query")
  else if Strings.Equal pair "" then (m, err)
  else
    let '(key, value, _) := cut pair "=" in
    match QueryUnescape key, QueryUnescape value with
    | Some key, Some value => (Values.Add m key value, err)
    | _, _ => (m, Some (default "invalid URL escape" err))
    end.

Definition ParseQuery (query : string) : gmap string (list string) * option string :=
  fold_left parsePair (Strings.Split query "&") (∅, None).

(** [Values.Encode]: the pairs sorted by key, escaped, joined by [&]. *)
Definition keyLe (a b : string * list string) : Prop := Is_true (String.leb (fst a) (fst b)).

Definition encodePair (key : string) (acc : string) (value : string) : string :=
  (if Strings.Equal acc "" then "" else acc ++ "&")
    ++ QueryEscape key ++ "=" ++ QueryEscape value.

Definition Encode (v : gmap string (list string)) : string :=
  fold_left (fun acc '(key, values) => fold_left (encodePair key) values acc)
    (merge_sort keyLe (map_to_list v)) "".

(** [url.Parse] and [URL.String]: scheme, authority and path are kept as
    written in [Path]; the fragment is kept as written. *)
Definition Parse (rawURL : string) : res URL.t :=
  let '(u, frag, _) := cut rawURL "#" in
  if containsCTL u
  then Err ("parse " ++ dquote ++ u ++ dquote ++ ": net/url: invalid control character in URL")
  else
    let '(rest, rawQuery, found) := cut u "?" in
    let force := found && Strings.Equal rawQuery "" in
    Ok (URL.mk "" "" "" rest "" force rawQuery frag "").

Definition String_ (u : URL.t) : string :=
  URL.Path u
    ++ (if URL.ForceQuery u || negb (Strings.Equal (URL.RawQuery u) "")
        then "?" ++ URL.RawQuery u else "")
    ++ (if Strings.Equal (URL.Fragment u) "" then "" else "#" ++ URL.Fragment u).

End GoURL.

Module Example.

(** Stand-ins for package [common_sli]. *)
Definition timestamp (t : Time) : string := Itoa (t * 1000).

Definition cleanName (name : string) : string :=
  Strings.map_bytes
    (fun c => if existsb (Ascii.eqb c) [" "; "/"; "%"; "$"; "."]%char then "_"%char else c)
    name.

Definition placeholders (input : string) (event : BaseKeptnEvent.t) : string :=
  let input := Strings.Replace input "$PROJECT" (BaseKeptnEvent.Project event) (-1) in
  let input := Strings.Replace input "$STAGE" (BaseKeptnEvent.Stage event) (-1) in
  let input := Strings.Replace input "$SERVICE" (BaseKeptnEvent.Service event) (-1) in
  Strings.Replace input "$DEPLOYMENT" (BaseKeptnEvent.Deployment event) (-1).

(** Reads [sli=], [pass=], [warning=], [weight=<digit>] and [key=true] from
    the segments of a tile title. *)
Definition parseSegment
    (acc : string * list SLOCriteria.t * list SLOCriteria.t * Z * bool)
    (segment : string) : string * list SLOCriteria.t * list SLOCriteria.t * Z * bool :=
  let '(sli, pass, warning, weight, key) := acc in
  let '(name, value, found) := GoURL.cut segment "=" in
  if negb found then acc
  else if Strings.Equal name "sli" then (value, pass, warning, weight, key)
  else if Strings.Equal name "pass"
  then (sli, (pass ++ [SLOCriteria.mk (Strings.Split value ",")])%list, warning, weight, key)
  else if Strings.Equal name "warning"
  then (sli, pass, (warning ++ [SLOCriteria.mk (Strings.Split value ",")])%list, weight, key)
  else if Strings.Equal name "weight"
  then match value with
       | String d EmptyString => (sli, pass, warning, Z.of_nat (nat_of_ascii d) - 48, key)
       | _ => acc
       end
  else if Strings.Equal name "key" then (sli, pass, warning, weight, Strings.Equal value "true")
  else acc.

Definition parseTitle (customName : string)
    (defaultPass defaultWarning : list string)
    : string * list SLOCriteria.t * list SLOCriteria.t * Z * bool :=
  fold_left parseSegment (Strings.Split customName ";") ("", [], [], 1, false).

(** A backend: the page served at each URL ([None]: the request fails), and
    what each body decodes to. *)
Record Backend : Type := mkBackend {
  page : string -> option (Z * string);
  dashboards : string -> option DynatraceDashboards.t;
  dashboard : string -> option DynatraceDashboard.t;
  problems : string -> option Z;
  securityProblems : string -> option Z;
  metricDefinition : string -> option MetricDefinition.t;
  metrics : string -> option DynatraceMetricsQueryResult.t;
  storedDashboard : string;
  marshalDashboard : DynatraceDashboard.t -> string
}.

Definition decoded {A : Type} (o : option A) : res A :=
  match o with
  | Some a => Ok a
  | None => Err "unexpected end of JSON input"
  end.

Definition env (b : Backend) : Env :=
  {| strings_ToLower := Strings.lowerASCII;
     strings_ToUpper := Strings.upperASCII;
     http_Do := fun _ url _ =>
       match page b url with
       | Some r => Ok r
       | None => Err ("Get " ++ dquote ++ url ++ dquote ++ ": connection refused")
       end;
     json_DtEnvAPIv2Error := fun _ => decoded None;
     json_DynatraceDashboards := fun body => decoded (dashboards b body);
     json_DynatraceDashboard := fun body => decoded (dashboard b body);
     json_DynatraceSLOResult := fun _ => decoded None;
     json_DynatraceProblemQueryResult := fun body =>
       decoded (option_map (fun n => DynatraceProblemQueryResult.mk n 50) (problems b body));
     json_DynatraceSecurityProblemQueryResult := fun body =>
       decoded (option_map (fun n => DynatraceSecurityProblemQueryResult.mk n 50 "")
                  (securityProblems b body));
     json_MetricDefinition := fun body => decoded (metricDefinition b body);
     json_DynatraceMetricsQueryResult := fun body => decoded (metrics b body);
     json_DTUSQLResult := fun _ => decoded None;
     json_MarshalIndent_Dashboard := marshalDashboard b;
     json_Marshal_MetricQueryResultValues := fun r => MetricQueryResultValues.MetricID r;
     fmt_f := fun _ => "0.000000";
     fmt_f_value := fun _ => "0.000000";
     url_Parse := GoURL.Parse;
     url_ParseQuery := GoURL.ParseQuery;
     url_Encode := GoURL.Encode;
     url_String := GoURL.String_;
     TimestampToString := timestamp;
     CleanIndicatorName := cleanName;
     ReplaceKeptnPlaceholders := placeholders;
     ParsePassAndWarningFromString := parseTitle;
     ParseMarkdownConfiguration := fun _ slo => slo;
     GetKeptnResource := fun _ _ => (storedDashboard b, None);
     DynatraceDashboardFilename := "dynatrace/dashboard.json" |}.

(** A stand-in for the serialized dashboard: its ID followed by the name and
    the markdown of every tile. *)
Definition marshal (d : DynatraceDashboard.t) : string :=
  fold_left (fun acc tile => acc ++ ";" ++ Tile.Name tile ++ ";" ++ Tile.Markdown tile)
    (DynatraceDashboard.Tiles d) (DynatraceDashboard.ID d).

Definition noBackend : Backend :=
  mkBackend (fun _ => None) (fun _ => None) (fun _ => None) (fun _ => None)
    (fun _ => None) (fun _ => None) (fun _ => None) "" marshal.

Definition event : BaseKeptnEvent.t :=
  BaseKeptnEvent.mk "sockshop" "staging" "carts" "direct" "performance" ∅.

Definition handler : Handler.t :=
  Handler.mk "https://tenant.example.com" event ∅ ∅ [].

End Example.

(** ** The patterns the specification describes *)

(** The UUID pattern as the specification words it: 8-4-4-4-12 hexadecimal
    digits, version nibble 4, variant nibble one of 8, 9, a, b, A, B. *)
Definition uuidPatternOfSpec : Regexp.regex :=
  let hex := hex_class in
  let variant := Regexp.Class ["8"; "9"; "a"; "b"; "A"; "B"]%char [] in
  Regexp.Cat (Regexp.Rep 8 hex)
 (Regexp.Cat (Regexp.Lit "-")
 (Regexp.Cat (Regexp.Rep 4 hex)
 (Regexp.Cat (Regexp.Lit "-")
 (Regexp.Cat (Regexp.Lit "4")
 (Regexp.Cat (Regexp.Rep 3 hex)
 (Regexp.Cat (Regexp.Lit "-")
 (Regexp.Cat variant
 (Regexp.Cat (Regexp.Rep 3 hex)
 (Regexp.Cat (Regexp.Lit "-")
             (Regexp.Rep 12 hex)))))))))).

(** A dashboard name carries [token] as one of its [;]-separated segments, up
    to the case of letters. *)
Definition hasToken (env : Env) (name token : string) : Prop :=
  exists segment,
    In segment (Strings.Split name ";")
    /\ strings_ToLower env segment = strings_ToLower env token.

(** A dashboard name carries the KQG prefix and the project, service and
    stage tokens of the event. *)
Definition nameMatches (env : Env) (keptnEvent : BaseKeptnEvent.t) (name : string) : Prop :=
  Strings.HasPrefix (strings_ToLower env name) "kqg;" = true
  /\ hasToken env name ("project=" ++ BaseKeptnEvent.Project keptnEvent)
  /\ hasToken env name ("service=" ++ BaseKeptnEvent.Service keptnEvent)
  /\ hasToken env name ("stage=" ++ BaseKeptnEvent.Stage keptnEvent).

(** ** The synthesizer, row by row

    What the loops of [GenerateSLISLOFromMetricsAPIQuery] add for one data
    row and for one result, as functions of the state; the lemmas of the
    synthesizer show that the loops compute exactly these and never panic. *)

(** The dimension values that enter the name of a row: every other one when
    the row holds name and ID of each of the chart's dimensions, all of them
    otherwise. *)
Fixpoint everyOther (dims : list string) : list string :=
  match dims with
  | d :: rest => d :: match rest with
                      | _ :: rest' => everyOther rest'
                      | [] => []
                      end
  | [] => []
  end.

Definition stridden (noOfDimensionsInChart : nat) (dims : list string) : list string :=
  if (length dims =? noOfDimensionsInChart * 2)%nat then everyOther dims else dims.

Definition suffixed (base : string) (dimensionValues : list string) : string :=
  fold_left (fun name d => name ++ "_" ++ d) dimensionValues base.

(** The indicator name of a row of a result with several rows. *)
Definition dimensionedName (env : Env) (noOfDimensionsInChart : nat) (ts : TileSLO)
    (row : MetricQueryResultNumbers.t) : string :=
  CleanIndicatorName env
    (suffixed (ts_baseIndicatorName ts)
       (stridden noOfDimensionsInChart (MetricQueryResultNumbers.Dimensions row))).

(** The unit-scaled mean of the values of a row. *)
Definition rowValue (mq : MetricQuery) (row : MetricQueryResultNumbers.t) : float :=
  scaleData (mq_metricID mq) (mq_metricUnit mq)
    (meanOfValues (MetricQueryResultNumbers.Values row)).

Definition rowAcc (noOfDimensionsInChart : nat) (ts : TileSLO) (mq : MetricQuery)
    (dataResultCount : nat) (row : MetricQueryResultNumbers.t) : DimAcc :=
  match rowNames noOfDimensionsInChart ts mq dataResultCount row with
  | Ok acc => acc
  | _ => mkDimAcc (ts_baseIndicatorName ts) ":names" (mq_metricQuery mq)
  end.

Definition rowName (env : Env) (noOfDimensionsInChart : nat) (ts : TileSLO)
    (mq : MetricQuery) (dataResultCount : nat) (row : MetricQueryResultNumbers.t)
    : string :=
  CleanIndicatorName env
    (da_indicatorName (rowAcc noOfDimensionsInChart ts mq dataResultCount row)).

(** The SLI query stored for a row. *)
Definition rowQuery (noOfDimensionsInChart : nat) (ts : TileSLO) (mq : MetricQuery)
    (dataResultCount : nat) (row : MetricQueryResultNumbers.t) : string :=
  let acc := rowAcc noOfDimensionsInChart ts mq dataResultCount row in
  "MV2;" ++ mq_metricUnit mq ++ ";"
    ++ Strings.Replace (da_metricQueryForSLI acc) ":names"
         (da_filterSLIDefinitionAggregatorValue acc) 1.

Definition rowEmit (env : Env) (noOfDimensionsInChart : nat) (ts : TileSLO)
    (mq : MetricQuery) (dataResultCount : nat) (st : Synth)
    (row : MetricQueryResultNumbers.t) : Synth :=
  let name := rowName env noOfDimensionsInChart ts mq dataResultCount row in
  emit st (SLIResult.mk name (rowValue mq row) true "") name
    (rowQuery noOfDimensionsInChart ts mq dataResultCount row)
    (sloDefinitionOf ts name).

Definition resultEmit (env : Env) (noOfDimensionsInChart : nat) (ts : TileSLO)
    (mq : MetricQuery) (st : Synth) (singleResult : MetricQueryResultValues.t) : Synth :=
  if isMatchingMetricID (MetricQueryResultValues.MetricID singleResult) (mq_metricID mq)
  then fold_left
         (rowEmit env noOfDimensionsInChart ts mq
            (length (MetricQueryResultValues.Data singleResult)))
         (MetricQueryResultValues.Data singleResult) st
  else st.

(** The SLI results and the objectives synthesized from a list of results:
    one of each per data row of every result whose metric ID matches. *)
Definition rowResult (env : Env) (noOfDimensionsInChart : nat) (ts : TileSLO)
    (mq : MetricQuery) (dataResultCount : nat) (row : MetricQueryResultNumbers.t)
    : SLIResult.t :=
  SLIResult.mk (rowName env noOfDimensionsInChart ts mq dataResultCount row)
    (rowValue mq row) true "".

Definition rowObjective (env : Env) (noOfDimensionsInChart : nat) (ts : TileSLO)
    (mq : MetricQuery) (dataResultCount : nat) (row : MetricQueryResultNumbers.t)
    : SLO.t :=
  sloDefinitionOf ts (rowName env noOfDimensionsInChart ts mq dataResultCount row).

Definition matchingRows (mq : MetricQuery) (singleResult : MetricQueryResultValues.t)
    : list MetricQueryResultNumbers.t :=
  if isMatchingMetricID (MetricQueryResultValues.MetricID singleResult) (mq_metricID mq)
  then MetricQueryResultValues.Data singleResult
  else [].

Definition resultsOf (env : Env) (noOfDimensionsInChart : nat) (ts : TileSLO)
    (mq : MetricQuery) (results : list MetricQueryResultValues.t) : list SLIResult.t :=
  flat_map (fun singleResult =>
              map (rowResult env noOfDimensionsInChart ts mq
                     (length (MetricQueryResultValues.Data singleResult)))
                  (matchingRows mq singleResult))
           results.

Definition objectivesOf (env : Env) (noOfDimensionsInChart : nat) (ts : TileSLO)
    (mq : MetricQuery) (results : list MetricQueryResultValues.t) : list SLO.t :=
  flat_map (fun singleResult =>
              map (rowObjective env noOfDimensionsInChart ts mq
                     (length (MetricQueryResultValues.Data singleResult)))
                  (matchingRows mq singleResult))
           results.

(** A step of the pass only ever appends to the SLI results: whenever it
    returns, the results it started from are a prefix of the ones it leaves. *)
Definition appendsTo (st : Synth) (r : res Synth) : Prop :=
  forall st', r = Ok st' -> exists more, sliResults st' = (sliResults st ++ more)%list.

(** The tile generates the metric query [mq] for one of its data explorer
    queries or chart series, under the SLO settings [ts] of its title. *)
Definition tileRunsQuery (env : Env) (ph : Handler.t) (dashboardJSON : DynatraceDashboard.t)
    (startUnix endUnix : Time) (tile : Tile.t) (ts : TileSLO)
    (noOfDimensionsInChart : nat) (mq : MetricQuery) : Prop :=
  let tileManagementZoneFilter :=
    tileManagementZoneFilterOf (dashboardManagementZoneFilterOf dashboardJSON) tile in
  (Tile.TileType tile = "DATA_EXPLORER"
   /\ ts = parseTileSLO env (Tile.Name tile)
   /\ exists dataQuery,
        In dataQuery (Tile.Queries tile)
        /\ noOfDimensionsInChart = length (DataExplorerQuery.SplitBy dataQuery)
        /\ GenerateMetricQueryFromDataExplorer env ph dataQuery tileManagementZoneFilter
             startUnix endUnix = Ok mq)
  \/ (Tile.TileType tile = "CUSTOM_CHARTING"
      /\ ts = parseTileSLO env (tileTitleOf tile)
      /\ exists series,
           In series (FilterConfig.Series (Tile.FilterConfig tile))
           /\ noOfDimensionsInChart = length (ChartSeries.Dimensions series)
           /\ GenerateMetricQueryFromChart env ph series tileManagementZoneFilter
                (FilterConfig.FiltersPerEntityType (Tile.FilterConfig tile))
                startUnix endUnix = Ok mq).

(** Every step of a loop over [l] returns, whatever state it starts from. *)
Definition stepsReturn {A : Type} (f : Synth -> A -> res Synth) (l : list A) : Prop :=
  forall st a, In a l -> exists st', f st a = Ok st'.

(** As [tileRunsQuery], with the place of the query or series among the
    others of the tile, whose loop steps return. *)
Definition tileRunsQueryAmong (env : Env) (ph : Handler.t)
    (dashboardJSON : DynatraceDashboard.t) (startUnix endUnix : Time) (tile : Tile.t)
    (ts : TileSLO) (noOfDimensionsInChart : nat) (mq : MetricQuery) : Prop :=
  let tileManagementZoneFilter :=
    tileManagementZoneFilterOf (dashboardManagementZoneFilterOf dashboardJSON) tile in
  (Tile.TileType tile = "DATA_EXPLORER"
   /\ ts = parseTileSLO env (Tile.Name tile)
   /\ exists earlier dataQuery later,
        Tile.Queries tile = (earlier ++ dataQuery :: later)%list
        /\ noOfDimensionsInChart = length (DataExplorerQuery.SplitBy dataQuery)
        /\ GenerateMetricQueryFromDataExplorer env ph dataQuery tileManagementZoneFilter
             startUnix endUnix = Ok mq
        /\ stepsReturn
             (dataQueryStep env ph ts tileManagementZoneFilter startUnix endUnix)
             (earlier ++ later)%list)
  \/ (Tile.TileType tile = "CUSTOM_CHARTING"
      /\ ts = parseTileSLO env (tileTitleOf tile)
      /\ exists earlier series later,
           FilterConfig.Series (Tile.FilterConfig tile) = (earlier ++ series :: later)%list
           /\ noOfDimensionsInChart = length (ChartSeries.Dimensions series)
           /\ GenerateMetricQueryFromChart env ph series tileManagementZoneFilter
                (FilterConfig.FiltersPerEntityType (Tile.FilterConfig tile))
                startUnix endUnix = Ok mq
           /\ stepsReturn
                (chartSeriesStep env ph tile ts tileManagementZoneFilter startUnix endUnix)
                (earlier ++ later)%list).

(** The handler that resolves indicators from the given SLI definitions: the
    synthesized indicator map, stored and loaded back as custom queries. *)
Definition withQueries (ph : Handler.t) (queries : gmap string string) : Handler.t :=
  Handler.mk (Handler.ApiURL ph) (Handler.KeptnEvent ph) (Handler.Headers ph)
    queries (Handler.CustomFilters ph).

(** A string without the occurrences of one byte: what
    [strings.Replace(s, c, "", -1)] computes for a one-byte [c]. *)
Fixpoint removeByte (c : ascii) (s : string) : string :=
  match s with
  | EmptyString => EmptyString
  | String c' s' => if Ascii.eqb c' c then removeByte c s' else String c' (removeByte c s')
  end.

(** The failed result of a query that could not be executed. *)
Definition failedResult (ts : TileSLO) (message : string) : SLIResult.t :=
  SLIResult.mk (ts_baseIndicatorName ts) 0 false message.

(** ** Scenarios

    Concrete dashboards, tiles and backend answers the examples run on. *)

Module Scenario.
Import Example.

Definition serve (url body : string) (request : string) : option (Z * string) :=
  if Strings.Equal request url then Some (200, body) else None.

Definition decodeAs {A : Type} (name : string) (a : A) (body : string) : option A :=
  if Strings.Equal body name then Some a else None.

(** Two dashboards whose names both carry the prefix and the tokens of
    [Example.event], after one that does not. *)
Definition otherDashboard : DashboardStub.t :=
  DashboardStub.mk "0a0a0a0a-0000-4000-8000-000000000000" "Team overview" "admin".
Definition firstDashboard : DashboardStub.t :=
  DashboardStub.mk "11111111-1111-4111-8111-111111111111"
    "KQG;project=sockshop;service=carts;stage=staging" "admin".
Definition secondDashboard : DashboardStub.t :=
  DashboardStub.mk "22222222-2222-4222-9222-222222222222"
    "kqg;Stage=Staging;owner=me;SERVICE=carts;project=SockShop" "admin".

Definition listedDashboards : DynatraceDashboards.t :=
  DynatraceDashboards.mk [otherDashboard; firstDashboard; secondDashboard].

Definition dashboardsBackend : Backend :=
  mkBackend (serve "https://tenant.example.com/api/config/v1/dashboards" "dashboards.json")
    (decodeAs "dashboards.json" listedDashboards)
    (fun _ => None) (fun _ => None) (fun _ => None) (fun _ => None) (fun _ => None)
    "" marshal.

(** An event for a service no dashboard is named after. *)
Definition ordersEvent : BaseKeptnEvent.t :=
  BaseKeptnEvent.mk "sockshop" "staging" "orders" "direct" "performance" ∅.
(** A dashboard with a markdown tile that asks for parsing on change only,
    and an open-problems tile. *)
Definition noFilter : DashboardFilter.t := DashboardFilter.mk "" None.
Definition noFilterConfig : FilterConfig.t := FilterConfig.mk "" "" "" [] ∅.

Definition markdownTile : Tile.t :=
  Tile.mk "Markdown" "MARKDOWN" true "" "" ""
    "KQG.Total.Pass=90%;KQG.QueryBehavior=ParseOnChange"
    noFilter [] [] noFilterConfig.

Definition openProblemsTile : Tile.t :=
  Tile.mk "Problems" "OPEN_PROBLEMS" true "" "" "" "" noFilter [] [] noFilterConfig.

Definition dashboardID : string := "dddddddd-dddd-4ddd-8ddd-dddddddddddd".

Definition problemsDashboard : DynatraceDashboard.t :=
  DynatraceDashboard.mk dashboardID "KQG;project=sockshop;service=carts;stage=staging"
    "admin" None [] [markdownTile; openProblemsTile].

(** The backend serves that dashboard, and the configuration repository
    holds its serialized form from an earlier run. *)
Definition unchangedBackend : Backend :=
  mkBackend
    (serve ("https://tenant.example.com/api/config/v1/dashboards/" ++ dashboardID)
       "dashboard.json")
    (fun _ => None)
    (decodeAs "dashboard.json" problemsDashboard)
    (fun _ => None) (fun _ => None) (fun _ => None) (fun _ => None)
    (marshal problemsDashboard) marshal.
(** A data explorer tile on a metric split by service. The metric has that
    one dimension, so nothing is merged, and the ":names" transformation
    makes the backend return the name and the ID of the service in each row. *)
Definition teststepQuery : DataExplorerQuery.t :=
  DataExplorerQuery.mk "A" "calc:service.teststep" "" "" ["dt.entity.service"] None.

Definition teststepTile : Tile.t :=
  Tile.mk "Test steps;sli=teststep;pass=<=500;weight=2;key=true" "DATA_EXPLORER" true
    "" "" "" "" noFilter [teststepQuery] [] noFilterConfig.

Definition teststepDefinition : MetricDefinition.t :=
  MetricDefinition.mk "calc:service.teststep" "Test step" "" "MicroSecond" ["AVG"] []
    "AVG" [DimensionDefinition.mk "Service" "ENTITY" "dt.entity.service" "Service"]
    ["SERVICE"].

Definition teststepDefinitionURL : string :=
  "https://tenant.example.com/api/v2/metrics/calc:service.teststep".

Definition definitionBackend : Backend :=
  mkBackend (serve teststepDefinitionURL "definition.json")
    (fun _ => None) (fun _ => None) (fun _ => None) (fun _ => None)
    (decodeAs "definition.json" teststepDefinition) (fun _ => None) "" marshal.

(** The query the tile generates for the window from 10 to 20. *)
Definition teststepMetricQuery : MetricQuery :=
  Eval vm_compute in
    match GenerateMetricQueryFromDataExplorer (env definitionBackend) handler
            teststepQuery "" 10 20 with
    | Ok mq => mq
    | _ => mkMetricQuery "" "" "" "" "" ""
    end.

Definition teststepSLO : TileSLO :=
  Eval vm_compute in parseTileSLO (env noBackend) (Tile.Name teststepTile).

(** The backend answers the query with the given result, or refuses the
    request when there is none. *)
Definition teststepBackend (answer : option DynatraceMetricsQueryResult.t) : Backend :=
  mkBackend
    (fun request =>
       if Strings.Equal request teststepDefinitionURL then Some (200, "definition.json")
       else if Strings.Equal request (mq_fullMetricQuery teststepMetricQuery)
       then option_map (fun _ => (200, "metrics.json")) answer
       else None)
    (fun _ => None) (fun _ => None) (fun _ => None) (fun _ => None)
    (decodeAs "definition.json" teststepDefinition)
    (fun body => if Strings.Equal body "metrics.json" then answer else None)
    "" marshal.

Definition row (dimensions : list string) (values : list float)
    : MetricQueryResultNumbers.t :=
  MetricQueryResultNumbers.mk dimensions ∅ [20000] values.

Definition answerOf (rows : list MetricQueryResultNumbers.t)
    : DynatraceMetricsQueryResult.t :=
  DynatraceMetricsQueryResult.mk 1 ""
    [MetricQueryResultValues.mk "calc:service.teststep:avg:names" rows].

(** Three services. *)
Definition threeRows : list MetricQueryResultNumbers.t :=
  [ row ["login"; "SERVICE-1"] [250000%float];
    row ["cart"; "SERVICE-2"] [500000%float];
    row ["checkout"; "SERVICE-3"] [750000%float] ].

(** One service, with one value and with two values. *)
Definition oneRow : list MetricQueryResultNumbers.t :=
  [ row ["login"; "SERVICE-1"] [250000%float] ].
Definition oneRowTwoValues : list MetricQueryResultNumbers.t :=
  [ row ["login"; "SERVICE-1"] [250000%float; 750000%float] ].
(** A dashboard with the markdown tile, the data explorer tile and the
    open-problems tile, on a backend that knows three open problems and one
    open security problem and answers the metrics query with [answer]. *)
Fixpoint servePages (pages : list (string * string)) (request : string)
    : option (Z * string) :=
  match pages with
  | [] => None
  | (url, body) :: rest =>
      if Strings.Equal request url then Some (200, body) else servePages rest request
  end.

Definition problemsURL : string :=
  "https://tenant.example.com/api/v2/problems?from=10000&to=20000&problemSelector=status(open)".
Definition securityProblemsURL : string :=
  "https://tenant.example.com/api/v2/securityProblems?from=10000&to=20000&securityProblemSelector=status(OPEN)".

Definition dashboardURL : string :=
  "https://tenant.example.com/api/config/v1/dashboards/" ++ dashboardID.

Definition teststepDashboard : DynatraceDashboard.t :=
  DynatraceDashboard.mk dashboardID "KQG;project=sockshop;service=carts;stage=staging"
    "admin" None [] [markdownTile; teststepTile; openProblemsTile].

Definition passBackend (answer : option DynatraceMetricsQueryResult.t) : Backend :=
  mkBackend
    (servePages
       ([ (dashboardURL, "dashboard.json");
          (teststepDefinitionURL, "definition.json");
          (problemsURL, "problems.json");
          (securityProblemsURL, "securityProblems.json") ]
        ++ match answer with
           | Some _ => [(mq_fullMetricQuery teststepMetricQuery, "metrics.json")]
           | None => []
           end)%list)
    (fun _ => None)
    (decodeAs "dashboard.json" teststepDashboard)
    (decodeAs "problems.json" 3)
    (decodeAs "securityProblems.json" 1)
    (decodeAs "definition.json" teststepDefinition)
    (fun body => if Strings.Equal body "metrics.json" then answer else None)
    "" marshal.

(** What the refused metrics request reads like. *)
Definition refused : string :=
  "Get " ++ dquote ++ mq_fullMetricQuery teststepMetricQuery ++ dquote
    ++ ": connection refused".
(** Two services. *)
Definition twoRows : list MetricQueryResultNumbers.t :=
  [ row ["login"; "SERVICE-1"] [250000%float];
    row ["cart"; "SERVICE-2"] [500000%float] ].


(** A handler with a bare metrics query and an [MV2] query configured. *)
Definition configuredHandler : Handler.t :=
  Handler.mk "https://tenant.example.com" event ∅
    (<["teststep" := "metricSelector=calc:service.teststep:avg:names"]>
       (<["teststep_mv2" := "MV2;MicroSecond;metricSelector=calc:service.teststep:avg:names"]>
          ∅))
    [].
End Scenario.

(** ** Further scenarios *)

Module Cases.
Import Example.

(** A backend that answers every request with the same status and body. *)
Definition answering (status : Z) (body : string) : Backend :=
  mkBackend (fun _ => Some (status, body)) (fun _ => None) (fun _ => None)
    (fun _ => None) (fun _ => None) (fun _ => None) (fun _ => None) "" marshal.

(** [Example.env] with a decoder for SLO results and one for USQL
    results. *)
Definition env (b : Backend) (slo : string -> option DynatraceSLOResult.t)
    (usql : string -> option DTUSQLResult.t) : Env :=
  let base := Example.env b in
  {| strings_ToLower := strings_ToLower base;
     strings_ToUpper := strings_ToUpper base;
     http_Do := http_Do base;
     json_DtEnvAPIv2Error := json_DtEnvAPIv2Error base;
     json_DynatraceDashboards := json_DynatraceDashboards base;
     json_DynatraceDashboard := json_DynatraceDashboard base;
     json_DynatraceSLOResult := fun body => decoded (slo body);
     json_DynatraceProblemQueryResult := json_DynatraceProblemQueryResult base;
     json_DynatraceSecurityProblemQueryResult :=
       json_DynatraceSecurityProblemQueryResult base;
     json_MetricDefinition := json_MetricDefinition base;
     json_DynatraceMetricsQueryResult := json_DynatraceMetricsQueryResult base;
     json_DTUSQLResult := fun body => decoded (usql body);
     json_MarshalIndent_Dashboard := json_MarshalIndent_Dashboard base;
     json_Marshal_MetricQueryResultValues := json_Marshal_MetricQueryResultValues base;
     fmt_f := fmt_f base;
     fmt_f_value := fmt_f_value base;
     url_Parse := url_Parse base;
     url_ParseQuery := url_ParseQuery base;
     url_Encode := url_Encode base;
     url_String := url_String base;
     TimestampToString := TimestampToString base;
     CleanIndicatorName := CleanIndicatorName base;
     ReplaceKeptnPlaceholders := ReplaceKeptnPlaceholders base;
     ParsePassAndWarningFromString := ParsePassAndWarningFromString base;
     ParseMarkdownConfiguration := ParseMarkdownConfiguration base;
     GetKeptnResource := GetKeptnResource base;
     DynatraceDashboardFilename := DynatraceDashboardFilename base |}.

(** A backend with one SLO, evaluated at 99.5 percent. *)
Definition availability : DynatraceSLOResult.t :=
  DynatraceSLOResult.mk "slo-1" "availability" 99.5 "NONE" 0 0 99 99.75.

Definition sloBackend : Backend :=
  mkBackend
    (Scenario.serve "https://tenant.example.com/api/v2/slo/slo-1?from=10000&to=20000"
       "slo.json")
    (fun _ => None) (fun _ => None) (fun _ => None) (fun _ => None) (fun _ => None)
    (fun _ => None) "" marshal.

Definition sloEnv : Env :=
  env sloBackend (Scenario.decodeAs "slo.json" availability) (fun _ => None).

(** A DTAQL tile that charts the sessions per browser family as a pie, on
    a backend that knows two families. *)
Definition browsersQuery : string :=
  "SELECT browserFamily, count(*) FROM usersession GROUP BY browserFamily".

Definition browsersTile : Tile.t :=
  Tile.mk "" "DTAQL" true browsersQuery "PIE_CHART" "Browsers;sli=browser" ""
    Scenario.noFilter [] [] Scenario.noFilterConfig.

Definition browsersURL : string :=
  Eval vm_compute in
    match BuildDynatraceUSQLQuery (Example.env noBackend) handler browsersQuery 10 20 with
    | Ok url => url
    | _ => ""
    end.

Definition browsers : DTUSQLResult.t :=
  DTUSQLResult.mk 1 ["browserFamily"; "count(*)"]
    [ [JString "Chrome"; JNumber 120]; [JString "Firefox"; JNumber 30] ].

Definition browsersBackend : Backend :=
  mkBackend (Scenario.serve browsersURL "usql.json")
    (fun _ => None) (fun _ => None) (fun _ => None) (fun _ => None) (fun _ => None)
    (fun _ => None) "" marshal.

Definition browsersEnv : Env :=
  env browsersBackend (fun _ => None) (Scenario.decodeAs "usql.json" browsers).

(** A handler whose stored [MV2] query lacks the semicolon after the
    unit. *)
Definition truncatedHandler : Handler.t :=
  Handler.mk "https://tenant.example.com" event ∅
    {["teststep" := "MV2;metricSelector=calc:service.teststep:avg:names"]} [].

(** A handler with a quoted custom filter. *)
Definition filteredHandler : Handler.t :=
  Handler.mk "https://tenant.example.com" event ∅ ∅
    [SLIFilter.mk "version" (dquote ++ "1.2" ++ dquote)].

(** A dashboard without an indicator: a header, a note, a data explorer
    tile and a custom chart whose titles name no SLI. *)
Definition headerTile : Tile.t :=
  Tile.mk "Key requests" "HEADER" true "" "" "" "" Scenario.noFilter [] []
    Scenario.noFilterConfig.
Definition noteTile : Tile.t :=
  Tile.mk "Markdown" "MARKDOWN" true "" "" "" "Owned by the carts team"
    Scenario.noFilter [] [] Scenario.noFilterConfig.
Definition untitledExplorerTile : Tile.t :=
  Tile.mk "Test steps" "DATA_EXPLORER" true "" "" "" "" Scenario.noFilter
    [Scenario.teststepQuery] [] Scenario.noFilterConfig.
Definition untitledChartTile : Tile.t :=
  Tile.mk "Custom chart" "CUSTOM_CHARTING" true "" "" "" "" Scenario.noFilter [] []
    (FilterConfig.mk "MIXED" "Response time" ""
       [ChartSeries.mk "builtin:service.response.time" "AVG" JOther "LINE" "SERVICE" [] ""]
       ∅).

Definition plainDashboard : DynatraceDashboard.t :=
  DynatraceDashboard.mk Scenario.dashboardID
    "KQG;project=sockshop;service=carts;stage=staging" "admin" None []
    [headerTile; noteTile; untitledExplorerTile; untitledChartTile].

Definition plainBackend : Backend :=
  mkBackend (Scenario.serve Scenario.dashboardURL "dashboard.json")
    (fun _ => None)
    (Scenario.decodeAs "dashboard.json" plainDashboard)
    (fun _ => None) (fun _ => None) (fun _ => None) (fun _ => None)
    "" marshal.

End Cases.

(** ** Closed forms *)

(** One clause per value: [,kind("value")]. *)
Fixpoint selectorClauses (kind : string) (values : list string) : string :=
  match values with
  | [] => ""
  | value :: rest =>
      ("," ++ kind ++ "(" ++ dquote ++ value ++ dquote ++ ")") ++ selectorClauses kind rest
  end.

Module Answers.
Import Example Scenario.

(** An answer to the test step query that holds another metric only. *)
Definition otherMetric : DynatraceMetricsQueryResult.t :=
  DynatraceMetricsQueryResult.mk 1 ""
    [MetricQueryResultValues.mk "builtin:service.response.time:avg:names" oneRow].

(** An answer whose only row holds no value. *)
Definition noValues : DynatraceMetricsQueryResult.t :=
  answerOf [row ["login"; "SERVICE-1"] []].

End Answers.

(** ** The steps of a dashboard pass

    Everything the loop over the tiles does to the SLI results, the SLI
    definitions and the SLO document is one of three steps: adding a
    successful result together with its SLI definition and its objective,
    adding the failed result of a query that could not be executed together
    with its SLI definition, and applying the settings of a markdown tile to
    the SLO document. *)

Definition failedStep (st : Synth) (name message query : string) : Synth :=
  mkSynth (sliResults st ++ [SLIResult.mk name 0 false message])%list
    (setIndicator (dashboardSLI st) name query) (dashboardSLO st).

Definition markdownStep (env : Env) (st : Synth) (markdown : string) : Synth :=
  mkSynth (sliResults st) (dashboardSLI st)
    (ParseMarkdownConfiguration env markdown (dashboardSLO st)).

Inductive step (env : Env) : Synth -> Synth -> Prop :=
| step_emit (st : Synth) (r : SLIResult.t) (query : string) (o : SLO.t) :
    SLIResult.Success r = true ->
    SLO.SLI o = SLIResult.Metric r ->
    step env st (emit st r (SLIResult.Metric r) query o)
| step_failed (st : Synth) (name message query : string) :
    step env st (failedStep st name message query)
| step_markdown (st : Synth) (markdown : string) :
    step env st (markdownStep env st markdown).

Inductive passes (env : Env) : Synth -> Synth -> Prop :=
| passes_done (st : Synth) : passes env st st
| passes_step (st st1 st2 : Synth) :
    step env st st1 -> passes env st1 st2 -> passes env st st2.

(** A call that, when it returns, has taken steps of a pass only. *)
Definition passesTo (env : Env) (st : Synth) (r : res Synth) : Prop :=
  forall st', r = Ok st' -> passes env st st'.

(** The state with further results in front of its own. *)
Definition after (earlier : list SLIResult.t) (st : Synth) : Synth :=
  mkSynth (earlier ++ sliResults st)%list (dashboardSLI st) (dashboardSLO st).

(** Every SLI result has an SLI definition under its metric name. *)
Definition allDefined (st : Synth) : Prop :=
  Forall (fun r => is_Some (SLI.Indicators (dashboardSLI st) !! SLIResult.Metric r))
         (sliResults st).

(** The objectives are those of the successful results, in their order. *)
Definition objectivesFollow (st : Synth) : Prop :=
  map SLO.SLI (ServiceLevelObjectives.Objectives (dashboardSLO st))
  = map SLIResult.Metric (List.filter SLIResult.Success (sliResults st)).

(** What the tile processors return: a successful result, the name of its
    metric, and an objective for that name. *)
Definition tileResultShape (r : res (SLIResult.t * string * string * SLO.t)) : Prop :=
  forall sliResult sliIndicator sliQuery sloDefinition,
    r = Ok (sliResult, sliIndicator, sliQuery, sloDefinition) ->
    SLIResult.Metric sliResult = sliIndicator
    /\ SLIResult.Success sliResult = true
    /\ SLO.SLI sloDefinition = sliIndicator.

(** The handler with the custom filters as a call of [replaceQueryParameters]
    on [query] leaves them. *)
Definition keptFilters (env : Env) (ph : Handler.t) (query : string) : list SLIFilter.t :=
  snd (applyCustomFilters env (Handler.CustomFilters ph) query).

Definition withFilters (ph : Handler.t) (filters : list SLIFilter.t) : Handler.t :=
  Handler.mk (Handler.ApiURL ph) (Handler.KeptnEvent ph) (Handler.Headers ph)
    (Handler.CustomQueries ph) filters.

(** ** Tiles the pass leaves aside *)

(** The tiles without an indicator: headers, synthetic tests, markdown
    without settings, and charts whose title names no SLI. *)
Definition passedOver (env : Env) (tile : Tile.t) : Prop :=
  let tileType := Tile.TileType tile in
  tileType = "HEADER"
  \/ tileType = "SYNTHETIC_TESTS"
  \/ (tileType = "MARKDOWN" /\ Strings.Contains (Tile.Markdown tile) "KQG." = false)
  \/ (tileType = "DATA_EXPLORER"
      /\ ts_baseIndicatorName (parseTileSLO env (Tile.Name tile)) = "")
  \/ (~ In tileType ["HEADER"; "SYNTHETIC_TESTS"; "MARKDOWN"; "SLO"; "OPEN_PROBLEMS";
                     "OPEN_SECURITY_PROBLEMS"; "DATA_EXPLORER"]
      /\ ts_baseIndicatorName (parseTileSLO env (tileTitleOf tile)) = "").

(** The metric of every query of a data explorer tile, or of every series
    of a custom chart, cannot be described. *)
Definition withoutDefinitions (env : Env) (ph : Handler.t) (tile : Tile.t) : Prop :=
  (Tile.TileType tile = "DATA_EXPLORER"
   /\ Forall (fun dataQuery =>
                exists e, ExecuteMetricAPIDescribe env ph (DataExplorerQuery.Metric dataQuery)
                          = Err e)
             (Tile.Queries tile))
  \/ (Tile.TileType tile = "CUSTOM_CHARTING"
      /\ Forall (fun series =>
                   exists e, ExecuteMetricAPIDescribe env ph (ChartSeries.Metric series)
                             = Err e)
                (FilterConfig.Series (Tile.FilterConfig tile))).

(** * Properties *)

(** ** Strings *)

Lemma Equal_true (a b : string) : Strings.Equal a b = true <-> a = b.
Proof. apply String.eqb_eq. Qed.

Lemma Equal_false (a b : string) : Strings.Equal a b = false <-> a <> b.
Proof. apply String.eqb_neq. Qed.

Lemma Equal_refl (a : string) : Strings.Equal a a = true.
Proof. apply String.eqb_refl. Qed.

Lemma Contains_Index (s substr : string) :
  Strings.Contains s substr = negb (Strings.Index s substr =? -1).
Proof.
  unfold Strings.Contains, Strings.Index.
  destruct (Strings.index_of s substr) as [i|]; [|reflexivity].
  symmetry. apply negb_true_iff, Z.eqb_neq. lia.
Qed.

Lemma Split_nonempty (s : string) (sep : ascii) : Strings.Split s sep <> [].
Proof.
  destruct s as [|c s]; simpl; [discriminate|].
  destruct (Ascii.eqb c sep); [discriminate|].
  destruct (Strings.Split s sep); discriminate.
Qed.

(** ** C2: unit scaling *)

(** Two floats are told apart by comparing both with one of them. *)
Ltac floats_differ :=
  let H := fresh in
  intro H;
  match type of H with
  | _ = ?b => apply (f_equal (fun x => PrimFloat.eqb x b)) in H
  end;
  vm_compute in H; discriminate H.

Lemma scaleData_microsecond (metricID : string) (value : float) :
  scaleData metricID "MicroSecond" value = (value / 1000)%float.
Proof. reflexivity. Qed.

Lemma scaleData_response_time (metricID unit : string) (value : float) :
  Strings.Contains metricID "builtin:service.response.time" = true ->
  scaleData metricID unit value = (value / 1000)%float.
Proof.
  intros H. unfold scaleData. rewrite H, orb_true_r. reflexivity.
Qed.

Lemma scaleData_byte (metricID : string) (value : float) :
  Strings.Contains metricID "builtin:service.response.time" = false ->
  scaleData metricID "Byte" value = (value / 1024)%float.
Proof.
  intros H. unfold scaleData. rewrite H. reflexivity.
Qed.

Lemma scaleData_other (metricID unit : string) (value : float) :
  Strings.Contains metricID "builtin:service.response.time" = false ->
  unit <> "MicroSecond" -> unit <> "Byte" ->
  scaleData metricID unit value = value.
Proof.
  intros H Hm Hb. unfold scaleData.
  apply Equal_false in Hm, Hb. rewrite Hm, Hb, H. reflexivity.
Qed.

(** C2, as the code has it: 1,000,000 microseconds scale to 1,000 for every
    metric ID; for a metric ID that does not contain
    [builtin:service.response.time], 2048 bytes scale to 2 and a value with
    any unit other than "MicroSecond" and "Byte" is returned as it is; for a
    metric ID that contains it the value is divided by 1000 whatever the
    unit. *)
Theorem scaleData_units (metricID unit : string) (value : float) :
  scaleData metricID "MicroSecond" 1000000 = 1000%float
  /\ (Strings.Contains metricID "builtin:service.response.time" = false ->
      scaleData metricID "Byte" 2048 = 2%float
      /\ (unit <> "MicroSecond" -> unit <> "Byte" -> scaleData metricID unit value = value))
  /\ (Strings.Contains metricID "builtin:service.response.time" = true ->
      scaleData metricID unit value = (value / 1000)%float).
Proof.
  split; [reflexivity|]. split.
  - intros H. split.
    + rewrite scaleData_byte by assumption. reflexivity.
    + intros Hm Hb. apply scaleData_other; assumption.
  - apply scaleData_response_time.
Qed.

Lemma scaleData_units_witness :
  scaleData "builtin:host.disk.used" "Byte" 2048 = 2%float
  /\ scaleData "builtin:host.disk.used" "Count" 7 = 7%float
  /\ scaleData "builtin:service.response.time" "Count" 5000 = (5000 / 1000)%float.
Proof.
  destruct (scaleData_units "builtin:host.disk.used" "Count" 7) as (_ & H & _).
  destruct (H eq_refl) as [Hb Ho].
  destruct (scaleData_units "builtin:service.response.time" "Count" 5000) as (_ & _ & Hr).
  split; [exact Hb|]. split; [apply Ho; discriminate | exact (Hr eq_refl)].
Defined.

(** C2 as stated fails: with a response-time metric ID, 2048 bytes do not
    scale to 2, and a value whose unit is neither "MicroSecond" nor "Byte" is
    not returned unscaled. *)
Lemma scaleData_response_time_counterexample :
  "Count" <> "MicroSecond" /\ "Count" <> "Byte"
  /\ scaleData "builtin:service.response.time" "Count" 5000 <> 5000%float
  /\ scaleData "builtin:service.response.time" "Byte" 2048 <> 2%float.
Proof.
  split; [discriminate|]. split; [discriminate|]. split; floats_differ.
Qed.

(** ** C3: [IsValidUUID] *)

(** C3: the bar is a member of the variant class, so [IsValidUUID] accepts a
    string whose variant nibble is a bar, which the 8-4-4-4-12 pattern with a
    variant nibble among 8, 9, a, b, A, B does not match. *)
Theorem IsValidUUID_accepts_bar :
  IsValidUUID "00000000-0000-4000-|000-000000000000" = true
  /\ Regexp.MatchAnchored uuidPatternOfSpec "00000000-0000-4000-|000-000000000000" = false.
Proof. split; reflexivity. Qed.

Example IsValidUUID_dashboard_id :
  IsValidUUID "ddb6a571-4bda-4e8b-a9c0-4a3e02c2e14a" = true.
Proof. reflexivity. Qed.

Example IsValidUUID_wrong_variant :
  IsValidUUID "ddb6a571-4bda-4e8b-c9c0-4a3e02c2e14a" = false.
Proof. reflexivity. Qed.

(** ** C9: finding the dashboard by name *)

Lemma foundValue_existsb (env : Env) (findValue : string) (nameSplits : list string) :
  foundValue env findValue nameSplits
  = existsb (fun seg => Strings.Equal findValue (strings_ToLower env seg)) nameSplits.
Proof.
  unfold foundValue.
  enough (H : forall acc,
             fold_left (fun found seg =>
                          if Strings.Equal findValue (strings_ToLower env seg) then true else found)
                       nameSplits acc
             = acc || existsb (fun seg => Strings.Equal findValue (strings_ToLower env seg))
                        nameSplits)
    by apply (H false).
  induction nameSplits as [|seg rest IH]; intros acc; simpl.
  - now rewrite orb_false_r.
  - rewrite IH. destruct (Strings.Equal findValue (strings_ToLower env seg)), acc; reflexivity.
Qed.

Lemma dashboardMatch_forallb (env : Env) (values nameSplits : list string) :
  dashboardMatch env values nameSplits
  = forallb (fun findValue => foundValue env findValue nameSplits) values.
Proof.
  unfold dashboardMatch.
  enough (H : forall acc,
             fold_left (fun matching findValue =>
                          if foundValue env findValue nameSplits then matching else false)
                       values acc
             = acc && forallb (fun findValue => foundValue env findValue nameSplits) values)
    by apply (H true).
  induction values as [|v rest IH]; intros acc; simpl.
  - now rewrite andb_true_r.
  - rewrite IH. destruct (foundValue env v nameSplits), acc; reflexivity.
Qed.

Lemma foundValue_hasToken (env : Env) (name token : string) :
  foundValue env (strings_ToLower env token) (Strings.Split name ";") = true <-> hasToken env name token.
Proof.
  rewrite foundValue_existsb, existsb_exists. unfold hasToken.
  split; intros (seg & Hin & Heq); exists seg; split; try assumption.
  - apply Equal_true in Heq. congruence.
  - apply Equal_true. congruence.
Qed.

Lemma dashboardMatches_nameMatches (env : Env) (keptnEvent : BaseKeptnEvent.t) (d : DashboardStub.t) :
  dashboardMatches env keptnEvent d = true <-> nameMatches env keptnEvent (DashboardStub.Name d).
Proof.
  unfold dashboardMatches, nameMatches.
  destruct (Strings.HasPrefix (strings_ToLower env (DashboardStub.Name d)) "kqg;").
  - rewrite dashboardMatch_forallb. unfold findValues. simpl forallb.
    rewrite andb_true_r, !andb_true_iff, !foundValue_hasToken. tauto.
  - split; [discriminate | intros [H _]; discriminate].
Qed.

Lemma searchDashboards_first (env : Env) (keptnEvent : BaseKeptnEvent.t)
    (before after : list DashboardStub.t) (d : DashboardStub.t) :
  Forall (fun d' => ~ nameMatches env keptnEvent (DashboardStub.Name d')) before ->
  nameMatches env keptnEvent (DashboardStub.Name d) ->
  searchDashboards env keptnEvent (before ++ d :: after)%list = DashboardStub.ID d.
Proof.
  intros Hbefore Hd. induction Hbefore as [|d' rest Hd' _ IH]; simpl.
  - apply dashboardMatches_nameMatches in Hd. now rewrite Hd.
  - destruct (dashboardMatches env keptnEvent d') eqn:E; [|exact IH].
    apply dashboardMatches_nameMatches in E. contradiction.
Qed.

Lemma searchDashboards_none (env : Env) (keptnEvent : BaseKeptnEvent.t) (ds : list DashboardStub.t) :
  Forall (fun d => ~ nameMatches env keptnEvent (DashboardStub.Name d)) ds ->
  searchDashboards env keptnEvent ds = "".
Proof.
  induction 1 as [|d rest Hd _ IH]; simpl; [reflexivity|].
  destruct (dashboardMatches env keptnEvent d) eqn:E; [|exact IH].
  apply dashboardMatches_nameMatches in E. contradiction.
Qed.

Lemma findDynatraceDashboard_listed (env : Env) (ph : Handler.t)
    (keptnEvent : BaseKeptnEvent.t) (body : string) (listed : DynatraceDashboards.t) :
  executeDynatraceREST env ph "GET" (Handler.ApiURL ph ++ "/api/config/v1/dashboards") ∅
    = Ok (200, body) ->
  json_DynatraceDashboards env body = Ok listed ->
  findDynatraceDashboard env ph keptnEvent
  = Ok (searchDashboards env keptnEvent (DynatraceDashboards.Dashboards listed)).
Proof.
  intros Hrest Hjson. unfold findDynatraceDashboard.
  rewrite Hrest. simpl. rewrite Hjson. reflexivity.
Qed.

(** C9, as the code has it: once the list of dashboards is fetched,
    [findDynatraceDashboard] returns the ID of the first dashboard of the list
    whose name carries the KQG prefix and the three tokens [project=P],
    [service=S], [stage=St] among its [;]-separated segments (compared after
    [strings.ToLower] on both sides, that is without regard to case, in any
    order, next to any other segment); when one of the three tokens is
    carried by no dashboard name, it returns the empty ID. *)
Theorem findDynatraceDashboard_first_match (env : Env) (ph : Handler.t)
    (keptnEvent : BaseKeptnEvent.t) (body : string) (listed : DynatraceDashboards.t) :
  executeDynatraceREST env ph "GET" (Handler.ApiURL ph ++ "/api/config/v1/dashboards") ∅
    = Ok (200, body) ->
  json_DynatraceDashboards env body = Ok listed ->
  (forall before d after,
      DynatraceDashboards.Dashboards listed = (before ++ d :: after)%list ->
      nameMatches env keptnEvent (DashboardStub.Name d) ->
      Forall (fun d' => ~ nameMatches env keptnEvent (DashboardStub.Name d')) before ->
      findDynatraceDashboard env ph keptnEvent = Ok (DashboardStub.ID d))
  /\ (forall token,
        In token ["project=" ++ BaseKeptnEvent.Project keptnEvent;
                  "service=" ++ BaseKeptnEvent.Service keptnEvent;
                  "stage=" ++ BaseKeptnEvent.Stage keptnEvent] ->
        Forall (fun d => ~ hasToken env (DashboardStub.Name d) token)
               (DynatraceDashboards.Dashboards listed) ->
        findDynatraceDashboard env ph keptnEvent = Ok "").
Proof.
  intros Hrest Hjson.
  rewrite (findDynatraceDashboard_listed env ph keptnEvent body listed Hrest Hjson).
  split.
  - intros before d after Hlist Hd Hbefore. rewrite Hlist.
    f_equal. now apply searchDashboards_first.
  - intros token Htoken Hnone. f_equal. apply searchDashboards_none.
    eapply Forall_impl; [exact Hnone|].
    intros d Hno (_ & Hp & Hs & Hst). apply Hno.
    simpl in Htoken. destruct Htoken as [<-|[<-|[<-|[]]]]; assumption.
Qed.

Lemma findDynatraceDashboard_first_match_witness :
  findDynatraceDashboard (Example.env Scenario.dashboardsBackend) Example.handler Example.event
    = Ok (DashboardStub.ID Scenario.firstDashboard)
  /\ findDynatraceDashboard (Example.env Scenario.dashboardsBackend) Example.handler
       Scenario.ordersEvent
     = Ok "".
Proof.
  split.
  - refine (proj1 (findDynatraceDashboard_first_match
                     (Example.env Scenario.dashboardsBackend) Example.handler Example.event
                     "dashboards.json" Scenario.listedDashboards eq_refl eq_refl)
                  [Scenario.otherDashboard] Scenario.firstDashboard
                  [Scenario.secondDashboard] eq_refl _ _).
    + apply dashboardMatches_nameMatches. reflexivity.
    + constructor; [|constructor].
      intros H. apply dashboardMatches_nameMatches in H. discriminate H.
  - refine (proj2 (findDynatraceDashboard_first_match
                     (Example.env Scenario.dashboardsBackend) Example.handler
                     Scenario.ordersEvent
                     "dashboards.json" Scenario.listedDashboards eq_refl eq_refl)
                  "service=orders" _ _).
    + right. left. reflexivity.
    + repeat constructor; intros H;
        apply foundValue_hasToken in H; discriminate H.
Defined.

(** C9 as stated fails: the second dashboard of the scenario carries the
    prefix and the three tokens, yet the ID returned is the one of the first
    dashboard that does. *)
Lemma findDynatraceDashboard_second_match_counterexample :
  In Scenario.secondDashboard (DynatraceDashboards.Dashboards Scenario.listedDashboards)
  /\ nameMatches (Example.env Scenario.dashboardsBackend) Example.event
       (DashboardStub.Name Scenario.secondDashboard)
  /\ findDynatraceDashboard (Example.env Scenario.dashboardsBackend) Example.handler
       Example.event
     <> Ok (DashboardStub.ID Scenario.secondDashboard).
Proof.
  split; [simpl; tauto|]. split.
  - apply dashboardMatches_nameMatches. reflexivity.
  - vm_compute. discriminate.
Qed.

(** ** C10: the metrics query builder *)

Lemma All_Add_same (v : gmap string (list string)) (key value : string) :
  Values.All (Values.Add v key value) key = (Values.All v key ++ [value])%list.
Proof. unfold Values.Add. unfold Values.All at 1. now rewrite lookup_insert_eq. Qed.

Lemma All_Add_other (v : gmap string (list string)) (key key' value : string) :
  key <> key' -> Values.All (Values.Add v key value) key' = Values.All v key'.
Proof. intros H. unfold Values.Add. unfold Values.All at 1. now rewrite lookup_insert_ne. Qed.

Lemma Get_Add_other (v : gmap string (list string)) (key key' value : string) :
  key <> key' -> Values.Get (Values.Add v key value) key' = Values.Get v key'.
Proof. intros H. unfold Values.Get, Values.Add. now rewrite lookup_insert_ne. Qed.

Lemma In_All_Add (v : gmap string (list string)) (key key' value x : string) :
  In x (Values.All v key') -> In x (Values.All (Values.Add v key value) key').
Proof.
  intros H. destruct (decide (key = key')) as [->|Hne].
  - rewrite All_Add_same. apply in_or_app. now left.
  - now rewrite All_Add_other.
Qed.

Lemma In_All_Add_same (v : gmap string (list string)) (key value : string) :
  In value (Values.All (Values.Add v key value) key).
Proof. rewrite All_Add_same. apply in_or_app. right. now left. Qed.

(** The default parameters are among the final values, whatever the query
    fragment held. *)
Lemma finalQueryValues_defaults (env : Env) (q : gmap string (list string))
    (startUnix endUnix : Time) :
  In "Inf" (Values.All (finalQueryValues env q startUnix endUnix) "resolution")
  /\ In (TimestampToString env startUnix)
        (Values.All (finalQueryValues env q startUnix endUnix) "from")
  /\ In (TimestampToString env endUnix)
        (Values.All (finalQueryValues env q startUnix endUnix) "to").
Proof.
  unfold finalQueryValues.
  match goal with |- context [if ?c then _ else _] => destruct c end;
    repeat split; repeat (first [apply In_All_Add_same | apply In_All_Add]).
Qed.

Lemma finalQueryValues_scope (env : Env) (q : gmap string (list string))
    (startUnix endUnix : Time) :
  Values.Get q "scope" <> "" ->
  In (scopeAsEntitySelector (Values.Get q "scope"))
     (Values.All (finalQueryValues env q startUnix endUnix) "entitySelector").
Proof.
  intros Hscope. unfold finalQueryValues.
  rewrite !Get_Add_other by discriminate.
  apply Equal_false in Hscope. rewrite Hscope.
  apply In_All_Add_same.
Qed.

(** Without a scope value the builder adds no entity selector of its own. *)
Lemma finalQueryValues_no_scope (env : Env) (q : gmap string (list string))
    (startUnix endUnix : Time) :
  Values.Get q "scope" = "" ->
  Values.All (finalQueryValues env q startUnix endUnix) "entitySelector"
  = Values.All q "entitySelector".
Proof.
  intros Hscope. unfold finalQueryValues.
  rewrite !Get_Add_other by discriminate.
  rewrite Hscope. simpl. now rewrite !All_Add_other by discriminate.
Qed.

(** C10, as the code has it: for every query fragment the builder accepts,
    the returned URL is the target URL with its query replaced by the encoded
    parameters; these hold resolution=Inf and the window bounds as from and
    to; and when the fragment carries a scope parameter whose (first) value is
    not empty, they hold an entitySelector with that value, to which
    ",type(SERVICE)" is appended unless the value already contains
    "type(SERVICE)". *)
Theorem BuildDynatraceMetricsQuery_parameters (env : Env) (ph : Handler.t)
    (metricquery : string) (startUnix endUnix : Time) (url metricID : string) :
  BuildDynatraceMetricsQuery env ph metricquery startUnix endUnix = Ok (url, metricID) ->
  exists metricSelector metricQueryParams u fragmentValues,
    splitMetricQuery env ph metricquery = Ok (metricSelector, metricQueryParams)
    /\ url_Parse env (metricsTargetURL ph metricQueryParams) = Ok u
    /\ url_ParseQuery env (URL.RawQuery u) = (fragmentValues, None)
    /\ let q := finalQueryValues env fragmentValues startUnix endUnix in
       url = url_String env (URL.set_RawQuery u (url_Encode env q))
       /\ In "Inf" (Values.All q "resolution")
       /\ In (TimestampToString env startUnix) (Values.All q "from")
       /\ In (TimestampToString env endUnix) (Values.All q "to")
       /\ forall scope,
            Values.Get fragmentValues "scope" = scope -> scope <> "" ->
            In (if Strings.Contains scope "type(SERVICE)" then scope
                else scope ++ ",type(SERVICE)")
               (Values.All q "entitySelector").
Proof.
  unfold BuildDynatraceMetricsQuery. intros H.
  destruct (splitMetricQuery env ph metricquery) as [[metricSelector params]| |] eqn:Hsplit;
    try discriminate H.
  simpl in H.
  destruct (url_Parse env (metricsTargetURL ph params)) as [u| |] eqn:Hparse;
    try discriminate H.
  destruct (url_ParseQuery env (URL.RawQuery u)) as [q [e|]] eqn:Hquery;
    try discriminate H.
  injection H as Hurl _.
  exists metricSelector, params, u, q.
  split; [first [exact Hsplit | reflexivity]|].
  split; [first [exact Hparse | reflexivity]|].
  split; [first [exact Hquery | reflexivity]|].
  cbv zeta. split; [symmetry; exact Hurl|].
  destruct (finalQueryValues_defaults env q startUnix endUnix) as (Hres & Hfrom & Hto).
  split; [exact Hres|]. split; [exact Hfrom|]. split; [exact Hto|].
  intros scope <- Hscope. now apply finalQueryValues_scope.
Qed.

Example BuildDynatraceMetricsQuery_legacy_scope :
  BuildDynatraceMetricsQuery (Example.env Example.noBackend) Example.handler
    "builtin:service.response.time:merge(0):avg?scope=tag(keptn_project:$PROJECT)" 10 20
  = Ok ("https://tenant.example.com/api/v2/metrics/query/?entitySelector=tag%28keptn_project%3Asockshop%29%2Ctype%28SERVICE%29&from=10000&metricSelector=builtin%3Aservice.response.time%3Amerge%280%29%3Aavg&resolution=Inf&scope=tag%28keptn_project%3Asockshop%29&to=20000",
        "builtin:service.response.time:merge(0):avg").
Proof. vm_compute. reflexivity. Qed.

Lemma BuildDynatraceMetricsQuery_parameters_witness :
  exists metricSelector metricQueryParams u fragmentValues,
    splitMetricQuery (Example.env Example.noBackend) Example.handler
      "metricSelector=builtin:service.response.time:merge(0):avg&scope=tag(keptn_project:$PROJECT)"
      = Ok (metricSelector, metricQueryParams)
    /\ GoURL.Parse (metricsTargetURL Example.handler metricQueryParams) = Ok u
    /\ GoURL.ParseQuery (URL.RawQuery u) = (fragmentValues, None)
    /\ let q := finalQueryValues (Example.env Example.noBackend) fragmentValues 10 20 in
       "https://tenant.example.com/api/v2/metrics/query/?entitySelector=tag%28keptn_project%3Asockshop%29%2Ctype%28SERVICE%29&from=10000&metricSelector=builtin%3Aservice.response.time%3Amerge%280%29%3Aavg&resolution=Inf&scope=tag%28keptn_project%3Asockshop%29&to=20000"
       = GoURL.String_ (URL.set_RawQuery u (GoURL.Encode q))
       /\ In "Inf" (Values.All q "resolution")
       /\ In "10000" (Values.All q "from")
       /\ In "20000" (Values.All q "to")
       /\ forall scope,
            Values.Get fragmentValues "scope" = scope -> scope <> "" ->
            In (if Strings.Contains scope "type(SERVICE)" then scope
                else scope ++ ",type(SERVICE)")
               (Values.All q "entitySelector").
Proof.
  refine (BuildDynatraceMetricsQuery_parameters
            (Example.env Example.noBackend) Example.handler
            "metricSelector=builtin:service.response.time:merge(0):avg&scope=tag(keptn_project:$PROJECT)"
            10 20 _ "builtin:service.response.time:merge(0):avg" _).
  vm_compute. reflexivity.
Defined.

(** C10 as stated fails for a scope parameter without a value: the fragment
    carries [scope=], the builder accepts it, and the returned URL has no
    entitySelector parameter. *)
Lemma BuildDynatraceMetricsQuery_empty_scope_counterexample :
  BuildDynatraceMetricsQuery (Example.env Example.noBackend) Example.handler
    "metricSelector=builtin:service.requestCount.total:merge(0):sum&scope=" 10 20
  = Ok ("https://tenant.example.com/api/v2/metrics/query/?from=10000&metricSelector=builtin%3Aservice.requestCount.total%3Amerge%280%29%3Asum&resolution=Inf&scope=&to=20000",
        "builtin:service.requestCount.total:merge(0):sum")
  /\ fst (GoURL.ParseQuery
            "metricSelector=builtin:service.requestCount.total:merge(0):sum&scope=")
       !! "scope" = Some [""]
  /\ finalQueryValues (Example.env Example.noBackend)
       (fst (GoURL.ParseQuery
               "metricSelector=builtin:service.requestCount.total:merge(0):sum&scope="))
       10 20 !! "entitySelector" = None.
Proof. repeat split; vm_compute; reflexivity. Qed.

(** ** C8: the unchanged dashboard *)

Lemma HasDashboardChanged_false (env : Env) (dashboardJSON : DynatraceDashboard.t)
    (existingDashboardContent : string) :
  HasDashboardChanged env dashboardJSON existingDashboardContent = false
  <-> Strings.Contains (json_MarshalIndent_Dashboard env dashboardJSON)
        "KQG.QueryBehavior=ParseOnChange" = true
      /\ json_MarshalIndent_Dashboard env dashboardJSON = existingDashboardContent.
Proof.
  unfold HasDashboardChanged. rewrite Contains_Index.
  destruct (Strings.Index _ _ =? -1); simpl.
  - split; [discriminate | intros [H _]; discriminate].
  - destruct (Strings.Equal _ _) eqn:E.
    + apply Equal_true in E. tauto.
    + apply Equal_false in E. split; [discriminate | intros [_ H]; contradiction].
Qed.

(** C8: when the fetched dashboard's serialized content contains the marker
    [KQG.QueryBehavior=ParseOnChange] and equals the stored dashboard content,
    dashboard processing returns the link to the dashboard and nothing else:
    no dashboard, no SLI definitions, no SLO objectives, no SLI results. *)
Theorem QueryDynatraceDashboardForSLIs_unchanged (env : Env) (ph : Handler.t)
    (keptnEvent : BaseKeptnEvent.t) (dashboard : string) (startUnix endUnix : Time)
    (existingDashboardContent : string) (err : option string)
    (dashboardJSON : DynatraceDashboard.t) (dashboardID : string) :
  GetKeptnResource env keptnEvent (DynatraceDashboardFilename env)
    = (existingDashboardContent, err) ->
  loadDynatraceDashboard env ph keptnEvent
      (dashboardToLoad existingDashboardContent err dashboard)
    = Ok (Some dashboardJSON, dashboardID, None) ->
  Strings.Contains (json_MarshalIndent_Dashboard env dashboardJSON)
    "KQG.QueryBehavior=ParseOnChange" = true ->
  json_MarshalIndent_Dashboard env dashboardJSON = existingDashboardContent ->
  QueryDynatraceDashboardForSLIs env ph keptnEvent dashboard startUnix endUnix
  = Ok (mkDashboardResult (dashboardLink env ph dashboardJSON startUnix endUnix)
          None None None []).
Proof.
  intros Hres Hload Hmarker Hsame.
  unfold QueryDynatraceDashboardForSLIs. rewrite Hres, Hload. simpl.
  assert (Hunchanged : HasDashboardChanged env dashboardJSON existingDashboardContent = false)
    by (apply HasDashboardChanged_false; split; assumption).
  rewrite Hunchanged. reflexivity.
Qed.

Lemma QueryDynatraceDashboardForSLIs_unchanged_witness :
  QueryDynatraceDashboardForSLIs (Example.env Scenario.unchangedBackend) Example.handler
    Example.event Scenario.dashboardID 10 20
  = Ok (mkDashboardResult
          "https://tenant.example.com#dashboard;id=dddddddd-dddd-4ddd-8ddd-dddddddddddd;gtf=c_10000_20000"
          None None None []).
Proof.
  exact (QueryDynatraceDashboardForSLIs_unchanged
           (Example.env Scenario.unchangedBackend) Example.handler Example.event
           Scenario.dashboardID 10 20
           (Example.marshal Scenario.problemsDashboard) None
           Scenario.problemsDashboard Scenario.dashboardID
           eq_refl eq_refl eq_refl eq_refl).
Defined.

(** ** The synthesizer never panics *)

Lemma list_pair_ind {A : Type} (P : list A -> Prop) :
  P [] -> (forall a, P [a]) -> (forall a b l, P l -> P (a :: b :: l)) ->
  forall l, P l.
Proof.
  intros Hnil Hone Hstep.
  fix IH 1. intros [|a [|b l]]; [exact Hnil | apply Hone | apply Hstep, IH].
Qed.

Lemma even_length_pairs {A : Type} (a b : A) (l : list A) :
  Nat.even (length (a :: b :: l)) = Nat.even (length l).
Proof. reflexivity. Qed.

(** The loop over the dimensions: in steps of one it cannot fail; in steps of
    two it cannot fail on a list of even length. The name it builds is the
    starting name extended by the values it visits. *)
Lemma dimensionLoop_stride1 (filter entity : string) (dims : list string) (acc : DimAcc) :
  exists acc',
    dimensionLoop false filter entity dims acc = Ok acc'
    /\ da_indicatorName acc' = suffixed (da_indicatorName acc) dims.
Proof.
  revert acc. induction dims as [|d rest IH]; intros acc; simpl.
  - exists acc. split; reflexivity.
  - destruct (IH (mkDimAcc (da_indicatorName acc ++ "_" ++ d)
                   (":names" ++ Strings.Replace filter "FILTERDIMENSIONVALUE" d 1)
                   (da_metricQueryForSLI acc))) as (acc' & Hloop & Hname).
    exists acc'. split; [exact Hloop | exact Hname].
Qed.

Lemma dimensionLoop_stride2 (filter entity : string) (dims : list string) :
  Nat.even (length dims) = true ->
  forall acc, exists acc',
    dimensionLoop true filter entity dims acc = Ok acc'
    /\ da_indicatorName acc' = suffixed (da_indicatorName acc) (everyOther dims).
Proof.
  induction dims as [|d|d id rest IH] using list_pair_ind; intros Heven acc.
  - exists acc. split; reflexivity.
  - discriminate Heven.
  - rewrite even_length_pairs in Heven. specialize (IH Heven).
    cbn [dimensionLoop everyOther suffixed fold_left].
    destruct (negb (Strings.Equal entity "")); apply IH.
Qed.

Lemma even_double (n : nat) : Nat.even (n * 2) = true.
Proof. rewrite Nat.mul_comm. apply Nat.even_even. Qed.

Lemma rowNames_total (noOfDimensionsInChart : nat) (ts : TileSLO) (mq : MetricQuery)
    (dataResultCount : nat) (row : MetricQueryResultNumbers.t) :
  rowNames noOfDimensionsInChart ts mq dataResultCount row
  = Ok (rowAcc noOfDimensionsInChart ts mq dataResultCount row).
Proof.
  unfold rowAcc.
  enough (H : exists acc, rowNames noOfDimensionsInChart ts mq dataResultCount row = Ok acc)
    by (destruct H as [acc ->]; reflexivity).
  unfold rowNames. destruct (1 <? dataResultCount)%nat; [|eexists; reflexivity].
  destruct (length (MetricQueryResultNumbers.Dimensions row) =? noOfDimensionsInChart * 2)%nat
    eqn:E.
  - apply Nat.eqb_eq in E.
    edestruct dimensionLoop_stride2 as (acc & H & _); [|eexists; exact H].
    rewrite E. apply even_double.
  - edestruct dimensionLoop_stride1 as (acc & H & _). eexists; exact H.
Qed.

(** With more than one row in the result, the name of a row is the base name
    suffixed by the row's dimension values, cleaned. *)
Lemma rowName_dimensioned (env : Env) (noOfDimensionsInChart : nat) (ts : TileSLO)
    (mq : MetricQuery) (dataResultCount : nat) (row : MetricQueryResultNumbers.t) :
  (1 < dataResultCount)%nat ->
  rowName env noOfDimensionsInChart ts mq dataResultCount row
  = dimensionedName env noOfDimensionsInChart ts row.
Proof.
  intros Hcount. unfold rowName, dimensionedName, rowAcc, rowNames, stridden.
  apply Nat.ltb_lt in Hcount. rewrite Hcount. f_equal.
  destruct (length (MetricQueryResultNumbers.Dimensions row) =? noOfDimensionsInChart * 2)%nat
    eqn:E.
  - apply Nat.eqb_eq in E.
    edestruct dimensionLoop_stride2 as (acc & -> & Hname);
      [rewrite E; apply even_double|exact Hname].
  - edestruct dimensionLoop_stride1 as (acc & -> & Hname). exact Hname.
Qed.

(** With a single row the base name and the metric query are kept. *)
Lemma rowAcc_single (noOfDimensionsInChart : nat) (ts : TileSLO) (mq : MetricQuery)
    (dataResultCount : nat) (row : MetricQueryResultNumbers.t) :
  (dataResultCount <= 1)%nat ->
  rowAcc noOfDimensionsInChart ts mq dataResultCount row
  = mkDimAcc (ts_baseIndicatorName ts) ":names" (mq_metricQuery mq).
Proof.
  intros Hcount. unfold rowAcc, rowNames.
  destruct (1 <? dataResultCount)%nat eqn:E; [|reflexivity].
  apply Nat.ltb_lt in E. lia.
Qed.

Lemma processDataEntry_rowEmit (env : Env) (noOfDimensionsInChart : nat) (ts : TileSLO)
    (mq : MetricQuery) (dataResultCount : nat) (st : Synth)
    (row : MetricQueryResultNumbers.t) :
  processDataEntry env noOfDimensionsInChart ts mq dataResultCount st row
  = Ok (rowEmit env noOfDimensionsInChart ts mq dataResultCount st row).
Proof.
  unfold processDataEntry. rewrite rowNames_total. reflexivity.
Qed.

Lemma foldM_total {S A : Type} (f : S -> A -> res S) (g : S -> A -> S) (l : list A) :
  (forall s a, f s a = Ok (g s a)) ->
  forall s, foldM f l s = Ok (fold_left g l s).
Proof.
  intros Hfg. induction l as [|a rest IH]; intros s; simpl; [reflexivity|].
  rewrite Hfg. simpl. apply IH.
Qed.

Lemma foldM_app {S A : Type} (f : S -> A -> res S) (l1 l2 : list A) (s : S) :
  foldM f (l1 ++ l2)%list s = (s' ← foldM f l1 s; foldM f l2 s').
Proof.
  revert s. induction l1 as [|a rest IH]; intros s; simpl; [reflexivity|].
  destruct (f s a) as [s'| |]; simpl; [apply IH | reflexivity | reflexivity].
Qed.

Lemma processSingleResult_resultEmit (env : Env) (noOfDimensionsInChart : nat)
    (ts : TileSLO) (mq : MetricQuery) (st : Synth)
    (singleResult : MetricQueryResultValues.t) :
  processSingleResult env noOfDimensionsInChart ts mq st singleResult
  = Ok (resultEmit env noOfDimensionsInChart ts mq st singleResult).
Proof.
  unfold processSingleResult, resultEmit.
  destruct (isMatchingMetricID _ _); [|reflexivity].
  apply foldM_total. intros s a. apply processDataEntry_rowEmit.
Qed.

(** A query that was executed is synthesized without error or panic. *)
Lemma GenerateSLISLOFromMetricsAPIQuery_executed (env : Env) (ph : Handler.t)
    (noOfDimensionsInChart : nat) (ts : TileSLO) (mq : MetricQuery)
    (sli : SLI.t) (slo : ServiceLevelObjectives.t)
    (queryResult : DynatraceMetricsQueryResult.t) :
  ExecuteMetricsAPIQuery env ph (mq_fullMetricQuery mq) = Ok queryResult ->
  GenerateSLISLOFromMetricsAPIQuery env ph noOfDimensionsInChart ts mq sli slo
  = Ok (fold_left (resultEmit env noOfDimensionsInChart ts mq)
          (DynatraceMetricsQueryResult.Result queryResult) (mkSynth [] sli slo)).
Proof.
  intros Hexec. unfold GenerateSLISLOFromMetricsAPIQuery. rewrite Hexec.
  apply foldM_total. intros s a. apply processSingleResult_resultEmit.
Qed.

(** ** What the synthesizer appends *)

Lemma rowEmit_rows (env : Env) (noOfDimensionsInChart : nat) (ts : TileSLO)
    (mq : MetricQuery) (dataResultCount : nat)
    (rows : list MetricQueryResultNumbers.t) (st : Synth) :
  let st' := fold_left (rowEmit env noOfDimensionsInChart ts mq dataResultCount) rows st in
  sliResults st'
  = (sliResults st
       ++ map (rowResult env noOfDimensionsInChart ts mq dataResultCount) rows)%list
  /\ ServiceLevelObjectives.Objectives (dashboardSLO st')
     = (ServiceLevelObjectives.Objectives (dashboardSLO st)
          ++ map (rowObjective env noOfDimensionsInChart ts mq dataResultCount) rows)%list.
Proof.
  revert st. induction rows as [|row rest IH]; intros st; simpl.
  - now rewrite !app_nil_r.
  - destruct (IH (rowEmit env noOfDimensionsInChart ts mq dataResultCount st row))
      as [Hres Hobj].
    cbv zeta in Hres, Hobj. rewrite Hres, Hobj. simpl.
    now rewrite <- !app_assoc.
Qed.

Lemma resultEmit_results (env : Env) (noOfDimensionsInChart : nat) (ts : TileSLO)
    (mq : MetricQuery) (results : list MetricQueryResultValues.t) (st : Synth) :
  let st' := fold_left (resultEmit env noOfDimensionsInChart ts mq) results st in
  sliResults st'
  = (sliResults st ++ resultsOf env noOfDimensionsInChart ts mq results)%list
  /\ ServiceLevelObjectives.Objectives (dashboardSLO st')
     = (ServiceLevelObjectives.Objectives (dashboardSLO st)
          ++ objectivesOf env noOfDimensionsInChart ts mq results)%list.
Proof.
  revert st. induction results as [|r rest IH]; intros st; simpl.
  - now rewrite !app_nil_r.
  - destruct (IH (resultEmit env noOfDimensionsInChart ts mq st r)) as [Hres Hobj].
    cbv zeta in Hres, Hobj. rewrite Hres, Hobj.
    unfold resultEmit, matchingRows.
    destruct (isMatchingMetricID _ _); simpl.
    + destruct (rowEmit_rows env noOfDimensionsInChart ts mq
                  (length (MetricQueryResultValues.Data r))
                  (MetricQueryResultValues.Data r) st) as [Hr Ho].
      cbv zeta in Hr, Ho. rewrite Hr, Ho. now rewrite <- !app_assoc.
    + split; reflexivity.
Qed.

Lemma resultsOf_app (env : Env) (noOfDimensionsInChart : nat) (ts : TileSLO)
    (mq : MetricQuery) (l1 l2 : list MetricQueryResultValues.t) :
  resultsOf env noOfDimensionsInChart ts mq (l1 ++ l2)%list
  = (resultsOf env noOfDimensionsInChart ts mq l1
       ++ resultsOf env noOfDimensionsInChart ts mq l2)%list.
Proof. apply flat_map_app. Qed.

Lemma objectivesOf_app (env : Env) (noOfDimensionsInChart : nat) (ts : TileSLO)
    (mq : MetricQuery) (l1 l2 : list MetricQueryResultValues.t) :
  objectivesOf env noOfDimensionsInChart ts mq (l1 ++ l2)%list
  = (objectivesOf env noOfDimensionsInChart ts mq l1
       ++ objectivesOf env noOfDimensionsInChart ts mq l2)%list.
Proof. apply flat_map_app. Qed.

(** Results whose metric ID does not match contribute nothing. *)
Lemma resultsOf_no_match (env : Env) (noOfDimensionsInChart : nat) (ts : TileSLO)
    (mq : MetricQuery) (results : list MetricQueryResultValues.t) :
  Forall (fun r => isMatchingMetricID (MetricQueryResultValues.MetricID r)
                     (mq_metricID mq) = false) results ->
  resultsOf env noOfDimensionsInChart ts mq results = []
  /\ objectivesOf env noOfDimensionsInChart ts mq results = [].
Proof.
  induction 1 as [|r rest Hr _ [IHr IHo]]; [split; reflexivity|].
  unfold resultsOf, objectivesOf in *. simpl. unfold matchingRows at 1 3.
  rewrite Hr. simpl. split; assumption.
Qed.

(** ** C6: one indicator per row of a dimensioned result *)

(** C6: when the query result holds a matching result with N > 1 data rows,
    the synthesizer returns, in the order of the rows and between what the
    results before and after it contribute, N SLI results whose names are the
    base name suffixed by the row's dimension values (every other one when the
    row has twice as many as the chart has dimensions, all of them otherwise),
    cleaned; and it appends N objectives under the same names with the tile's
    pass and warning criteria, weight and key flag. When no other result
    matches, these are all the results and all the new objectives. *)
Theorem GenerateSLISLOFromMetricsAPIQuery_rows (env : Env) (ph : Handler.t)
    (noOfDimensionsInChart : nat) (ts : TileSLO) (mq : MetricQuery)
    (sli : SLI.t) (slo : ServiceLevelObjectives.t)
    (queryResult : DynatraceMetricsQueryResult.t)
    (before after : list MetricQueryResultValues.t) (r : MetricQueryResultValues.t) :
  ExecuteMetricsAPIQuery env ph (mq_fullMetricQuery mq) = Ok queryResult ->
  DynatraceMetricsQueryResult.Result queryResult = (before ++ r :: after)%list ->
  isMatchingMetricID (MetricQueryResultValues.MetricID r) (mq_metricID mq) = true ->
  (1 < length (MetricQueryResultValues.Data r))%nat ->
  let rowResults :=
    map (fun row =>
           SLIResult.mk (dimensionedName env noOfDimensionsInChart ts row)
             (scaleData (mq_metricID mq) (mq_metricUnit mq)
                (meanOfValues (MetricQueryResultNumbers.Values row)))
             true "")
        (MetricQueryResultValues.Data r) in
  let rowObjectives :=
    map (fun row =>
           SLO.mk (dimensionedName env noOfDimensionsInChart ts row)
             (ts_passSLOs ts) (ts_warningSLOs ts) (ts_weight ts) (ts_keySli ts))
        (MetricQueryResultValues.Data r) in
  exists final,
    GenerateSLISLOFromMetricsAPIQuery env ph noOfDimensionsInChart ts mq sli slo = Ok final
    /\ length rowResults = length (MetricQueryResultValues.Data r)
    /\ length rowObjectives = length (MetricQueryResultValues.Data r)
    /\ sliResults final
       = (resultsOf env noOfDimensionsInChart ts mq before
            ++ rowResults
            ++ resultsOf env noOfDimensionsInChart ts mq after)%list
    /\ ServiceLevelObjectives.Objectives (dashboardSLO final)
       = (ServiceLevelObjectives.Objectives slo
            ++ objectivesOf env noOfDimensionsInChart ts mq before
            ++ rowObjectives
            ++ objectivesOf env noOfDimensionsInChart ts mq after)%list
    /\ (Forall (fun r' => isMatchingMetricID (MetricQueryResultValues.MetricID r')
                            (mq_metricID mq) = false) (before ++ after)%list ->
        sliResults final = rowResults
        /\ ServiceLevelObjectives.Objectives (dashboardSLO final)
           = (ServiceLevelObjectives.Objectives slo ++ rowObjectives)%list).
Proof.
  intros Hexec Hresult Hmatch Hcount rowResults rowObjectives.
  rewrite (GenerateSLISLOFromMetricsAPIQuery_executed env ph noOfDimensionsInChart ts mq
             sli slo queryResult Hexec).
  eexists. split; [reflexivity|].
  split; [apply length_map|]. split; [apply length_map|].
  destruct (resultEmit_results env noOfDimensionsInChart ts mq
              (DynatraceMetricsQueryResult.Result queryResult) (mkSynth [] sli slo))
    as [Hres Hobj].
  cbv zeta in Hres, Hobj. simpl in Hres, Hobj.
  assert (Hr : resultsOf env noOfDimensionsInChart ts mq [r] = rowResults).
  { unfold resultsOf, matchingRows. simpl. rewrite Hmatch, app_nil_r.
    apply map_ext. intros row. unfold rowResult, rowValue.
    now rewrite rowName_dimensioned. }
  assert (Ho : objectivesOf env noOfDimensionsInChart ts mq [r] = rowObjectives).
  { unfold objectivesOf, matchingRows. simpl. rewrite Hmatch, app_nil_r.
    apply map_ext. intros row. unfold rowObjective, sloDefinitionOf.
    now rewrite rowName_dimensioned. }
  assert (Hres' : sliResults
                    (fold_left (resultEmit env noOfDimensionsInChart ts mq)
                       (DynatraceMetricsQueryResult.Result queryResult) (mkSynth [] sli slo))
                  = (resultsOf env noOfDimensionsInChart ts mq before ++ rowResults
                       ++ resultsOf env noOfDimensionsInChart ts mq after)%list).
  { rewrite Hres, Hresult.
    change (r :: after) with ([r] ++ after)%list.
    now rewrite !resultsOf_app, Hr. }
  assert (Hobj' : ServiceLevelObjectives.Objectives
                    (dashboardSLO
                       (fold_left (resultEmit env noOfDimensionsInChart ts mq)
                          (DynatraceMetricsQueryResult.Result queryResult)
                          (mkSynth [] sli slo)))
                  = (ServiceLevelObjectives.Objectives slo
                       ++ objectivesOf env noOfDimensionsInChart ts mq before
                       ++ rowObjectives
                       ++ objectivesOf env noOfDimensionsInChart ts mq after)%list).
  { rewrite Hobj, Hresult.
    change (r :: after) with ([r] ++ after)%list.
    now rewrite !objectivesOf_app, Ho. }
  split; [exact Hres'|]. split; [exact Hobj'|].
  intros Hothers. apply Forall_app in Hothers. destruct Hothers as [Hb Ha].
  destruct (resultsOf_no_match env noOfDimensionsInChart ts mq before Hb) as [Hb1 Hb2].
  destruct (resultsOf_no_match env noOfDimensionsInChart ts mq after Ha) as [Ha1 Ha2].
  rewrite Hres', Hobj', Hb1, Hb2, Ha1, Ha2. simpl. now rewrite !app_nil_r.
Qed.

Lemma GenerateSLISLOFromMetricsAPIQuery_rows_witness :
  exists final,
    GenerateSLISLOFromMetricsAPIQuery
      (Example.env (Scenario.teststepBackend (Some (Scenario.answerOf Scenario.threeRows))))
      Example.handler 1 Scenario.teststepSLO Scenario.teststepMetricQuery
      (SLI.mk "0.1.4" ∅) initialSLO = Ok final
    /\ map SLIResult.Metric (sliResults final)
       = ["teststep_login"; "teststep_cart"; "teststep_checkout"]
    /\ map SLIResult.Value (sliResults final) = [250; 500; 750]%float
    /\ ServiceLevelObjectives.Objectives (dashboardSLO final)
       = map (fun name => SLO.mk name [SLOCriteria.mk ["<=500"]] [] 2 true)
           ["teststep_login"; "teststep_cart"; "teststep_checkout"].
Proof.
  destruct (GenerateSLISLOFromMetricsAPIQuery_rows
              (Example.env (Scenario.teststepBackend
                              (Some (Scenario.answerOf Scenario.threeRows))))
              Example.handler 1 Scenario.teststepSLO Scenario.teststepMetricQuery
              (SLI.mk "0.1.4" ∅) initialSLO
              (Scenario.answerOf Scenario.threeRows) [] []
              (MetricQueryResultValues.mk "calc:service.teststep:avg:names"
                 Scenario.threeRows))
    as (final & Hgen & _ & _ & _ & _ & Hexact).
  - vm_compute. reflexivity.
  - reflexivity.
  - reflexivity.
  - apply Nat.ltb_lt. reflexivity.
  - destruct Hexact as [Hresults Hobjectives]; [constructor|].
    exists final. rewrite Hresults, Hobjectives.
    split; [exact Hgen|]. repeat split; vm_compute; reflexivity.
Defined.

(** ** C7: a query that fails *)

Lemma appendsTo_refl (st : Synth) : appendsTo st (Ok st).
Proof. intros st' [= <-]. exists []. now rewrite app_nil_r. Qed.

Lemma appendsTo_same (st st' : Synth) :
  sliResults st' = sliResults st -> appendsTo st (Ok st').
Proof. intros H st'' [= <-]. exists []. now rewrite app_nil_r. Qed.

Lemma appendsTo_emit (st : Synth) (r : SLIResult.t) (name query : string) (o : SLO.t) :
  appendsTo st (Ok (emit st r name query o)).
Proof. intros st' [= <-]. exists [r]. reflexivity. Qed.

Lemma appendsTo_bind (st : Synth) (x : res Synth) (k : Synth -> res Synth) :
  appendsTo st x -> (forall st1, appendsTo st1 (k st1)) -> appendsTo st (x ≫= k).
Proof.
  intros Hx Hk st' H. destruct x as [st1| |]; try discriminate H.
  destruct (Hx st1 eq_refl) as [more1 H1]. destruct (Hk st1 st' H) as [more2 H2].
  exists (more1 ++ more2)%list. now rewrite H2, H1, app_assoc.
Qed.

Lemma appendsTo_foldM {A : Type} (f : Synth -> A -> res Synth) (l : list A) :
  (forall st a, appendsTo st (f st a)) -> forall st, appendsTo st (foldM f l st).
Proof.
  intros Hf. induction l as [|a rest IH]; intros st; simpl.
  - apply appendsTo_refl.
  - apply appendsTo_bind; [apply Hf | exact IH].
Qed.

Lemma appendsTo_addTileResult (st : Synth)
    (r : res (SLIResult.t * string * string * SLO.t)) :
  appendsTo st (addTileResult st r).
Proof.
  destruct r as [[[[sliResult sliIndicator] sliQuery] sloDefinition]| |]; simpl.
  - apply appendsTo_emit.
  - apply appendsTo_refl.
  - intros st' H. discriminate H.
Qed.

Lemma appendsTo_synthesize (env : Env) (ph : Handler.t) (noOfDimensionsInChart : nat)
    (ts : TileSLO) (mq : MetricQuery) (st : Synth) :
  appendsTo st (synthesize env ph noOfDimensionsInChart ts mq st).
Proof.
  intros st' H. unfold synthesize in H.
  destruct (GenerateSLISLOFromMetricsAPIQuery _ _ _ _ _ _ _) as [new| |];
    try discriminate H.
  injection H as <-. exists (sliResults new). reflexivity.
Qed.

Lemma appendsTo_dataQueryStep (env : Env) (ph : Handler.t) (ts : TileSLO)
    (filter : string) (startUnix endUnix : Time) (st : Synth)
    (dataQuery : DataExplorerQuery.t) :
  appendsTo st (dataQueryStep env ph ts filter startUnix endUnix st dataQuery).
Proof.
  unfold dataQueryStep.
  destruct (GenerateMetricQueryFromDataExplorer _ _ _ _ _ _) as [mq| |].
  - apply appendsTo_synthesize.
  - apply appendsTo_refl.
  - intros st' H. discriminate H.
Qed.

Lemma appendsTo_chartSeriesStep (env : Env) (ph : Handler.t) (tile : Tile.t)
    (ts : TileSLO) (filter : string) (startUnix endUnix : Time) (st : Synth)
    (series : ChartSeries.t) :
  appendsTo st (chartSeriesStep env ph tile ts filter startUnix endUnix st series).
Proof.
  unfold chartSeriesStep.
  destruct (GenerateMetricQueryFromChart _ _ _ _ _ _ _) as [mq| |].
  - apply appendsTo_synthesize.
  - apply appendsTo_refl.
  - intros st' H. discriminate H.
Qed.

Lemma appendsTo_processUSQLRow (tile : Tile.t) (ts : TileSLO) (st : Synth)
    (rowValue : list json_value) :
  appendsTo st (processUSQLRow tile ts st rowValue).
Proof.
  unfold processUSQLRow.
  destruct (usqlRow (Tile.Type_ tile) rowValue) as [[[name value]|]| |]; simpl.
  - apply appendsTo_emit.
  - apply appendsTo_refl.
  - intros st' H. discriminate H.
  - intros st' H. discriminate H.
Qed.

Ltac appends_step :=
  first
    [ apply appendsTo_refl
    | apply appendsTo_emit
    | apply appendsTo_addTileResult
    | apply appendsTo_same; reflexivity
    | apply appendsTo_foldM; intros;
      first [ apply appendsTo_addTileResult | apply appendsTo_dataQueryStep
            | apply appendsTo_chartSeriesStep | apply appendsTo_processUSQLRow ]
    | apply appendsTo_bind; [|intros]
    | match goal with
      | |- appendsTo _ (if ?c then _ else _) => destruct c
      | |- appendsTo _ (match ?x with Ok _ => _ | Err _ => _ | Panic => _ end) =>
          destruct x
      | |- appendsTo _ (mbind _ ?x) => destruct x; simpl
      | |- appendsTo _ Panic => let H := fresh in intros ? H; discriminate H
      | |- appendsTo _ (Err _) => let H := fresh in intros ? H; discriminate H
      end ].

Lemma appendsTo_processTile (env : Env) (ph : Handler.t)
    (dashboardJSON : DynatraceDashboard.t) (filter : string) (startUnix endUnix : Time)
    (st : Synth) (tile : Tile.t) :
  appendsTo st (processTile env ph dashboardJSON filter startUnix endUnix st tile).
Proof.
  unfold processTile. cbv zeta. repeat appends_step.
Qed.

Lemma appendsTo_processTiles (env : Env) (ph : Handler.t)
    (dashboardJSON : DynatraceDashboard.t) (startUnix endUnix : Time)
    (tiles : list Tile.t) (st : Synth) :
  appendsTo st (processTiles env ph dashboardJSON startUnix endUnix tiles st).
Proof.
  unfold processTiles. apply appendsTo_foldM. intros. apply appendsTo_processTile.
Qed.

Lemma GenerateSLISLOFromMetricsAPIQuery_failed (env : Env) (ph : Handler.t)
    (noOfDimensionsInChart : nat) (ts : TileSLO) (mq : MetricQuery) (message : string)
    (sli : SLI.t) (slo : ServiceLevelObjectives.t) :
  ExecuteMetricsAPIQuery env ph (mq_fullMetricQuery mq) = Err message ->
  GenerateSLISLOFromMetricsAPIQuery env ph noOfDimensionsInChart ts mq sli slo
  = Ok (mkSynth [failedResult ts message]
          (setIndicator sli (ts_baseIndicatorName ts) (mq_metricQuery mq)) slo).
Proof.
  intros Hexec. unfold GenerateSLISLOFromMetricsAPIQuery. now rewrite Hexec.
Qed.

Lemma synthesize_failed (env : Env) (ph : Handler.t)
    (noOfDimensionsInChart : nat) (ts : TileSLO) (mq : MetricQuery) (message : string)
    (st : Synth) :
  ExecuteMetricsAPIQuery env ph (mq_fullMetricQuery mq) = Err message ->
  synthesize env ph noOfDimensionsInChart ts mq st
  = Ok (mkSynth (sliResults st ++ [failedResult ts message])%list
          (setIndicator (dashboardSLI st) (ts_baseIndicatorName ts) (mq_metricQuery mq))
          (dashboardSLO st)).
Proof.
  intros Hexec. unfold synthesize.
  now rewrite (GenerateSLISLOFromMetricsAPIQuery_failed _ _ _ _ _ message).
Qed.

Lemma foldM_reaches {S A : Type} (f : S -> A -> res S) (l1 l2 : list A) (a : A)
    (s final : S) :
  foldM f (l1 ++ a :: l2)%list s = Ok final ->
  exists s1 s2, foldM f l1 s = Ok s1 /\ f s1 a = Ok s2 /\ foldM f l2 s2 = Ok final.
Proof.
  rewrite foldM_app. intros H.
  destruct (foldM f l1 s) as [s1| |]; try discriminate H. simpl in H.
  destruct (f s1 a) as [s2| |] eqn:Hstep; try discriminate H. simpl in H.
  exists s1, s2. repeat split; assumption.
Qed.

(** Once a result is among the SLI results, a loop of appending steps keeps
    it there. *)
Lemma foldM_keeps {A : Type} (f : Synth -> A -> res Synth) (l : list A)
    (st final : Synth) (r : SLIResult.t) :
  (forall st a, appendsTo st (f st a)) ->
  In r (sliResults st) -> foldM f l st = Ok final -> In r (sliResults final).
Proof.
  intros Hf Hin Hfold.
  destruct (appendsTo_foldM f l Hf st final Hfold) as [more ->].
  apply in_or_app. now left.
Qed.

(** A loop of appending steps in which the step at one element appends [r]
    ends with [r] among the SLI results. *)
Lemma foldM_reports {A : Type} (f : Synth -> A -> res Synth) (l : list A) (a : A)
    (st final : Synth) (r : SLIResult.t) :
  (forall st a, appendsTo st (f st a)) ->
  (forall st st', f st a = Ok st' -> In r (sliResults st')) ->
  In a l -> foldM f l st = Ok final -> In r (sliResults final).
Proof.
  intros Hf Hstep Hin Hfold.
  apply in_split in Hin. destruct Hin as (l1 & l2 & ->).
  apply foldM_reaches in Hfold. destruct Hfold as (s1 & s2 & _ & Ha & Hrest).
  eapply foldM_keeps; [exact Hf | | exact Hrest]. eapply Hstep, Ha.
Qed.

Lemma processTile_reports (env : Env) (ph : Handler.t)
    (dashboardJSON : DynatraceDashboard.t) (startUnix endUnix : Time)
    (tile : Tile.t) (ts : TileSLO) (noOfDimensionsInChart : nat) (mq : MetricQuery)
    (message : string) (st st' : Synth) :
  ExecuteMetricsAPIQuery env ph (mq_fullMetricQuery mq) = Err message ->
  tileRunsQuery env ph dashboardJSON startUnix endUnix tile ts noOfDimensionsInChart mq ->
  ts_baseIndicatorName ts <> "" ->
  processTile env ph dashboardJSON (dashboardManagementZoneFilterOf dashboardJSON)
    startUnix endUnix st tile = Ok st' ->
  In (failedResult ts message) (sliResults st').
Proof.
  intros Hexec Hruns Hbase Htile. apply Equal_false in Hbase.
  destruct Hruns as [(Htype & Hts & dataQuery & Hin & Hn & Hgen)
                    |(Htype & Hts & series & Hin & Hn & Hgen)];
    unfold processTile in Htile; rewrite Htype in Htile; cbn in Htile;
    rewrite <- Hts, Hbase in Htile.
  - eapply foldM_reports; [| |exact Hin|exact Htile].
    + intros. apply appendsTo_dataQueryStep.
    + intros s s' Hstep. unfold dataQueryStep in Hstep.
      rewrite Hgen, <- Hn, (synthesize_failed _ _ _ _ _ message) in Hstep by exact Hexec.
      injection Hstep as <-. simpl. apply in_or_app. right. now left.
  - destruct (foldM _ _ st) as [st1| |] eqn:Hfold; try discriminate Htile.
    cbn in Htile. injection Htile as <-.
    eapply foldM_reports; [| |exact Hin|exact Hfold].
    + intros. apply appendsTo_chartSeriesStep.
    + intros s s' Hstep. unfold chartSeriesStep in Hstep.
      rewrite Hgen, <- Hn, (synthesize_failed _ _ _ _ _ message) in Hstep by exact Hexec.
      injection Hstep as <-. simpl. apply in_or_app. right. now left.
Qed.

(** A loop whose step at [a] returns with [r] among the SLI results, and
    whose other steps return, runs to its end: the elements before [a], [a],
    then the elements after [a] from the state that holds [r], which is
    still there at the end. *)
Lemma foldM_through {A : Type} (f : Synth -> A -> res Synth) (l1 l2 : list A) (a : A)
    (r : SLIResult.t) (st : Synth) :
  (forall st a, appendsTo st (f st a)) ->
  (forall st, exists st', f st a = Ok st' /\ In r (sliResults st')) ->
  stepsReturn f (l1 ++ l2)%list ->
  exists reached final,
    foldM f (l1 ++ [a])%list st = Ok reached
    /\ In r (sliResults reached)
    /\ foldM f l2 reached = Ok final
    /\ foldM f (l1 ++ a :: l2)%list st = Ok final
    /\ In r (sliResults final).
Proof.
  intros Hf Ha Hothers.
  assert (Hrun : forall l, (forall x, In x l -> In x (l1 ++ l2)%list) ->
                           forall s, exists s', foldM f l s = Ok s').
  { induction l as [|x rest IH]; intros Hl s; simpl.
    - now exists s.
    - destruct (Hothers s x (Hl x (or_introl eq_refl))) as [s1 ->]. simpl.
      apply IH. intros y Hy. apply Hl. now right. }
  destruct (Hrun l1 (fun x Hx => in_or_app l1 l2 x (or_introl Hx)) st) as [s1 H1].
  destruct (Ha s1) as (reached & Hstep & Hin).
  destruct (Hrun l2 (fun x Hx => in_or_app l1 l2 x (or_intror Hx)) reached) as [final H2].
  exists reached, final. repeat split.
  - rewrite foldM_app, H1. simpl. now rewrite Hstep.
  - exact Hin.
  - exact H2.
  - rewrite foldM_app, H1. simpl. now rewrite Hstep.
  - eapply foldM_keeps; [exact Hf|exact Hin|exact H2].
Qed.

(** The tile of a query that fails is processed to its end, whatever state
    it starts from, and leaves the failed result among the SLI results. *)
Lemma processTile_failed_returns (env : Env) (ph : Handler.t)
    (dashboardJSON : DynatraceDashboard.t) (startUnix endUnix : Time)
    (tile : Tile.t) (ts : TileSLO) (noOfDimensionsInChart : nat) (mq : MetricQuery)
    (message : string) (st : Synth) :
  ExecuteMetricsAPIQuery env ph (mq_fullMetricQuery mq) = Err message ->
  tileRunsQueryAmong env ph dashboardJSON startUnix endUnix tile ts
    noOfDimensionsInChart mq ->
  ts_baseIndicatorName ts <> "" ->
  exists st',
    processTile env ph dashboardJSON (dashboardManagementZoneFilterOf dashboardJSON)
      startUnix endUnix st tile = Ok st'
    /\ In (failedResult ts message) (sliResults st').
Proof.
  intros Hexec Hruns Hbase. apply Equal_false in Hbase.
  destruct Hruns as [(Htype & Hts & earlier & dataQuery & later & Hsplit & Hn & Hgen & Hothers)
                    |(Htype & Hts & earlier & series & later & Hsplit & Hn & Hgen & Hothers)];
    unfold processTile; rewrite Htype; cbn; rewrite <- Hts, Hbase, Hsplit.
  - destruct (foldM_through
                (dataQueryStep env ph ts
                   (tileManagementZoneFilterOf
                      (dashboardManagementZoneFilterOf dashboardJSON) tile)
                   startUnix endUnix)
                earlier later dataQuery (failedResult ts message) st)
      as (reached & final & _ & _ & _ & Hall & Hin);
      [intros; apply appendsTo_dataQueryStep| |exact Hothers|].
    + intros s. eexists. unfold dataQueryStep.
      rewrite Hgen, <- Hn, (synthesize_failed _ _ _ _ _ message) by exact Hexec.
      split; [reflexivity|]. simpl. apply in_or_app. right. now left.
    + exists final. split; assumption.
  - destruct (foldM_through
                (chartSeriesStep env ph tile ts
                   (tileManagementZoneFilterOf
                      (dashboardManagementZoneFilterOf dashboardJSON) tile)
                   startUnix endUnix)
                earlier later series (failedResult ts message) st)
      as (reached & final & _ & _ & _ & Hall & Hin);
      [intros; apply appendsTo_chartSeriesStep| |exact Hothers|].
    + intros s. eexists. unfold chartSeriesStep.
      rewrite Hgen, <- Hn, (synthesize_failed _ _ _ _ _ message) by exact Hexec.
      split; [reflexivity|]. simpl. apply in_or_app. right. now left.
    + exists final. rewrite Hall. cbn. split; [reflexivity|assumption].
Qed.

(** C7: when executing the metrics query built for a tile's data explorer
    query or chart series fails, the synthesizer returns exactly one SLI
    result, under the base indicator name, with value 0, marked as failed and
    carrying the error text, and the loop step that called it returns
    normally with that one result appended. The pass goes on: when the steps
    of the other queries or series of the tile and of the other tiles return,
    the tiles up to this one are processed and leave the failed result among
    the SLI results, the tiles after it are processed from that state, and
    the pass returns the dashboard with the SLI results of the last state,
    the failed result among them. And whenever the dashboard was processed,
    the failed result is among the SLI results returned. *)
Theorem failed_query_is_reported (env : Env) (ph : Handler.t)
    (noOfDimensionsInChart : nat) (ts : TileSLO) (mq : MetricQuery) (message : string) :
  ExecuteMetricsAPIQuery env ph (mq_fullMetricQuery mq) = Err message ->
  (forall sli slo,
      GenerateSLISLOFromMetricsAPIQuery env ph noOfDimensionsInChart ts mq sli slo
      = Ok (mkSynth [SLIResult.mk (ts_baseIndicatorName ts) 0 false message]
              (setIndicator sli (ts_baseIndicatorName ts) (mq_metricQuery mq)) slo))
  /\ (forall st,
        synthesize env ph noOfDimensionsInChart ts mq st
        = Ok (mkSynth
                (sliResults st ++ [SLIResult.mk (ts_baseIndicatorName ts) 0 false message])%list
                (setIndicator (dashboardSLI st) (ts_baseIndicatorName ts) (mq_metricQuery mq))
                (dashboardSLO st)))
  /\ (forall keptnEvent dashboard startUnix endUnix out dashboardJSON tile,
        QueryDynatraceDashboardForSLIs env ph keptnEvent dashboard startUnix endUnix = Ok out ->
        dr_dashboard out = Some dashboardJSON ->
        In tile (DynatraceDashboard.Tiles dashboardJSON) ->
        tileRunsQuery env ph dashboardJSON startUnix endUnix tile ts
          noOfDimensionsInChart mq ->
        ts_baseIndicatorName ts <> "" ->
        In (SLIResult.mk (ts_baseIndicatorName ts) 0 false message) (dr_sliResults out))
  /\ (forall keptnEvent dashboard startUnix endUnix existingDashboardContent err
             dashboardJSON dashboardID earlier tile later,
        GetKeptnResource env keptnEvent (DynatraceDashboardFilename env)
          = (existingDashboardContent, err) ->
        loadDynatraceDashboard env ph keptnEvent
            (dashboardToLoad existingDashboardContent err dashboard)
          = Ok (Some dashboardJSON, dashboardID, None) ->
        HasDashboardChanged env dashboardJSON existingDashboardContent = true ->
        DynatraceDashboard.Tiles dashboardJSON = (earlier ++ tile :: later)%list ->
        tileRunsQueryAmong env ph dashboardJSON startUnix endUnix tile ts
          noOfDimensionsInChart mq ->
        ts_baseIndicatorName ts <> "" ->
        stepsReturn
          (processTile env ph dashboardJSON (dashboardManagementZoneFilterOf dashboardJSON)
             startUnix endUnix)
          (earlier ++ later)%list ->
        exists reached final,
          processTiles env ph dashboardJSON startUnix endUnix (earlier ++ [tile])%list
            initialSynth = Ok reached
          /\ In (SLIResult.mk (ts_baseIndicatorName ts) 0 false message)
                (sliResults reached)
          /\ processTiles env ph dashboardJSON startUnix endUnix later reached = Ok final
          /\ QueryDynatraceDashboardForSLIs env ph keptnEvent dashboard startUnix endUnix
             = Ok (mkDashboardResult (dashboardLink env ph dashboardJSON startUnix endUnix)
                     (Some dashboardJSON) (Some (dashboardSLI final))
                     (Some (dashboardSLO final)) (sliResults final))
          /\ In (SLIResult.mk (ts_baseIndicatorName ts) 0 false message)
                (sliResults final)).
Proof.
  intros Hexec. split; [|split; [|split]].
  - intros sli slo. now apply GenerateSLISLOFromMetricsAPIQuery_failed.
  - intros st. now apply synthesize_failed.
  - intros keptnEvent dashboard startUnix endUnix out dashboardJSON tile
           Hquery Hdashboard Htile Hruns Hbase.
    unfold QueryDynatraceDashboardForSLIs in Hquery.
    destruct (GetKeptnResource env keptnEvent (DynatraceDashboardFilename env))
      as [existing err].
    destruct (loadDynatraceDashboard env ph keptnEvent (dashboardToLoad existing err dashboard))
      as [[[loaded id] [e|]]| |]; try discriminate Hquery; cbn in Hquery.
    destruct loaded as [dj|];
      [|injection Hquery as <-; discriminate Hdashboard].
    destruct (negb (HasDashboardChanged env dj existing));
      [injection Hquery as <-; discriminate Hdashboard|].
    destruct (processTiles env ph dj startUnix endUnix (DynatraceDashboard.Tiles dj)
                initialSynth) as [final| |] eqn:Hpass; try discriminate Hquery.
    cbn in Hquery. injection Hquery as <-. cbn in Hdashboard. injection Hdashboard as ->.
    cbn. unfold processTiles in Hpass.
    eapply foldM_reports; [| |exact Htile|exact Hpass].
    + intros. apply appendsTo_processTile.
    + intros s s' Hstep.
      exact (processTile_reports env ph dashboardJSON startUnix endUnix tile ts
               noOfDimensionsInChart mq message s s' Hexec Hruns Hbase Hstep).
  - intros keptnEvent dashboard startUnix endUnix existing err dashboardJSON dashboardID
           earlier tile later Hres Hload Hchanged Htiles Hruns Hbase Hothers.
    destruct (foldM_through
                (processTile env ph dashboardJSON
                   (dashboardManagementZoneFilterOf dashboardJSON) startUnix endUnix)
                earlier later tile (failedResult ts message) initialSynth)
      as (reached & final & Hreached & Hin & Hlater & Hall & Hfinal);
      [intros; apply appendsTo_processTile| |exact Hothers|].
    + intros s.
      exact (processTile_failed_returns env ph dashboardJSON startUnix endUnix tile ts
               noOfDimensionsInChart mq message s Hexec Hruns Hbase).
    + exists reached, final. unfold processTiles. repeat split; try assumption.
      unfold QueryDynatraceDashboardForSLIs. rewrite Hres, Hload. cbn.
      rewrite Hchanged. cbn. unfold processTiles. rewrite Htiles, Hall. reflexivity.
Qed.

Example failed_query_pass :
  QueryDynatraceDashboardForSLIs (Example.env (Scenario.passBackend None)) Example.handler
    Example.event Scenario.dashboardID 10 20
  = Ok (mkDashboardResult
          "https://tenant.example.com#dashboard;id=dddddddd-dddd-4ddd-8ddd-dddddddddddd;gtf=c_10000_20000"
          (Some Scenario.teststepDashboard)
          (Some (SLI.mk "0.1.4"
                   (<["security_problems" := "SECPV2;securityProblemSelector=status(OPEN)"]>
                      (<["problems" := "PV2;problemSelector=status(open)"]>
                         (<["teststep" := "metricSelector=calc:service.teststep:avg:names"]>
                            ∅)))))
          (Some (ServiceLevelObjectives.mk
                   [SLO.mk "problems" [SLOCriteria.mk ["<=0"]] [] 1 true;
                    SLO.mk "security_problems" [SLOCriteria.mk ["<=0"]] [] 1 true]
                   (SLOScore.mk "90%" "75%")
                   (SLOComparison.mk "single_result" "pass" 1 "avg")))
          [SLIResult.mk "teststep" 0 false Scenario.refused;
           SLIResult.mk "problems" 3 true "";
           SLIResult.mk "security_problems" 1 true ""]).
Proof. vm_compute. reflexivity. Qed.

Lemma failed_query_is_reported_witness :
  GenerateSLISLOFromMetricsAPIQuery (Example.env (Scenario.passBackend None))
    Example.handler 1 Scenario.teststepSLO Scenario.teststepMetricQuery
    (SLI.mk "0.1.4" ∅) initialSLO
  = Ok (mkSynth [SLIResult.mk "teststep" 0 false Scenario.refused]
          (SLI.mk "0.1.4" {["teststep" := "metricSelector=calc:service.teststep:avg:names"]})
          initialSLO)
  /\ (forall out,
        QueryDynatraceDashboardForSLIs (Example.env (Scenario.passBackend None))
          Example.handler Example.event Scenario.dashboardID 10 20 = Ok out ->
        In (SLIResult.mk "teststep" 0 false Scenario.refused) (dr_sliResults out))
  /\ exists reached final,
       processTiles (Example.env (Scenario.passBackend None)) Example.handler
         Scenario.teststepDashboard 10 20 [Scenario.markdownTile; Scenario.teststepTile]
         initialSynth = Ok reached
       /\ In (SLIResult.mk "teststep" 0 false Scenario.refused) (sliResults reached)
       /\ processTiles (Example.env (Scenario.passBackend None)) Example.handler
            Scenario.teststepDashboard 10 20 [Scenario.openProblemsTile] reached = Ok final
       /\ QueryDynatraceDashboardForSLIs (Example.env (Scenario.passBackend None))
            Example.handler Example.event Scenario.dashboardID 10 20
          = Ok (mkDashboardResult
                  (dashboardLink (Example.env (Scenario.passBackend None)) Example.handler
                     Scenario.teststepDashboard 10 20)
                  (Some Scenario.teststepDashboard) (Some (dashboardSLI final))
                  (Some (dashboardSLO final)) (sliResults final))
       /\ In (SLIResult.mk "teststep" 0 false Scenario.refused) (sliResults final).
Proof.
  destruct (failed_query_is_reported (Example.env (Scenario.passBackend None))
              Example.handler 1 Scenario.teststepSLO Scenario.teststepMetricQuery
              Scenario.refused)
    as (Hsynth & _ & Hpass & Hgoeson).
  - vm_compute. reflexivity.
  - split; [|split].
    + rewrite Hsynth. reflexivity.
    + intros out Hout.
      apply (Hpass Example.event Scenario.dashboardID 10 20 out
               Scenario.teststepDashboard Scenario.teststepTile Hout).
      * rewrite failed_query_pass in Hout. injection Hout as <-. reflexivity.
      * right. left. reflexivity.
      * left. split; [reflexivity|]. split; [reflexivity|].
        exists Scenario.teststepQuery. split; [left; reflexivity|].
        split; [reflexivity|]. vm_compute. reflexivity.
      * discriminate.
    + apply (Hgoeson Example.event Scenario.dashboardID 10 20 "" None
               Scenario.teststepDashboard Scenario.dashboardID
               [Scenario.markdownTile] Scenario.teststepTile [Scenario.openProblemsTile]).
      * reflexivity.
      * vm_compute. reflexivity.
      * vm_compute. reflexivity.
      * reflexivity.
      * left. split; [reflexivity|]. split; [reflexivity|].
        exists [], Scenario.teststepQuery, []. split; [reflexivity|].
        split; [reflexivity|]. split; [vm_compute; reflexivity|].
        intros st a [].
      * discriminate.
      * intros st a [<-|[<-|[]]]; eexists; vm_compute; reflexivity.
Defined.

(** ** C4: the open-problems tile *)

Lemma problemSelectorOf_nonempty (status : string) (dashboardJSON : DynatraceDashboard.t)
    (tile : Tile.t) :
  status <> "" -> Strings.Equal (problemSelectorOf status dashboardJSON tile) "" = false.
Proof.
  intros Hstatus. apply Equal_false. unfold problemSelectorOf.
  destruct status as [|c status]; [contradiction|].
  destruct (managementZoneOf _), (DashboardFilter.ManagementZone _); discriminate.
Qed.

Lemma sloDefinitionFrom_SLI (env : Env) (indicatorName sloString : string) :
  SLO.SLI (sloDefinitionFrom env indicatorName sloString) = indicatorName.
Proof.
  unfold sloDefinitionFrom.
  destruct (ParsePassAndWarningFromString env sloString [] [])
    as [[[[name pass] warning] weight] key].
  reflexivity.
Qed.

Lemma ProcessOpenProblemTile_ok (env : Env) (ph : Handler.t) (problemSelector : string)
    (startUnix endUnix : Time) (found : DynatraceProblemQueryResult.t) :
  Strings.Equal problemSelector "" = false ->
  ExecuteGetDynatraceProblems env ph ("problemSelector=" ++ problemSelector)
    startUnix endUnix = Ok found ->
  ProcessOpenProblemTile env ph problemSelector "" startUnix endUnix
  = Ok (SLIResult.mk "problems"
          (float64_of_int (DynatraceProblemQueryResult.TotalCount found)) true "",
        "problems", "PV2;problemSelector=" ++ problemSelector,
        sloDefinitionFrom env "problems" "sli=problems;pass=<=0;key=true").
Proof.
  intros Hselector Hexec. unfold ProcessOpenProblemTile, openProblemQuery.
  rewrite Hselector. cbn [Strings.Equal String.eqb]. rewrite Hexec. reflexivity.
Qed.

Lemma ProcessOpenSecurityProblemTile_ok (env : Env) (ph : Handler.t)
    (securityProblemSelector : string) (startUnix endUnix : Time)
    (found : DynatraceSecurityProblemQueryResult.t) :
  Strings.Equal securityProblemSelector "" = false ->
  ExecuteGetDynatraceSecurityProblems env ph
    ("securityProblemSelector=" ++ securityProblemSelector) startUnix endUnix = Ok found ->
  ProcessOpenSecurityProblemTile env ph securityProblemSelector startUnix endUnix
  = Ok (SLIResult.mk "security_problems"
          (float64_of_int (DynatraceSecurityProblemQueryResult.TotalCount found)) true "",
        "security_problems", "SECPV2;securityProblemSelector=" ++ securityProblemSelector,
        sloDefinitionFrom env "security_problems"
          "sli=security_problems;pass=<=0;key=true").
Proof.
  intros Hselector Hexec. unfold ProcessOpenSecurityProblemTile.
  rewrite Hselector, Hexec. reflexivity.
Qed.

(** C4: for a tile whose type is OPEN_PROBLEMS, the tile loop runs the
    open-problems branch and then the open-security-problems branch: when both
    backend calls succeed, the tile appends an SLI result, an indicator entry
    and an SLO objective named "problems" and then an SLI result, an indicator
    entry and an SLO objective named "security_problems", and nothing else. *)
Theorem open_problems_tile_runs_both_branches (env : Env) (ph : Handler.t)
    (dashboardJSON : DynatraceDashboard.t) (dashboardManagementZoneFilter : string)
    (startUnix endUnix : Time) (st : Synth) (tile : Tile.t)
    (found : DynatraceProblemQueryResult.t)
    (foundSecurity : DynatraceSecurityProblemQueryResult.t) :
  Tile.TileType tile = "OPEN_PROBLEMS" ->
  ExecuteGetDynatraceProblems env ph
    ("problemSelector=" ++ problemSelectorOf "status(open)" dashboardJSON tile)
    startUnix endUnix = Ok found ->
  ExecuteGetDynatraceSecurityProblems env ph
    ("securityProblemSelector=" ++ problemSelectorOf "status(OPEN)" dashboardJSON tile)
    startUnix endUnix = Ok foundSecurity ->
  exists st' problemsSLO securitySLO,
    processTile env ph dashboardJSON dashboardManagementZoneFilter startUnix endUnix st tile
      = Ok st'
    /\ SLO.SLI problemsSLO = "problems"
    /\ SLO.SLI securitySLO = "security_problems"
    /\ sliResults st'
       = (sliResults st
            ++ [SLIResult.mk "problems"
                  (float64_of_int (DynatraceProblemQueryResult.TotalCount found)) true "";
                SLIResult.mk "security_problems"
                  (float64_of_int
                     (DynatraceSecurityProblemQueryResult.TotalCount foundSecurity))
                  true ""])%list
    /\ SLI.Indicators (dashboardSLI st')
       = <["security_problems" :=
             "SECPV2;securityProblemSelector="
               ++ problemSelectorOf "status(OPEN)" dashboardJSON tile]>
           (<["problems" :=
                "PV2;problemSelector="
                  ++ problemSelectorOf "status(open)" dashboardJSON tile]>
              (SLI.Indicators (dashboardSLI st)))
    /\ ServiceLevelObjectives.Objectives (dashboardSLO st')
       = (ServiceLevelObjectives.Objectives (dashboardSLO st)
            ++ [problemsSLO; securitySLO])%list.
Proof.
  intros Htype Hproblems Hsecurity.
  exists (emit
            (emit st
               (SLIResult.mk "problems"
                  (float64_of_int (DynatraceProblemQueryResult.TotalCount found)) true "")
               "problems"
               ("PV2;problemSelector=" ++ problemSelectorOf "status(open)" dashboardJSON tile)
               (sloDefinitionFrom env "problems" "sli=problems;pass=<=0;key=true"))
            (SLIResult.mk "security_problems"
               (float64_of_int (DynatraceSecurityProblemQueryResult.TotalCount foundSecurity))
               true "")
            "security_problems"
            ("SECPV2;securityProblemSelector="
               ++ problemSelectorOf "status(OPEN)" dashboardJSON tile)
            (sloDefinitionFrom env "security_problems"
               "sli=security_problems;pass=<=0;key=true")),
         (sloDefinitionFrom env "problems" "sli=problems;pass=<=0;key=true"),
         (sloDefinitionFrom env "security_problems"
            "sli=security_problems;pass=<=0;key=true").
  split.
  - unfold processTile. rewrite Htype.
    cbn [Strings.Equal String.eqb Ascii.eqb Bool.eqb orb].
    rewrite (ProcessOpenProblemTile_ok env ph _ startUnix endUnix found)
      by (first [apply problemSelectorOf_nonempty; discriminate | exact Hproblems]).
    rewrite (ProcessOpenSecurityProblemTile_ok env ph _ startUnix endUnix foundSecurity)
      by (first [apply problemSelectorOf_nonempty; discriminate | exact Hsecurity]).
    cbn [addTileResult mbind res_bind].
    destruct (Strings.Equal (ts_baseIndicatorName (parseTileSLO env (tileTitleOf tile))) "");
      reflexivity.
  - split; [apply sloDefinitionFrom_SLI|]. split; [apply sloDefinitionFrom_SLI|].
    cbn. rewrite <- !app_assoc. repeat split; reflexivity.
Qed.

Lemma open_problems_tile_runs_both_branches_witness :
  exists st',
    processTile (Example.env (Scenario.passBackend None)) Example.handler
      Scenario.teststepDashboard "" 10 20 initialSynth Scenario.openProblemsTile = Ok st'
    /\ sliResults st'
       = [SLIResult.mk "problems" 3 true ""; SLIResult.mk "security_problems" 1 true ""]
    /\ SLI.Indicators (dashboardSLI st') !! "problems"
       = Some "PV2;problemSelector=status(open)"
    /\ SLI.Indicators (dashboardSLI st') !! "security_problems"
       = Some "SECPV2;securityProblemSelector=status(OPEN)"
    /\ map SLO.SLI (ServiceLevelObjectives.Objectives (dashboardSLO st'))
       = ["problems"; "security_problems"].
Proof.
  destruct (open_problems_tile_runs_both_branches
              (Example.env (Scenario.passBackend None)) Example.handler
              Scenario.teststepDashboard "" 10 20 initialSynth Scenario.openProblemsTile
              (DynatraceProblemQueryResult.mk 3 50)
              (DynatraceSecurityProblemQueryResult.mk 1 50 ""))
    as (st' & problemsSLO & securitySLO & Htile & Hp & Hs & Hres & Hind & Hobj).
  - reflexivity.
  - vm_compute. reflexivity.
  - vm_compute. reflexivity.
  - exists st'. split; [exact Htile|].
    rewrite Hres, Hind, Hobj. cbn [map app initialSynth initialSLO
      ServiceLevelObjectives.Objectives dashboardSLO sliResults]. rewrite Hp, Hs.
    repeat split; reflexivity.
Defined.

(** ** C5: more than one data row *)




Example GetSLIValue_ambiguous_message :
  GetSLIValue (Example.env (Scenario.teststepBackend (Some (Scenario.answerOf Scenario.twoRows))))
    Scenario.configuredHandler "teststep" 10 20
  = Err ("Dynatrace Metrics API returned 2 result values, expected 1 for query: https://tenant.example.com/api/v2/metrics/query/?from=10000&metricSelector=calc%3Aservice.teststep%3Aavg%3Anames&resolution=Inf&to=20000."
         ++ String (ascii_of_nat 10)
              "Please ensure the response contains exactly one value (e.g., by using :merge(0):avg for the metric). Here is the output for troubleshooting: calc:service.teststep:avg:names").
Proof. vm_compute. reflexivity. Qed.


(** ** C1: replaying a stored [MV2] query *)

Lemma append_cons (c : ascii) (a b : string) : String c a ++ b = String c (a ++ b).
Proof. reflexivity. Qed.

Lemma append_nil (b : string) : "" ++ b = b.
Proof. reflexivity. Qed.

Lemma prefix_drop (p s : string) :
  String.prefix p s = true -> p ++ Strings.drop (String.length p) s = s.
Proof.
  revert s. induction p as [|c p IH]; intros s H; [reflexivity|].
  destruct s as [|c' s]; simpl in H; [discriminate|].
  destruct (ascii_dec c c') as [->|]; [|discriminate].
  cbn [String.length Strings.drop]. rewrite append_cons. f_equal. now apply IH.
Qed.

Lemma replace_go_exhausted (old new : string) (skip : nat) (s : string) :
  Strings.replace_go old new skip (Some O) s = Strings.drop skip s.
Proof.
  revert skip. induction s as [|c s IH]; intros [|k]; simpl; try reflexivity.
  apply IH.
Qed.

(** Replacing the first occurrence of a text by itself changes nothing. *)
Lemma Replace_same (s old : string) : Strings.Replace s old old 1 = s.
Proof.
  unfold Strings.Replace.
  change (if 1 <? 0 then None else Some (Z.to_nat 1)) with (Some 1%nat).
  destruct old as [|c old].
  - destruct s as [|c' s]; [reflexivity|].
    cbn [Strings.replace_empty option_map Nat.pred]. rewrite append_nil.
    destruct s; reflexivity.
  - induction s as [|c' s IH]; [reflexivity|].
    cbn [Strings.replace_go].
    destruct (String.prefix (String c old) (String c' s)) eqn:E.
    + cbn [option_map Nat.pred]. rewrite replace_go_exhausted.
      cbn [String.length Nat.sub]. rewrite Nat.sub_0_r.
      apply prefix_drop in E. cbn [String.length Strings.drop] in E. exact E.
    + now rewrite IH.
Qed.

Lemma prefix_nil (s : string) : String.prefix "" s = true.
Proof. destruct s; reflexivity. Qed.

Lemma prefix_byte (c c' : ascii) (s : string) :
  String.prefix (String c "") (String c' s) = if ascii_dec c c' then true else false.
Proof. simpl. now rewrite prefix_nil. Qed.

Lemma index_of_byte_app (unit rest : string) (c : ascii) :
  Strings.Contains unit (String c "") = false ->
  Strings.index_of (unit ++ String c rest) (String c "") = Some (String.length unit).
Proof.
  unfold Strings.Contains.
  induction unit as [|c' unit IH].
  - intros _. rewrite append_nil. cbn [Strings.index_of String.length].
    rewrite prefix_byte. destruct (ascii_dec c c); [reflexivity | contradiction].
  - rewrite append_cons. cbn [Strings.index_of String.length].
    rewrite !prefix_byte.
    destruct (ascii_dec c c') as [->|Hne]; [discriminate|].
    destruct (Strings.index_of unit (String c "")) eqn:E; [discriminate|].
    intros _. now rewrite IH.
Qed.

Lemma take_app (a b : string) : Strings.take (String.length a) (a ++ b) = a.
Proof. induction a as [|c a IH]; simpl; [destruct b; reflexivity | now rewrite IH]. Qed.

Lemma drop_app (a b : string) : Strings.drop (String.length a) (a ++ b) = b.
Proof. induction a as [|c a IH]; simpl; [reflexivity | exact IH]. Qed.

Lemma length_append (a b : string) :
  String.length (a ++ b) = (String.length a + String.length b)%nat.
Proof. induction a as [|c a IH]; simpl; [reflexivity | now rewrite IH]. Qed.

Lemma append_assoc (a b c : string) : (a ++ b) ++ c = a ++ (b ++ c).
Proof. induction a as [|x a IH]; [reflexivity | now rewrite !append_cons, IH]. Qed.

Lemma HasPrefix_app (p s : string) : Strings.HasPrefix (p ++ s) p = true.
Proof.
  unfold Strings.HasPrefix. induction p as [|c p IH].
  - apply prefix_nil.
  - rewrite append_cons. simpl. destruct (ascii_dec c c); [exact IH | contradiction].
Qed.

Lemma slice_from_app (p s : string) :
  Strings.slice_from (p ++ s) (Z.of_nat (String.length p)) = Ok s.
Proof.
  unfold Strings.slice_from. rewrite length_append, Nat2Z.id, drop_app.
  replace (Z.of_nat (String.length p) <? 0) with false by (symmetry; apply Z.ltb_ge; lia).
  replace (Z.of_nat (String.length p + String.length s) <? Z.of_nat (String.length p))
    with false by (symmetry; apply Z.ltb_ge; lia).
  reflexivity.
Qed.

Lemma slice_to_app (p s : string) :
  Strings.slice_to (p ++ s) (Z.of_nat (String.length p)) = Ok p.
Proof.
  unfold Strings.slice_to. rewrite length_append, Nat2Z.id, take_app.
  replace (Z.of_nat (String.length p) <? 0) with false by (symmetry; apply Z.ltb_ge; lia).
  replace (Z.of_nat (String.length p + String.length s) <? Z.of_nat (String.length p))
    with false by (symmetry; apply Z.ltb_ge; lia).
  reflexivity.
Qed.

(** Parsing back what the synthesizer stores. *)
Lemma splitMV2_stored (metricUnit metricQuery : string) :
  Strings.Contains metricUnit ";" = false ->
  splitMV2 ("MV2;" ++ metricUnit ++ ";" ++ metricQuery) = Ok (metricUnit, metricQuery).
Proof.
  intros Hunit. unfold splitMV2.
  rewrite HasPrefix_app.
  change 4 with (Z.of_nat (String.length "MV2;")).
  rewrite slice_from_app. cbn [mbind res_bind].
  unfold Strings.Index.
  change (metricUnit ++ ";" ++ metricQuery)
    with (metricUnit ++ String ";"%char metricQuery).
  rewrite (index_of_byte_app metricUnit metricQuery ";"%char Hunit).
  rewrite slice_to_app. cbn [mbind res_bind].
  change (metricUnit ++ String ";"%char metricQuery)
    with (metricUnit ++ (";" ++ metricQuery)).
  rewrite <- append_assoc.
  replace (Z.of_nat (String.length metricUnit) + 1)
    with (Z.of_nat (String.length (metricUnit ++ ";")))
    by (rewrite length_append; simpl; lia).
  rewrite slice_from_app. reflexivity.
Qed.

Lemma stored_MV2_prefixes (payload : string) :
  Strings.HasPrefix ("MV2;" ++ payload) "USQL;" = false
  /\ Strings.HasPrefix ("MV2;" ++ payload) "SLO;" = false
  /\ Strings.HasPrefix ("MV2;" ++ payload) "PV2;" = false
  /\ Strings.HasPrefix ("MV2;" ++ payload) "SECPV2;" = false.
Proof. repeat split; reflexivity. Qed.

Lemma firstMatchingValue_single (env : Env) (metricsQuery metricID : string)
    (before after : list MetricQueryResultValues.t) (i : MetricQueryResultValues.t)
    (row : MetricQueryResultNumbers.t) (value : float) (more : list float) :
  Forall (fun r => isMatchingMetricID (MetricQueryResultValues.MetricID r) metricID = false)
         before ->
  isMatchingMetricID (MetricQueryResultValues.MetricID i) metricID = true ->
  MetricQueryResultValues.Data i = [row] ->
  MetricQueryResultNumbers.Values row = value :: more ->
  firstMatchingValue env metricsQuery metricID (before ++ i :: after)%list
  = Ok (true, value).
Proof.
  intros Hbefore Hmatch Hdata Hvalues.
  induction Hbefore as [|r rest Hr _ IH]; simpl.
  - now rewrite Hmatch, Hdata, Hvalues.
  - now rewrite Hr.
Qed.

(** The custom queries of the handler do not enter the query builder or the
    execution of a query. *)
Lemma BuildDynatraceMetricsQuery_withQueries (env : Env) (ph : Handler.t)
    (queries : gmap string string) (metricquery : string) (startUnix endUnix : Time) :
  BuildDynatraceMetricsQuery env (withQueries ph queries) metricquery startUnix endUnix
  = BuildDynatraceMetricsQuery env ph metricquery startUnix endUnix.
Proof. reflexivity. Qed.

Lemma ExecuteMetricsAPIQuery_withQueries (env : Env) (ph : Handler.t)
    (queries : gmap string string) (metricsQuery : string) :
  ExecuteMetricsAPIQuery env (withQueries ph queries) metricsQuery
  = ExecuteMetricsAPIQuery env ph metricsQuery.
Proof. reflexivity. Qed.

(** What the synthesizer leaves behind for a result with a single row whose
    metric ID is the only one that matches. *)
Lemma GenerateSLISLOFromMetricsAPIQuery_single_row (env : Env) (ph : Handler.t)
    (noOfDimensionsInChart : nat) (ts : TileSLO) (mq : MetricQuery)
    (sli : SLI.t) (slo : ServiceLevelObjectives.t)
    (queryResult : DynatraceMetricsQueryResult.t)
    (before after : list MetricQueryResultValues.t) (r : MetricQueryResultValues.t)
    (row : MetricQueryResultNumbers.t) :
  ExecuteMetricsAPIQuery env ph (mq_fullMetricQuery mq) = Ok queryResult ->
  DynatraceMetricsQueryResult.Result queryResult = (before ++ r :: after)%list ->
  Forall (fun r' => isMatchingMetricID (MetricQueryResultValues.MetricID r')
                      (mq_metricID mq) = false) (before ++ after)%list ->
  isMatchingMetricID (MetricQueryResultValues.MetricID r) (mq_metricID mq) = true ->
  MetricQueryResultValues.Data r = [row] ->
  let name := CleanIndicatorName env (ts_baseIndicatorName ts) in
  GenerateSLISLOFromMetricsAPIQuery env ph noOfDimensionsInChart ts mq sli slo
  = Ok (emit (mkSynth [] sli slo)
          (SLIResult.mk name (rowValue mq row) true "") name
          ("MV2;" ++ mq_metricUnit mq ++ ";" ++ mq_metricQuery mq)
          (sloDefinitionOf ts name)).
Proof.
  intros Hexec Hresult Hothers Hmatch Hdata name.
  rewrite (GenerateSLISLOFromMetricsAPIQuery_executed env ph noOfDimensionsInChart ts mq
             sli slo queryResult Hexec), Hresult.
  apply Forall_app in Hothers. destruct Hothers as [Hbefore Hafter].
  assert (Hskip : forall l st,
             Forall (fun r' => isMatchingMetricID (MetricQueryResultValues.MetricID r')
                                 (mq_metricID mq) = false) l ->
             fold_left (resultEmit env noOfDimensionsInChart ts mq) l st = st).
  { intros l st Hl. revert st. induction Hl as [|x l Hx _ IH]; intros st; simpl.
    - reflexivity.
    - unfold resultEmit at 2. rewrite Hx. apply IH. }
  rewrite fold_left_app. cbn [fold_left]. rewrite (Hskip before) by assumption.
  rewrite (Hskip after) by assumption.
  unfold resultEmit. rewrite Hmatch, Hdata. cbn [fold_left length].
  unfold rowEmit, rowName, rowQuery.
  rewrite rowAcc_single by lia. cbn [da_indicatorName da_metricQueryForSLI
                                     da_filterSLIDefinitionAggregatorValue].
  now rewrite Replace_same.
Qed.

(** C1, as the code has it: when the result of the tile's query holds one
    result whose metric ID matches, with one data row holding one value (one
    that the mean over that single value gives back), and the unit holds no
    semicolon, then the synthesizer stores the query as
    [MV2;<unit>;<query>] under the cleaned base name, and resolving that name
    through [GetSLIValue] from the stored indicators, over the same window,
    runs the same backend call and returns the unit-scaled value the
    synthesizer reported. *)
Theorem MV2_query_round_trip (env : Env) (ph : Handler.t)
    (noOfDimensionsInChart : nat) (ts : TileSLO) (mq : MetricQuery)
    (sli : SLI.t) (slo : ServiceLevelObjectives.t) (startUnix endUnix : Time)
    (queryResult : DynatraceMetricsQueryResult.t)
    (before after : list MetricQueryResultValues.t) (r : MetricQueryResultValues.t)
    (row : MetricQueryResultNumbers.t) (value : float) :
  BuildDynatraceMetricsQuery env ph (mq_metricQuery mq) startUnix endUnix
    = Ok (mq_fullMetricQuery mq, mq_metricID mq) ->
  Strings.Contains (mq_metricUnit mq) ";" = false ->
  ExecuteMetricsAPIQuery env ph (mq_fullMetricQuery mq) = Ok queryResult ->
  DynatraceMetricsQueryResult.Result queryResult = (before ++ r :: after)%list ->
  Forall (fun r' => isMatchingMetricID (MetricQueryResultValues.MetricID r')
                      (mq_metricID mq) = false) (before ++ after)%list ->
  isMatchingMetricID (MetricQueryResultValues.MetricID r) (mq_metricID mq) = true ->
  MetricQueryResultValues.Data r = [row] ->
  MetricQueryResultNumbers.Values row = [value] ->
  meanOfValues [value] = value ->
  let name := CleanIndicatorName env (ts_baseIndicatorName ts) in
  let scaled := scaleData (mq_metricID mq) (mq_metricUnit mq) value in
  exists final,
    GenerateSLISLOFromMetricsAPIQuery env ph noOfDimensionsInChart ts mq sli slo = Ok final
    /\ sliResults final = [SLIResult.mk name scaled true ""]
    /\ SLI.Indicators (dashboardSLI final)
       = <[name := "MV2;" ++ mq_metricUnit mq ++ ";" ++ mq_metricQuery mq]>
           (SLI.Indicators sli)
    /\ GetSLIValue env (withQueries ph (SLI.Indicators (dashboardSLI final))) name
         startUnix endUnix
       = Ok scaled.
Proof.
  intros Hbuild Hunit Hexec Hresult Hothers Hmatch Hdata Hvalues Hmean name scaled.
  eexists. split.
  { exact (GenerateSLISLOFromMetricsAPIQuery_single_row env ph noOfDimensionsInChart ts mq
             sli slo queryResult before after r row Hexec Hresult Hothers Hmatch Hdata). }
  split.
  { cbn. unfold rowValue. now rewrite Hvalues, Hmean. }
  split; [reflexivity|].
  cbn [emit dashboardSLI setIndicator SLI.Indicators].
  unfold GetSLIValue, getTimeseriesConfig.
  cbn [withQueries Handler.CustomQueries]. rewrite lookup_insert_eq.
  destruct (stored_MV2_prefixes (mq_metricUnit mq ++ ";" ++ mq_metricQuery mq))
    as (-> & -> & -> & ->).
  rewrite splitMV2_stored by exact Hunit. cbn [mbind res_bind].
  change (Handler.mk _ _ _ _ _) with
    (withQueries ph (<[CleanIndicatorName env (ts_baseIndicatorName ts) :=
                        "MV2;" ++ mq_metricUnit mq ++ ";" ++ mq_metricQuery mq]>
                       (SLI.Indicators sli))).
  rewrite BuildDynatraceMetricsQuery_withQueries, Hbuild. cbn [mbind res_bind].
  rewrite ExecuteMetricsAPIQuery_withQueries, Hexec, Hresult.
  apply Forall_app in Hothers. destruct Hothers as [Hbefore _].
  rewrite (firstMatchingValue_single env _ _ before after r row value [])
    by assumption.
  reflexivity.
Qed.

Lemma MV2_query_round_trip_witness :
  exists final,
    GenerateSLISLOFromMetricsAPIQuery
      (Example.env (Scenario.teststepBackend (Some (Scenario.answerOf Scenario.oneRow))))
      Example.handler 1 Scenario.teststepSLO Scenario.teststepMetricQuery
      (SLI.mk "0.1.4" ∅) initialSLO = Ok final
    /\ sliResults final = [SLIResult.mk "teststep" 250 true ""]
    /\ SLI.Indicators (dashboardSLI final)
       = {["teststep" := "MV2;MicroSecond;metricSelector=calc:service.teststep:avg:names"]}
    /\ GetSLIValue
         (Example.env (Scenario.teststepBackend (Some (Scenario.answerOf Scenario.oneRow))))
         (withQueries Example.handler (SLI.Indicators (dashboardSLI final))) "teststep" 10 20
       = Ok 250%float.
Proof.
  refine (MV2_query_round_trip
            (Example.env (Scenario.teststepBackend (Some (Scenario.answerOf Scenario.oneRow))))
            Example.handler 1 Scenario.teststepSLO Scenario.teststepMetricQuery
            (SLI.mk "0.1.4" ∅) initialSLO 10 20
            (Scenario.answerOf Scenario.oneRow) [] []
            (MetricQueryResultValues.mk "calc:service.teststep:avg:names" Scenario.oneRow)
            (Scenario.row ["login"; "SERVICE-1"] [250000%float]) 250000%float
            _ _ _ _ _ _ _ _ _);
    try (vm_compute; reflexivity); constructor.
Defined.

(** C1 as stated fails for a data row with more than one value: the
    synthesizer reports the mean of the values, [GetSLIValue] the first of
    them. *)
Lemma MV2_query_two_values_counterexample :
  GenerateSLISLOFromMetricsAPIQuery
    (Example.env (Scenario.teststepBackend
                    (Some (Scenario.answerOf Scenario.oneRowTwoValues))))
    Example.handler 1 Scenario.teststepSLO Scenario.teststepMetricQuery
    (SLI.mk "0.1.4" ∅) initialSLO
  = Ok (mkSynth [SLIResult.mk "teststep" 500 true ""]
          (SLI.mk "0.1.4"
             {["teststep" :=
                 "MV2;MicroSecond;metricSelector=calc:service.teststep:avg:names"]})
          (ServiceLevelObjectives.mk
             [SLO.mk "teststep" [SLOCriteria.mk ["<=500"]] [] 2 true]
             (SLOScore.mk "90%" "75%")
             (SLOComparison.mk "single_result" "pass" 1 "avg")))
  /\ GetSLIValue
       (Example.env (Scenario.teststepBackend
                       (Some (Scenario.answerOf Scenario.oneRowTwoValues))))
       (withQueries Example.handler
          {["teststep" :=
              "MV2;MicroSecond;metricSelector=calc:service.teststep:avg:names"]})
       "teststep" 10 20
     = Ok 250%float
  /\ 250%float <> 500%float.
Proof.
  split; [vm_compute; reflexivity|]. split; [vm_compute; reflexivity|]. floats_differ.
Qed.

(** With several rows the query stored for a row is the tile's query narrowed
    to that row, which is another backend call than the one of the tile. *)
Example stored_query_of_a_dimensioned_row :
  match GenerateSLISLOFromMetricsAPIQuery
          (Example.env (Scenario.teststepBackend
                          (Some (Scenario.answerOf Scenario.twoRows))))
          Example.handler 1 Scenario.teststepSLO Scenario.teststepMetricQuery
          (SLI.mk "0.1.4" ∅) initialSLO with
  | Ok final => SLI.Indicators (dashboardSLI final) !! "teststep_login"
  | _ => None
  end
  = Some "MV2;MicroSecond;metricSelector=calc:service.teststep:avg:names:filter(eq(dt.entity.service,login))".
Proof. vm_compute. reflexivity. Qed.

(** Negative zero is the value the mean over a single value does not give
    back: it gives positive zero. *)
Example mean_of_negative_zero : meanOfValues [(-0)%float] = 0%float.
Proof. reflexivity. Qed.

(** ** The filters the handler keeps *)

Lemma Replace_all_absent (s old new : string) :
  Strings.Contains s old = false -> old <> "" -> Strings.Replace s old new (-1) = s.
Proof.
  intros Habsent Hold. unfold Strings.Replace, Strings.Contains in *.
  change (if -1 <? 0 then None else Some (Z.to_nat (-1))) with (@None nat).
  destruct old as [|c old]; [contradiction|].
  induction s as [|c' s IH]; [reflexivity|].
  cbn [Strings.replace_go Strings.index_of] in *.
  destruct (String.prefix (String c old) (String c' s)); [discriminate|].
  destruct (Strings.index_of s (String c old)); [discriminate|].
  now rewrite IH.
Qed.

Lemma Replace_byte_all (s : string) (c : ascii) :
  Strings.Replace s (String c "") "" (-1) = removeByte c s.
Proof.
  unfold Strings.Replace.
  change (if -1 <? 0 then None else Some (Z.to_nat (-1))) with (@None nat).
  induction s as [|c' s IH]; [reflexivity|].
  cbn [Strings.replace_go removeByte option_map String.length Nat.sub].
  rewrite prefix_byte, append_nil, IH.
  destruct (ascii_dec c c') as [->|Hne].
  - now rewrite Ascii.eqb_refl.
  - destruct (Ascii.eqb c' c) eqn:E; [|reflexivity].
    apply Ascii.eqb_eq in E. congruence.
Qed.

Lemma removeByte_idempotent (c : ascii) (s : string) :
  removeByte c (removeByte c s) = removeByte c s.
Proof.
  induction s as [|c' s IH]; [reflexivity|]. simpl.
  destruct (Ascii.eqb c' c) eqn:E; [exact IH|]. simpl. now rewrite E, IH.
Qed.

Lemma removeByte_comm (c d : ascii) (s : string) :
  removeByte c (removeByte d s) = removeByte d (removeByte c s).
Proof.
  induction s as [|c' s IH]; [reflexivity|]. simpl.
  destruct (Ascii.eqb c' d) eqn:Ed, (Ascii.eqb c' c) eqn:Ec; simpl;
    rewrite ?Ed, ?Ec, IH; reflexivity.
Qed.

(** Removing the quotes from a value that has none left changes nothing. *)
Lemma sanitizeFilter_idempotent (f : SLIFilter.t) :
  sanitizeFilter (sanitizeFilter f) = sanitizeFilter f.
Proof.
  unfold sanitizeFilter, dquote. cbn [SLIFilter.Key SLIFilter.Value].
  change "'" with (String "'"%char "").
  rewrite !Replace_byte_all. f_equal.
  now rewrite (removeByte_comm "'"%char), !removeByte_idempotent.
Qed.

Lemma applyCustomFilters_filters (env : Env) (filters : list SLIFilter.t) (query : string) :
  snd (applyCustomFilters env filters query) = map sanitizeFilter filters.
Proof.
  revert query. induction filters as [|f rest IH]; intros query; [reflexivity|].
  cbn [applyCustomFilters map].
  match goal with |- context [applyCustomFilters env rest ?q] =>
    specialize (IH q); destruct (applyCustomFilters env rest q) as [query' rest'] end.
  cbn in *. now rewrite IH.
Qed.

(** The filters [replaceQueryParameters] leaves in the handler substitute as
    the ones it found: a later call on the same handler builds the same
    query. *)
Lemma applyCustomFilters_again (env : Env) (filters : list SLIFilter.t) (before query : string) :
  fst (applyCustomFilters env (snd (applyCustomFilters env filters before)) query)
  = fst (applyCustomFilters env filters query).
Proof.
  rewrite applyCustomFilters_filters. clear before.
  revert query. induction filters as [|f rest IH]; intros query; [reflexivity|].
  cbn [applyCustomFilters map]. rewrite sanitizeFilter_idempotent.
  match goal with |- context [applyCustomFilters env (map sanitizeFilter rest) ?q] =>
    specialize (IH q);
    destruct (applyCustomFilters env (map sanitizeFilter rest) q) as [q1 r1],
             (applyCustomFilters env rest q) as [q2 r2] end.
  exact IH.
Qed.

(** ** The pattern of the specification inside the one of the code *)

Lemma run_Cat_tail (r1 r2 r2' : Regexp.regex) :
  (forall s t, Regexp.run r2 s = Some t -> Regexp.run r2' s = Some t) ->
  forall s t, Regexp.run (Regexp.Cat r1 r2) s = Some t ->
              Regexp.run (Regexp.Cat r1 r2') s = Some t.
Proof.
  intros H s t. cbn [Regexp.run]. destruct (Regexp.run r1 s); [apply H | discriminate].
Qed.

Lemma run_Cat_head (r1 r1' r2 : Regexp.regex) :
  (forall s t, Regexp.run r1 s = Some t -> Regexp.run r1' s = Some t) ->
  forall s t, Regexp.run (Regexp.Cat r1 r2) s = Some t ->
              Regexp.run (Regexp.Cat r1' r2) s = Some t.
Proof.
  intros H s t. cbn [Regexp.run].
  destruct (Regexp.run r1 s) as [u|] eqn:E; [|discriminate].
  now rewrite (H s u E).
Qed.

(** Every string the 8-4-4-4-12 pattern of the specification matches is
    accepted by [IsValidUUID]; the code is wrong only in accepting more. *)
Lemma IsValidUUID_accepts_spec_pattern (uuid : string) :
  Regexp.MatchAnchored uuidPatternOfSpec uuid = true -> IsValidUUID uuid = true.
Proof.
  unfold IsValidUUID, Regexp.MatchAnchored.
  destruct (Regexp.run uuidPatternOfSpec uuid) as [t|] eqn:E; [|discriminate].
  enough (H : Regexp.run uuid_regex uuid = Some t) by now rewrite H.
  revert uuid t E. unfold uuidPatternOfSpec, uuid_regex.
  do 7 apply run_Cat_tail. apply run_Cat_head.
  intros s t. cbn [Regexp.run].
  destruct s as [|c s]; [discriminate|].
  unfold variant_class. cbn [Regexp.run]. unfold Regexp.in_class. cbn [existsb orb].
  destruct (Ascii.eqb c "8"), (Ascii.eqb c "9"), (Ascii.eqb c "a"), (Ascii.eqb c "b"),
    (Ascii.eqb c "A"), (Ascii.eqb c "B"), (Ascii.eqb c "|");
    cbn; intros H; first [exact H | discriminate H].
Qed.

(** ** The queries the tiles generate *)

(** The full query and the metric ID of a generated query come from the
    query builder, applied to the metric query of the tile: the premise of
    the round trip above. *)
Ltac split_on_build H :=
  match type of H with
  | context [BuildDynatraceMetricsQuery ?e ?p ?q ?a ?b] =>
      destruct (BuildDynatraceMetricsQuery e p q a b) as [[? ?]| |] eqn:?;
      try discriminate H
  end.

Lemma GenerateMetricQueryFromDataExplorer_built (env : Env) (ph : Handler.t)
    (dataQuery : DataExplorerQuery.t) (tileManagementZoneFilter : string)
    (startUnix endUnix : Time) (mq : MetricQuery) :
  GenerateMetricQueryFromDataExplorer env ph dataQuery tileManagementZoneFilter
    startUnix endUnix = Ok mq ->
  BuildDynatraceMetricsQuery env ph (mq_metricQuery mq) startUnix endUnix
  = Ok (mq_fullMetricQuery mq, mq_metricID mq).
Proof.
  unfold GenerateMetricQueryFromDataExplorer. intros H.
  destruct (ExecuteMetricAPIDescribe env ph (DataExplorerQuery.Metric dataQuery))
    as [definition| |]; try discriminate H.
  cbn [mbind res_bind] in H.
  destruct (DataExplorerQuery.FilterBy dataQuery) as [filterBy|];
    [destruct (FilterBy.NestedFilters filterBy) as [|nested others];
     [|destruct (NestedFilterDataExplorer.Criteria nested) as [|criterion [|c2 more]];
       [| destruct (Strings.HasPrefix (NestedFilterDataExplorer.Filter nested) "dt.entity.")
        |]]
    |].
  all: cbv iota beta in H.
  all: split_on_build H.
  all: injection H as <-; assumption.
Qed.

Lemma GenerateMetricQueryFromChart_built (env : Env) (ph : Handler.t)
    (series : ChartSeries.t) (tileManagementZoneFilter : string)
    (filtersPerEntityType : gmap string (gmap string (list string)))
    (startUnix endUnix : Time) (mq : MetricQuery) :
  GenerateMetricQueryFromChart env ph series tileManagementZoneFilter filtersPerEntityType
    startUnix endUnix = Ok mq ->
  BuildDynatraceMetricsQuery env ph (mq_metricQuery mq) startUnix endUnix
  = Ok (mq_fullMetricQuery mq, mq_metricID mq).
Proof.
  unfold GenerateMetricQueryFromChart. intros H.
  destruct (ExecuteMetricAPIDescribe env ph (ChartSeries.Metric series))
    as [definition| |]; try discriminate H.
  cbn [mbind res_bind] in H.
  split_on_build H. injection H as <-. assumption.
Qed.

(** A pass over the dashboard of the scenario, with one service in the
    answer to the tile's query, and the replay of the indicator it stores. *)
Example dashboard_pass :
  QueryDynatraceDashboardForSLIs
    (Example.env (Scenario.passBackend (Some (Scenario.answerOf Scenario.oneRow))))
    Example.handler Example.event Scenario.dashboardID 10 20
  = Ok (mkDashboardResult
          "https://tenant.example.com#dashboard;id=dddddddd-dddd-4ddd-8ddd-dddddddddddd;gtf=c_10000_20000"
          (Some Scenario.teststepDashboard)
          (Some (SLI.mk "0.1.4"
                   (<["security_problems" := "SECPV2;securityProblemSelector=status(OPEN)"]>
                      (<["problems" := "PV2;problemSelector=status(open)"]>
                         (<["teststep" :=
                              "MV2;MicroSecond;metricSelector=calc:service.teststep:avg:names"]>
                            ∅)))))
          (Some (ServiceLevelObjectives.mk
                   [SLO.mk "teststep" [SLOCriteria.mk ["<=500"]] [] 2 true;
                    SLO.mk "problems" [SLOCriteria.mk ["<=0"]] [] 1 true;
                    SLO.mk "security_problems" [SLOCriteria.mk ["<=0"]] [] 1 true]
                   (SLOScore.mk "90%" "75%")
                   (SLOComparison.mk "single_result" "pass" 1 "avg")))
          [SLIResult.mk "teststep" 250 true "";
           SLIResult.mk "problems" 3 true "";
           SLIResult.mk "security_problems" 1 true ""]).
Proof. vm_compute. reflexivity. Qed.

Example dashboard_pass_replay :
  map (fun name =>
         GetSLIValue
           (Example.env (Scenario.passBackend (Some (Scenario.answerOf Scenario.oneRow))))
           (withQueries Example.handler
              (<["security_problems" := "SECPV2;securityProblemSelector=status(OPEN)"]>
                 (<["problems" := "PV2;problemSelector=status(open)"]>
                    (<["teststep" :=
                         "MV2;MicroSecond;metricSelector=calc:service.teststep:avg:names"]>
                       ∅))))
           name 10 20)
      ["teststep"; "problems"; "security_problems"]
  = [Ok 250%float; Ok 3%float; Ok 1%float].
Proof. vm_compute. reflexivity. Qed.

(** * Further properties of the package *)

(** ** The REST calls *)

Lemma call_and_decode_status {A : Type} (env : Env) (ph : Handler.t)
    (what targetURL : string) (addHeaders : gmap string string)
    (decode : string -> res A) (a : A) :
  call_and_decode env ph what targetURL addHeaders decode = Ok a ->
  exists body,
    executeDynatraceREST env ph "GET" targetURL addHeaders = Ok (200, body)
    /\ decode body = Ok a.
Proof.
  unfold call_and_decode.
  destruct (executeDynatraceREST env ph "GET" targetURL addHeaders)
    as [[status body]| |] eqn:E; simpl; try discriminate.
  unfold checkApiResponse.
  destruct (status =? 200) eqn:Es.
  - apply Z.eqb_eq in Es. subst status. intros H. now exists body.
  - destruct (json_DtEnvAPIv2Error env body); discriminate.
Qed.

(** X1: a result of [ExecuteMetricsAPIQuery], [ExecuteUSQLQuery] or
    [ExecuteGetDynatraceSLO] was served with status 200 at the URL asked for
    and is what the body decodes to; moreover a metrics result holds at
    least one result entry, a USQL result at least one row, and an SLO
    result carries the error text "NONE". *)
Theorem successful_calls_have_data (env : Env) (ph : Handler.t) :
  (forall metricsQuery result,
      ExecuteMetricsAPIQuery env ph metricsQuery = Ok result ->
      DynatraceMetricsQueryResult.Result result <> []
      /\ exists body,
           executeDynatraceREST env ph "GET" metricsQuery json_header = Ok (200, body)
           /\ json_DynatraceMetricsQueryResult env body = Ok result)
  /\ (forall usql result,
        ExecuteUSQLQuery env ph usql = Ok result ->
        DTUSQLResult.Values result <> []
        /\ exists body,
             executeDynatraceREST env ph "GET" usql json_header = Ok (200, body)
             /\ json_DTUSQLResult env body = Ok result)
  /\ (forall sloID startUnix endUnix result,
        ExecuteGetDynatraceSLO env ph sloID startUnix endUnix = Ok result ->
        DynatraceSLOResult.Error result = "NONE"
        /\ exists body,
             executeDynatraceREST env ph "GET"
               (Handler.ApiURL ph ++ "/api/v2/slo/" ++ sloID
                  ++ "?from=" ++ TimestampToString env startUnix
                  ++ "&to=" ++ TimestampToString env endUnix) ∅ = Ok (200, body)
             /\ json_DynatraceSLOResult env body = Ok result).
Proof.
  repeat split.
  - unfold ExecuteMetricsAPIQuery in H.
    destruct (call_and_decode env ph "Metrics" metricsQuery json_header
                (json_DynatraceMetricsQueryResult env)) as [r| |]; try discriminate.
    simpl in H. destruct (DynatraceMetricsQueryResult.Result r) eqn:E; [discriminate|].
    injection H as <-. now rewrite E.
  - unfold ExecuteMetricsAPIQuery in H.
    destruct (call_and_decode env ph "Metrics" metricsQuery json_header
                (json_DynatraceMetricsQueryResult env)) as [r| |] eqn:Ec; try discriminate.
    simpl in H. destruct (DynatraceMetricsQueryResult.Result r); [discriminate|].
    injection H as <-. now apply call_and_decode_status in Ec.
  - unfold ExecuteUSQLQuery in H.
    destruct (call_and_decode env ph "USQL" usql json_header (json_DTUSQLResult env))
      as [r| |]; try discriminate.
    simpl in H. destruct (DTUSQLResult.Values r) eqn:E; [discriminate|].
    injection H as <-. now rewrite E.
  - unfold ExecuteUSQLQuery in H.
    destruct (call_and_decode env ph "USQL" usql json_header (json_DTUSQLResult env))
      as [r| |] eqn:Ec; try discriminate.
    simpl in H. destruct (DTUSQLResult.Values r); [discriminate|].
    injection H as <-. now apply call_and_decode_status in Ec.
  - unfold ExecuteGetDynatraceSLO in H.
    match type of H with
    | context [call_and_decode ?e ?p ?w ?u ?h ?d] =>
        destruct (call_and_decode e p w u h d) as [r| |]; try discriminate
    end.
    simpl in H. destruct (Strings.Equal (DynatraceSLOResult.Error r) "NONE") eqn:E;
      [|discriminate].
    injection H as <-. now apply Equal_true.
  - unfold ExecuteGetDynatraceSLO in H.
    match type of H with
    | context [call_and_decode ?e ?p ?w ?u ?h ?d] =>
        destruct (call_and_decode e p w u h d) as [r| |] eqn:Ec; try discriminate
    end.
    simpl in H. destruct (Strings.Equal (DynatraceSLOResult.Error r) "NONE");
      [|discriminate].
    injection H as <-. now apply call_and_decode_status in Ec.
Qed.

Lemma call_and_decode_refused {A : Type} (env : Env) (ph : Handler.t)
    (what targetURL : string) (addHeaders : gmap string string)
    (decode : string -> res A) (a : A) :
  (forall method url headers status body,
      http_Do env method url headers = Ok (status, body) -> status <> 200) ->
  call_and_decode env ph what targetURL addHeaders decode <> Ok a.
Proof.
  intros Hdown Hcall. apply call_and_decode_status in Hcall as (body & Hcall & _).
  unfold executeDynatraceREST in Hcall. now apply Hdown in Hcall.
Qed.

Ltac refused_call Hdown :=
  match goal with
  | H : context [call_and_decode ?e ?p ?w ?u ?h ?d] |- _ =>
      let E := fresh "E" in
      destruct (call_and_decode e p w u h d) eqn:E;
      [ exfalso; exact (call_and_decode_refused _ _ _ _ _ _ _ Hdown E)
      | try discriminate H | try discriminate H ]
  end.

(** X2: when the backend answers no request with status 200 (whatever else
    it answers, and whether or not the transport fails), none of the
    [Execute...] functions returns a result and [GetSLIValue] returns a
    value for no metric. *)
Theorem no_value_without_status_200 (env : Env) (ph : Handler.t) :
  (forall method url headers status body,
      http_Do env method url headers = Ok (status, body) -> status <> 200) ->
  (forall sloID startUnix endUnix result,
      ExecuteGetDynatraceSLO env ph sloID startUnix endUnix <> Ok result)
  /\ (forall problemQuery startUnix endUnix result,
        ExecuteGetDynatraceProblems env ph problemQuery startUnix endUnix <> Ok result)
  /\ (forall problemQuery startUnix endUnix result,
        ExecuteGetDynatraceSecurityProblems env ph problemQuery startUnix endUnix
        <> Ok result)
  /\ (forall metricID result, ExecuteMetricAPIDescribe env ph metricID <> Ok result)
  /\ (forall metricsQuery result, ExecuteMetricsAPIQuery env ph metricsQuery <> Ok result)
  /\ (forall usql result, ExecuteUSQLQuery env ph usql <> Ok result)
  /\ (forall metric startUnix endUnix value,
        GetSLIValue env ph metric startUnix endUnix <> Ok value).
Proof.
  intros Hdown.
  assert (Hslo : forall sloID startUnix endUnix result,
             ExecuteGetDynatraceSLO env ph sloID startUnix endUnix <> Ok result).
  { intros sloID s e result H. unfold ExecuteGetDynatraceSLO in H. refused_call Hdown. }
  assert (Hproblems : forall problemQuery startUnix endUnix result,
             ExecuteGetDynatraceProblems env ph problemQuery startUnix endUnix
             <> Ok result).
  { intros q s e result H. unfold ExecuteGetDynatraceProblems in H.
    exact (call_and_decode_refused _ _ _ _ _ _ _ Hdown H). }
  assert (Hsecurity : forall problemQuery startUnix endUnix result,
             ExecuteGetDynatraceSecurityProblems env ph problemQuery startUnix endUnix
             <> Ok result).
  { intros q s e result H. unfold ExecuteGetDynatraceSecurityProblems in H.
    exact (call_and_decode_refused _ _ _ _ _ _ _ Hdown H). }
  assert (Hmetrics : forall metricsQuery result,
             ExecuteMetricsAPIQuery env ph metricsQuery <> Ok result).
  { intros q result H. unfold ExecuteMetricsAPIQuery in H. refused_call Hdown. }
  assert (Husql : forall usql result, ExecuteUSQLQuery env ph usql <> Ok result).
  { intros q result H. unfold ExecuteUSQLQuery in H. refused_call Hdown. }
  repeat split; try assumption.
  - intros metricID result H. unfold ExecuteMetricAPIDescribe in H.
    exact (call_and_decode_refused _ _ _ _ _ _ _ Hdown H).
  - intros metric s e value H. unfold GetSLIValue in H.
    destruct (getTimeseriesConfig ph metric) as [stored| |]; try discriminate.
    destruct (Strings.HasPrefix stored "USQL;").
    { destruct (Strings.Split stored ";") as [|? [|? [|? [|? [|? ?]]]]]; try discriminate.
      destruct (BuildDynatraceUSQLQuery env ph s3 s e) as [usql| |]; try discriminate.
      simpl in H.
      destruct (ExecuteUSQLQuery env ph usql) eqn:E; try discriminate.
      now apply Husql in E. }
    destruct (Strings.HasPrefix stored "SLO;").
    { destruct (Strings.Split stored ";") as [|? [|? [|? ?]]]; try discriminate.
      destruct (ExecuteGetDynatraceSLO env ph s1 s e) eqn:E; try discriminate.
      now apply Hslo in E. }
    destruct (Strings.HasPrefix stored "PV2;").
    { destruct (Strings.Split stored ";") as [|? [|? [|? ?]]]; try discriminate.
      destruct (ExecuteGetDynatraceProblems env ph s1 s e) eqn:E; try discriminate.
      now apply Hproblems in E. }
    destruct (Strings.HasPrefix stored "SECPV2;").
    { destruct (Strings.Split stored ";") as [|? [|? [|? ?]]]; try discriminate.
      destruct (ExecuteGetDynatraceSecurityProblems env ph s1 s e) eqn:E;
        try discriminate.
      now apply Hsecurity in E. }
    destruct (splitMV2 stored) as [[metricUnit metricsQuery]| |]; try discriminate.
    simpl in H.
    destruct (BuildDynatraceMetricsQuery env ph metricsQuery s e) as [[url metricID]| |];
      try discriminate.
    simpl in H.
    destruct (ExecuteMetricsAPIQuery env ph url) eqn:E; try discriminate.
    now apply Hmetrics in E.
Qed.

Lemma no_value_without_status_200_witness :
  (forall value,
      GetSLIValue (Example.env (Cases.answering 503 "")) Example.handler "throughput" 10 20
      <> Ok value)
  /\ GetSLIValue (Example.env (Cases.answering 503 "")) Example.handler "throughput" 10 20
     = Err "Dynatrace Metrics API returned an error: Metrics API request https://tenant.example.com/api/v2/metrics/query/?entitySelector=type%28SERVICE%29%2Ctag%28keptn_project%3Asockshop%29%2Ctag%28keptn_stage%3Astaging%29%2Ctag%28keptn_service%3Acarts%29%2Ctag%28keptn_deployment%3Adirect%29&from=10000&metricSelector=builtin%3Aservice.requestCount.total%3Amerge%280%29%3Asum&resolution=Inf&to=20000 was not successful: Dynatrace API returned status code 503. This was the query executed: https://tenant.example.com/api/v2/metrics/query/?entitySelector=type%28SERVICE%29%2Ctag%28keptn_project%3Asockshop%29%2Ctag%28keptn_stage%3Astaging%29%2Ctag%28keptn_service%3Acarts%29%2Ctag%28keptn_deployment%3Adirect%29&from=10000&metricSelector=builtin%3Aservice.requestCount.total%3Amerge%280%29%3Asum&resolution=Inf&to=20000".
Proof.
  split.
  - intros value.
    apply (no_value_without_status_200 (Example.env (Cases.answering 503 ""))
             Example.handler).
    intros method url headers status body H. simpl in H. injection H as <- _. lia.
  - vm_compute. reflexivity.
Defined.

(** ** Loading the dashboard *)

(** X3: whenever [loadDynatraceDashboard] returns a dashboard, it returns no
    error, the ID it returns is accepted by [IsValidUUID], and the dashboard
    is what the body served with status 200 at
    [<ApiURL>/api/config/v1/dashboards/<ID>] decodes to. The ID is the
    configured one, or the one [findDynatraceDashboard] found when the
    setting is "query". *)
Theorem loadDynatraceDashboard_loaded (env : Env) (ph : Handler.t)
    (keptnEvent : BaseKeptnEvent.t) (dashboard : string)
    (dashboardJSON : DynatraceDashboard.t) (dashboardID : string) (err : option string) :
  loadDynatraceDashboard env ph keptnEvent dashboard
    = Ok (Some dashboardJSON, dashboardID, err) ->
  err = None
  /\ IsValidUUID dashboardID = true
  /\ (if Strings.Equal dashboard DynatraceConfigDashboardQUERY
      then findDynatraceDashboard env ph keptnEvent = Ok dashboardID
      else dashboardID = dashboard)
  /\ exists body,
       executeDynatraceREST env ph "GET"
         (Handler.ApiURL ph ++ "/api/config/v1/dashboards/" ++ dashboardID) ∅
         = Ok (200, body)
       /\ json_DynatraceDashboard env body = Ok dashboardJSON.
Proof.
  unfold loadDynatraceDashboard. intros H.
  assert (Hid : exists id,
             (if Strings.Equal dashboard DynatraceConfigDashboardQUERY
              then findDynatraceDashboard env ph keptnEvent = Ok id
              else id = dashboard)
             /\ (if Strings.Equal dashboard DynatraceConfigDashboardQUERY
                 then match findDynatraceDashboard env ph keptnEvent with
                      | Ok found => Ok found
                      | Err _ => Ok ""
                      | Panic => Panic
                      end
                 else Ok dashboard) = Ok id
             /\ (id = "" -> False)).
  { destruct (Strings.Equal dashboard DynatraceConfigDashboardQUERY).
    - destruct (findDynatraceDashboard env ph keptnEvent) as [found| |];
        simpl in H; try discriminate.
      exists found. repeat split. intros ->. simpl in H. discriminate.
    - exists dashboard. repeat split. intros ->. simpl in H. discriminate. }
  destruct Hid as (id & Hsetting & Hbind & Hnonempty).
  rewrite Hbind in H. simpl in H.
  destruct (Strings.Equal id "") eqn:Eempty; [discriminate|].
  destruct (IsValidUUID id) eqn:Evalid; simpl in H; [|discriminate].
  destruct (executeDynatraceREST env ph "GET"
              (Handler.ApiURL ph ++ "/api/config/v1/dashboards/" ++ id) ∅)
    as [[status body]| |] eqn:Ecall; try discriminate.
  destruct (status =? 200) eqn:Estatus; simpl in H; [|discriminate].
  apply Z.eqb_eq in Estatus. subst status.
  destruct (json_DynatraceDashboard env body) as [decoded| |] eqn:Edecode;
    try discriminate.
  injection H as <- <- <-.
  repeat split; try assumption. now exists body.
Qed.

Lemma loadDynatraceDashboard_loaded_witness :
  None = (None : option string)
  /\ IsValidUUID Scenario.dashboardID = true
  /\ Scenario.dashboardID = Scenario.dashboardID
  /\ exists body,
       executeDynatraceREST (Example.env Scenario.unchangedBackend) Example.handler "GET"
         ("https://tenant.example.com/api/config/v1/dashboards/" ++ Scenario.dashboardID) ∅
         = Ok (200, body)
       /\ json_DynatraceDashboard (Example.env Scenario.unchangedBackend) body
          = Ok Scenario.problemsDashboard.
Proof.
  apply (loadDynatraceDashboard_loaded (Example.env Scenario.unchangedBackend)
           Example.handler Example.event Scenario.dashboardID
           Scenario.problemsDashboard Scenario.dashboardID None).
  vm_compute. reflexivity.
Defined.

(** X4: a dashboard setting that is neither empty, nor "query", nor accepted
    by [IsValidUUID] is refused before any request is made: whatever the
    backend and the stored dashboard, [loadDynatraceDashboard] reports
    "Dashboard ID ... not a valid UUID" and [QueryDynatraceDashboardForSLIs]
    returns that error and nothing else. *)
Theorem invalid_dashboard_id_is_refused (env : Env) (ph : Handler.t)
    (keptnEvent : BaseKeptnEvent.t) (dashboard : string) (startUnix endUnix : Time) :
  dashboard <> "" ->
  dashboard <> DynatraceConfigDashboardQUERY ->
  IsValidUUID dashboard = false ->
  loadDynatraceDashboard env ph keptnEvent dashboard
    = Ok (None, dashboard, Some ("Dashboard ID " ++ dashboard ++ " not a valid UUID"))
  /\ QueryDynatraceDashboardForSLIs env ph keptnEvent dashboard startUnix endUnix
     = Err ("Error while processing dashboard config '" ++ dashboard
            ++ "' - Dashboard ID " ++ dashboard ++ " not a valid UUID").
Proof.
  intros Hnonempty Hquery Hinvalid.
  assert (Hload : loadDynatraceDashboard env ph keptnEvent dashboard
                  = Ok (None, dashboard,
                        Some ("Dashboard ID " ++ dashboard ++ " not a valid UUID"))).
  { unfold loadDynatraceDashboard.
    apply Equal_false in Hquery. rewrite Hquery. simpl.
    apply Equal_false in Hnonempty. rewrite Hnonempty, Hinvalid. reflexivity. }
  split; [exact Hload|].
  unfold QueryDynatraceDashboardForSLIs.
  destruct (GetKeptnResource env keptnEvent (DynatraceDashboardFilename env))
    as [existingDashboardContent err].
  assert (Hsetting : dashboardToLoad existingDashboardContent err dashboard = dashboard).
  { unfold dashboardToLoad. destruct err; [reflexivity|].
    apply Equal_false in Hnonempty. rewrite Hnonempty.
    now rewrite andb_false_r. }
  rewrite Hsetting, Hload. reflexivity.
Qed.

Lemma invalid_dashboard_id_is_refused_witness :
  loadDynatraceDashboard (Example.env Example.noBackend) Example.handler Example.event
    "my-dashboard"
    = Ok (None, "my-dashboard", Some "Dashboard ID my-dashboard not a valid UUID")
  /\ QueryDynatraceDashboardForSLIs (Example.env Example.noBackend) Example.handler
       Example.event "my-dashboard" 10 20
     = Err "Error while processing dashboard config 'my-dashboard' - Dashboard ID my-dashboard not a valid UUID".
Proof.
  apply (invalid_dashboard_id_is_refused (Example.env Example.noBackend) Example.handler
           Example.event "my-dashboard" 10 20);
    [discriminate | discriminate | reflexivity].
Defined.

(** X5: with the setting "query", a lookup of the dashboard that fails (the
    request fails, or the list does not decode) or that finds no dashboard is
    not an error: nothing is loaded, and [QueryDynatraceDashboardForSLIs]
    returns the empty result. *)
Theorem failed_dashboard_lookup_is_no_error (env : Env) (ph : Handler.t)
    (keptnEvent : BaseKeptnEvent.t) (startUnix endUnix : Time) :
  (exists e, findDynatraceDashboard env ph keptnEvent = Err e)
  \/ findDynatraceDashboard env ph keptnEvent = Ok "" ->
  loadDynatraceDashboard env ph keptnEvent DynatraceConfigDashboardQUERY
    = Ok (None, "", None)
  /\ QueryDynatraceDashboardForSLIs env ph keptnEvent DynatraceConfigDashboardQUERY
       startUnix endUnix
     = Ok (mkDashboardResult "" None None None []).
Proof.
  intros Hfind.
  assert (Hload : loadDynatraceDashboard env ph keptnEvent DynatraceConfigDashboardQUERY
                  = Ok (None, "", None)).
  { unfold loadDynatraceDashboard. rewrite Equal_refl.
    destruct Hfind as [[e ->] | ->]; reflexivity. }
  split; [exact Hload|].
  unfold QueryDynatraceDashboardForSLIs.
  destruct (GetKeptnResource env keptnEvent (DynatraceDashboardFilename env))
    as [existingDashboardContent err].
  assert (Hsetting : dashboardToLoad existingDashboardContent err
                       DynatraceConfigDashboardQUERY = DynatraceConfigDashboardQUERY).
  { unfold dashboardToLoad. destruct err; [reflexivity|].
    now rewrite andb_false_r. }
  rewrite Hsetting, Hload. reflexivity.
Qed.

Lemma failed_dashboard_lookup_is_no_error_witness :
  loadDynatraceDashboard (Example.env Example.noBackend) Example.handler Example.event
    "query" = Ok (None, "", None)
  /\ QueryDynatraceDashboardForSLIs (Example.env Example.noBackend) Example.handler
       Example.event "query" 10 20
     = Ok (mkDashboardResult "" None None None []).
Proof.
  apply (failed_dashboard_lookup_is_no_error (Example.env Example.noBackend)
           Example.handler Example.event 10 20).
  left. eexists. vm_compute. reflexivity.
Defined.

(** X6: backward compatibility. When the configuration repository holds a
    stored dashboard (read without error, not empty), the empty dashboard
    setting behaves exactly as the setting "query". *)
Theorem stored_dashboard_means_query (env : Env) (ph : Handler.t)
    (keptnEvent : BaseKeptnEvent.t) (startUnix endUnix : Time)
    (existingDashboardContent : string) :
  GetKeptnResource env keptnEvent (DynatraceDashboardFilename env)
    = (existingDashboardContent, None) ->
  existingDashboardContent <> "" ->
  QueryDynatraceDashboardForSLIs env ph keptnEvent "" startUnix endUnix
  = QueryDynatraceDashboardForSLIs env ph keptnEvent DynatraceConfigDashboardQUERY
      startUnix endUnix.
Proof.
  intros Hstored Hnonempty. unfold QueryDynatraceDashboardForSLIs.
  rewrite Hstored. unfold dashboardToLoad.
  apply Equal_false in Hnonempty. rewrite Hnonempty. reflexivity.
Qed.

Lemma stored_dashboard_means_query_witness :
  QueryDynatraceDashboardForSLIs (Example.env Scenario.unchangedBackend) Example.handler
    Example.event "" 10 20
  = QueryDynatraceDashboardForSLIs (Example.env Scenario.unchangedBackend) Example.handler
      Example.event "query" 10 20.
Proof.
  apply (stored_dashboard_means_query (Example.env Scenario.unchangedBackend)
           Example.handler Example.event 10 20
           (Example.marshal Scenario.problemsDashboard));
    [reflexivity | vm_compute; discriminate].
Defined.

(** ** The entity selector of a chart *)

Lemma append_nil_r (a : string) : a ++ "" = a.
Proof. induction a as [|c a IH]; [reflexivity | now rewrite append_cons, IH]. Qed.

Lemma fold_selectorClauses (kind opening : string) (values : list string) (acc : string) :
  opening = kind ++ "(" ->
  fold_left (fun acc value => (acc ++ ",") ++ opening ++ dquote ++ value ++ dquote ++ ")")
    values acc
  = acc ++ selectorClauses kind values.
Proof.
  intros ->. revert acc. induction values as [|value rest IH]; intros acc; simpl.
  - now rewrite append_nil_r.
  - rewrite IH. cbn [selectorClauses]. now rewrite !append_assoc.
Qed.

Lemma selectorClauses_empty (kind : string) (values : list string) :
  selectorClauses kind values = "" <-> values = [].
Proof.
  split; [|intros ->; reflexivity].
  destruct values as [|value rest]; [reflexivity|].
  cbn [selectorClauses]. rewrite append_assoc. discriminate.
Qed.

Lemma selectorClauses_comma (kind : string) (values : list string) :
  selectorClauses kind values = ""
  \/ exists rest, selectorClauses kind values = "," ++ rest.
Proof.
  destruct values as [|value rest]; [now left|]. right.
  cbn [selectorClauses]. rewrite append_assoc. eexists. reflexivity.
Qed.

(** X7: the entity selector of a chart is one [,entityId("...")] clause per
    entry of SPECIFIC_ENTITIES followed by one [,tag("...")] clause per entry
    of AUTO_TAGS of the entity type, in the order of the lists; it is empty
    exactly when there is no such entry (or no filter for the entity type),
    and otherwise starts with a comma. *)
Theorem GetEntitySelectorFromEntityFilter_clauses
    (filtersPerEntityType : gmap string (gmap string (list string)))
    (entityType : string) :
  let filters := default ∅ (filtersPerEntityType !! entityType) in
  let entities := default [] (filters !! "SPECIFIC_ENTITIES") in
  let tags := default [] (filters !! "AUTO_TAGS") in
  let selector := GetEntitySelectorFromEntityFilter filtersPerEntityType entityType in
  selector = selectorClauses "entityId" entities ++ selectorClauses "tag" tags
  /\ (selector = "" <-> entities = [] /\ tags = [])
  /\ (selector = "" \/ Strings.HasPrefix selector "," = true).
Proof.
  intros filters entities tags selector.
  assert (Hform : selector
                  = selectorClauses "entityId" entities ++ selectorClauses "tag" tags).
  { subst selector entities tags filters. unfold GetEntitySelectorFromEntityFilter.
    destruct (filtersPerEntityType !! entityType) as [filters|]; simpl;
      [|rewrite !lookup_empty; reflexivity].
    destruct (filters !! "SPECIFIC_ENTITIES") as [entities|];
      destruct (filters !! "AUTO_TAGS") as [tags|]; simpl;
      rewrite ?(fold_selectorClauses "tag" "tag(" _ _ eq_refl),
        ?(fold_selectorClauses "entityId" "entityId(" _ _ eq_refl),
        ?append_nil, ?append_nil_r; reflexivity. }
  split; [exact Hform|]. rewrite Hform. split.
  - split.
    + intros H.
      destruct entities as [|e es]; [|cbn [selectorClauses] in H;
                                       rewrite !append_assoc in H; discriminate].
      rewrite append_nil in H. now apply selectorClauses_empty in H.
    + intros [-> ->]. reflexivity.
  - destruct entities as [|e es].
    + rewrite append_nil.
      destruct (selectorClauses_comma "tag" tags) as [->|[rest ->]]; [now left|].
      right. apply (HasPrefix_app "," rest).
    + right. cbn [selectorClauses]. rewrite !append_assoc.
      match goal with |- Strings.HasPrefix ("," ++ ?r) _ = _ => apply (HasPrefix_app "," r) end.
Qed.

(** ** Results whose metric ID does not match *)

Lemma resultEmit_no_match (env : Env) (noOfDimensionsInChart : nat) (ts : TileSLO)
    (mq : MetricQuery) (results : list MetricQueryResultValues.t) (st : Synth) :
  Forall (fun r => isMatchingMetricID (MetricQueryResultValues.MetricID r)
                     (mq_metricID mq) = false) results ->
  fold_left (resultEmit env noOfDimensionsInChart ts mq) results st = st.
Proof.
  intros H. revert st. induction H as [|r results Hr _ IH]; intros st; [reflexivity|].
  simpl. unfold resultEmit at 2. rewrite Hr. apply IH.
Qed.

Lemma firstMatchingValue_no_match (env : Env) (metricsQuery metricID : string)
    (results : list MetricQueryResultValues.t) :
  Forall (fun r => isMatchingMetricID (MetricQueryResultValues.MetricID r) metricID = false)
         results ->
  firstMatchingValue env metricsQuery metricID results = Ok (false, 0%float).
Proof.
  induction 1 as [|r results Hr _ IH]; [reflexivity|].
  cbn [firstMatchingValue]. now rewrite Hr.
Qed.

(** X8: when the metrics query is answered but no result entry carries a
    metric ID that [isMatchingMetricID] accepts, the synthesizer adds
    nothing: no SLI result, no SLI definition and no objective, without any
    error; [GetSLIValue], replaying a query that builds the same call,
    fails with "Not able to query identifier ...". *)
Theorem no_matching_metric_id (env : Env) (ph : Handler.t)
    (noOfDimensionsInChart : nat) (ts : TileSLO) (mq : MetricQuery)
    (sli : SLI.t) (slo : ServiceLevelObjectives.t)
    (queryResult : DynatraceMetricsQueryResult.t)
    (metric stored metricUnit metricsQuery : string) (startUnix endUnix : Time) :
  ExecuteMetricsAPIQuery env ph (mq_fullMetricQuery mq) = Ok queryResult ->
  Forall (fun r => isMatchingMetricID (MetricQueryResultValues.MetricID r)
                     (mq_metricID mq) = false)
         (DynatraceMetricsQueryResult.Result queryResult) ->
  GenerateSLISLOFromMetricsAPIQuery env ph noOfDimensionsInChart ts mq sli slo
    = Ok (mkSynth [] sli slo)
  /\ (getTimeseriesConfig ph metric = Ok stored ->
      Strings.HasPrefix stored "USQL;" = false ->
      Strings.HasPrefix stored "SLO;" = false ->
      Strings.HasPrefix stored "PV2;" = false ->
      Strings.HasPrefix stored "SECPV2;" = false ->
      splitMV2 stored = Ok (metricUnit, metricsQuery) ->
      BuildDynatraceMetricsQuery env ph metricsQuery startUnix endUnix
        = Ok (mq_fullMetricQuery mq, mq_metricID mq) ->
      GetSLIValue env ph metric startUnix endUnix
      = Err ("Not able to query identifier " ++ metric ++ " from Dynatrace")).
Proof.
  intros Hquery Hnone. split.
  - rewrite (GenerateSLISLOFromMetricsAPIQuery_executed _ _ _ _ _ _ _ _ Hquery).
    now rewrite resultEmit_no_match.
  - intros Hstored Husql Hslo Hpv2 Hsecpv2 Hsplit Hbuild.
    unfold GetSLIValue. rewrite Hstored, Husql, Hslo, Hpv2, Hsecpv2, Hsplit. simpl.
    rewrite Hbuild. simpl. rewrite Hquery.
    rewrite (firstMatchingValue_no_match _ _ _ _ Hnone). reflexivity.
Qed.

Lemma no_matching_metric_id_witness :
  GenerateSLISLOFromMetricsAPIQuery
    (Example.env (Scenario.teststepBackend (Some Answers.otherMetric)))
    Scenario.configuredHandler 1 Scenario.teststepSLO Scenario.teststepMetricQuery
    (SLI.mk "0.1.4" ∅) initialSLO
    = Ok (mkSynth [] (SLI.mk "0.1.4" ∅) initialSLO)
  /\ GetSLIValue (Example.env (Scenario.teststepBackend (Some Answers.otherMetric)))
       Scenario.configuredHandler "teststep_mv2" 10 20
     = Err "Not able to query identifier teststep_mv2 from Dynatrace".
Proof.
  destruct (no_matching_metric_id
              (Example.env (Scenario.teststepBackend (Some Answers.otherMetric)))
              Scenario.configuredHandler 1 Scenario.teststepSLO
              Scenario.teststepMetricQuery (SLI.mk "0.1.4" ∅) initialSLO
              Answers.otherMetric "teststep_mv2"
              "MV2;MicroSecond;metricSelector=calc:service.teststep:avg:names"
              "MicroSecond" "metricSelector=calc:service.teststep:avg:names" 10 20)
    as [Hsynth Hreplay].
  - vm_compute. reflexivity.
  - repeat constructor.
  - split; [exact Hsynth|].
    apply Hreplay; vm_compute; reflexivity.
Defined.

(** ** The loops of the synthesizer *)

(** X9: the synthesizer never indexes out of range. The entity ID at
    [Dimensions[dimIx+1]] is read only in steps of two, which are taken only
    for a row whose number of dimensions is twice the number of dimensions
    of the chart, hence even; so the names of every row can be built, and
    whenever executing the query does not panic,
    [GenerateSLISLOFromMetricsAPIQuery] returns: the results of a query that
    was answered, or the one failed result of a query that was not. *)
Theorem synthesizer_never_panics (env : Env) (ph : Handler.t)
    (noOfDimensionsInChart : nat) (ts : TileSLO) (mq : MetricQuery)
    (sli : SLI.t) (slo : ServiceLevelObjectives.t) :
  ExecuteMetricsAPIQuery env ph (mq_fullMetricQuery mq) <> Panic ->
  (forall dataResultCount row,
      exists acc, rowNames noOfDimensionsInChart ts mq dataResultCount row = Ok acc)
  /\ exists final,
       GenerateSLISLOFromMetricsAPIQuery env ph noOfDimensionsInChart ts mq sli slo
       = Ok final.
Proof.
  intros Hquiet. split.
  - intros dataResultCount row. eexists. apply rowNames_total.
  - destruct (ExecuteMetricsAPIQuery env ph (mq_fullMetricQuery mq))
      as [queryResult|message|] eqn:Hquery; [| |contradiction].
    + eexists. exact (GenerateSLISLOFromMetricsAPIQuery_executed _ _ _ _ _ _ _ _ Hquery).
    + eexists. exact (GenerateSLISLOFromMetricsAPIQuery_failed _ _ _ _ _ _ _ _ Hquery).
Qed.

Lemma synthesizer_never_panics_witness :
  (forall dataResultCount row,
      exists acc,
        rowNames 1 Scenario.teststepSLO Scenario.teststepMetricQuery dataResultCount row
        = Ok acc)
  /\ exists final,
       GenerateSLISLOFromMetricsAPIQuery
         (Example.env (Scenario.teststepBackend (Some (Scenario.answerOf Scenario.threeRows))))
         Example.handler 1 Scenario.teststepSLO Scenario.teststepMetricQuery
         (SLI.mk "0.1.4" ∅) initialSLO
       = Ok final.
Proof.
  apply (synthesizer_never_panics
           (Example.env (Scenario.teststepBackend (Some (Scenario.answerOf Scenario.threeRows))))
           Example.handler 1 Scenario.teststepSLO Scenario.teststepMetricQuery
           (SLI.mk "0.1.4" ∅) initialSLO).
  vm_compute. discriminate.
Defined.

(** ** A data row without values *)

(** The mean of no values is 0/0, which no scaling changes. *)
Lemma scaleData_no_values (metricID unit : string) :
  PrimFloat.is_nan (scaleData metricID unit (meanOfValues [])) = true.
Proof.
  unfold scaleData.
  destruct (_ || _); [vm_compute; reflexivity|].
  destruct (Strings.Equal unit "Byte"); vm_compute; reflexivity.
Qed.

Lemma firstMatchingValue_no_values (env : Env) (metricsQuery metricID : string)
    (before after : list MetricQueryResultValues.t) (i : MetricQueryResultValues.t)
    (row : MetricQueryResultNumbers.t) :
  Forall (fun r => isMatchingMetricID (MetricQueryResultValues.MetricID r) metricID = false)
         before ->
  isMatchingMetricID (MetricQueryResultValues.MetricID i) metricID = true ->
  MetricQueryResultValues.Data i = [row] ->
  MetricQueryResultNumbers.Values row = [] ->
  firstMatchingValue env metricsQuery metricID (before ++ i :: after)%list = Panic.
Proof.
  intros Hbefore Hmatch Hdata Hvalues.
  induction Hbefore as [|r before Hr _ IH]; cbn [firstMatchingValue app].
  - now rewrite Hmatch, Hdata, Hvalues.
  - now rewrite Hr.
Qed.

(** X10: a data row without values. For a result with one row that holds no
    value, the synthesizer reports the mean of no values, 0/0: a result
    whose value is not a number, marked successful; replaying the stored
    query, [GetSLIValue] reads [Values[0]] of that row and panics. *)
Theorem row_without_values (env : Env) (ph : Handler.t)
    (noOfDimensionsInChart : nat) (ts : TileSLO) (mq : MetricQuery)
    (sli : SLI.t) (slo : ServiceLevelObjectives.t) (startUnix endUnix : Time)
    (queryResult : DynatraceMetricsQueryResult.t)
    (before after : list MetricQueryResultValues.t) (r : MetricQueryResultValues.t)
    (row : MetricQueryResultNumbers.t) :
  BuildDynatraceMetricsQuery env ph (mq_metricQuery mq) startUnix endUnix
    = Ok (mq_fullMetricQuery mq, mq_metricID mq) ->
  Strings.Contains (mq_metricUnit mq) ";" = false ->
  ExecuteMetricsAPIQuery env ph (mq_fullMetricQuery mq) = Ok queryResult ->
  DynatraceMetricsQueryResult.Result queryResult = (before ++ r :: after)%list ->
  Forall (fun r' => isMatchingMetricID (MetricQueryResultValues.MetricID r')
                      (mq_metricID mq) = false) (before ++ after)%list ->
  isMatchingMetricID (MetricQueryResultValues.MetricID r) (mq_metricID mq) = true ->
  MetricQueryResultValues.Data r = [row] ->
  MetricQueryResultNumbers.Values row = [] ->
  let name := CleanIndicatorName env (ts_baseIndicatorName ts) in
  exists final value,
    GenerateSLISLOFromMetricsAPIQuery env ph noOfDimensionsInChart ts mq sli slo = Ok final
    /\ sliResults final = [SLIResult.mk name value true ""]
    /\ PrimFloat.is_nan value = true
    /\ GetSLIValue env (withQueries ph (SLI.Indicators (dashboardSLI final))) name
         startUnix endUnix
       = Panic.
Proof.
  intros Hbuild Hunit Hexec Hresult Hothers Hmatch Hdata Hvalues name.
  eexists. eexists. split.
  { exact (GenerateSLISLOFromMetricsAPIQuery_single_row env ph noOfDimensionsInChart ts mq
             sli slo queryResult before after r row Hexec Hresult Hothers Hmatch Hdata). }
  split; [reflexivity|]. split.
  { unfold rowValue. rewrite Hvalues. apply scaleData_no_values. }
  cbn [emit dashboardSLI setIndicator SLI.Indicators].
  unfold GetSLIValue, getTimeseriesConfig.
  cbn [withQueries Handler.CustomQueries]. rewrite lookup_insert_eq.
  destruct (stored_MV2_prefixes (mq_metricUnit mq ++ ";" ++ mq_metricQuery mq))
    as (-> & -> & -> & ->).
  rewrite splitMV2_stored by exact Hunit. cbn [mbind res_bind].
  change (Handler.mk _ _ _ _ _) with
    (withQueries ph (<[CleanIndicatorName env (ts_baseIndicatorName ts) :=
                        "MV2;" ++ mq_metricUnit mq ++ ";" ++ mq_metricQuery mq]>
                       (SLI.Indicators sli))).
  rewrite BuildDynatraceMetricsQuery_withQueries, Hbuild. cbn [mbind res_bind].
  rewrite ExecuteMetricsAPIQuery_withQueries, Hexec, Hresult.
  apply Forall_app in Hothers. destruct Hothers as [Hbefore _].
  rewrite (firstMatchingValue_no_values env _ _ before after r row) by assumption.
  reflexivity.
Qed.

Lemma row_without_values_witness :
  exists final value,
    GenerateSLISLOFromMetricsAPIQuery
      (Example.env (Scenario.teststepBackend (Some Answers.noValues)))
      Example.handler 1 Scenario.teststepSLO Scenario.teststepMetricQuery
      (SLI.mk "0.1.4" ∅) initialSLO = Ok final
    /\ sliResults final = [SLIResult.mk "teststep" value true ""]
    /\ PrimFloat.is_nan value = true
    /\ GetSLIValue (Example.env (Scenario.teststepBackend (Some Answers.noValues)))
         (withQueries Example.handler (SLI.Indicators (dashboardSLI final))) "teststep"
         10 20
       = Panic.
Proof.
  apply (row_without_values
           (Example.env (Scenario.teststepBackend (Some Answers.noValues)))
           Example.handler 1 Scenario.teststepSLO Scenario.teststepMetricQuery
           (SLI.mk "0.1.4" ∅) initialSLO 10 20 Answers.noValues []
           [] (MetricQueryResultValues.mk "calc:service.teststep:avg:names"
                 [Scenario.row ["login"; "SERVICE-1"] []])
           (Scenario.row ["login"; "SERVICE-1"] []));
    try (vm_compute; reflexivity); repeat constructor.
Defined.

(** ** The steps of a dashboard pass *)

Lemma passes_one (env : Env) (st st' : Synth) : step env st st' -> passes env st st'.
Proof. intros H. eapply passes_step; [exact H | apply passes_done]. Qed.

Lemma passes_trans (env : Env) (st1 st2 st3 : Synth) :
  passes env st1 st2 -> passes env st2 st3 -> passes env st1 st3.
Proof.
  induction 1 as [|st st1 st2 Hstep _ IH]; [trivial|].
  intros H. eapply passes_step; [exact Hstep | now apply IH].
Qed.

Lemma step_after (env : Env) (earlier : list SLIResult.t) (st st' : Synth) :
  step env st st' -> step env (after earlier st) (after earlier st').
Proof.
  intros [st0 r query o Hsuccess Hname | st0 name message query | st0 markdown].
  - replace (after earlier (emit st0 r (SLIResult.Metric r) query o))
      with (emit (after earlier st0) r (SLIResult.Metric r) query o)
      by (unfold after, emit; cbn; now rewrite app_assoc).
    now constructor.
  - replace (after earlier (failedStep st0 name message query))
      with (failedStep (after earlier st0) name message query)
      by (unfold after, failedStep; cbn; now rewrite app_assoc).
    constructor.
  - apply (step_markdown env (after earlier st0) markdown).
Qed.

Lemma passes_after (env : Env) (earlier : list SLIResult.t) (st st' : Synth) :
  passes env st st' -> passes env (after earlier st) (after earlier st').
Proof.
  induction 1 as [|st st1 st2 Hstep _ IH]; [apply passes_done|].
  eapply passes_step; [apply step_after; exact Hstep | exact IH].
Qed.

Lemma passesTo_refl (env : Env) (st : Synth) : passesTo env st (Ok st).
Proof. intros st' [= <-]. apply passes_done. Qed.

Lemma passesTo_bind (env : Env) (st : Synth) (x : res Synth) (k : Synth -> res Synth) :
  passesTo env st x -> (forall st1, passesTo env st1 (k st1)) ->
  passesTo env st (x ≫= k).
Proof.
  intros Hx Hk st' H. destruct x as [st1| |]; try discriminate H.
  eapply passes_trans; [exact (Hx st1 eq_refl) | exact (Hk st1 st' H)].
Qed.

Lemma passesTo_foldM {A : Type} (env : Env) (f : Synth -> A -> res Synth) (l : list A) :
  (forall st a, passesTo env st (f st a)) -> forall st, passesTo env st (foldM f l st).
Proof.
  intros Hf. induction l as [|a rest IH]; intros st; simpl.
  - apply passesTo_refl.
  - apply passesTo_bind; [apply Hf | exact IH].
Qed.

Lemma ProcessSLOTile_shape (env : Env) (ph : Handler.t) (sloID : string)
    (startUnix endUnix : Time) :
  tileResultShape (ProcessSLOTile env ph sloID startUnix endUnix).
Proof.
  intros r name query o H. unfold ProcessSLOTile in H.
  destruct (ExecuteGetDynatraceSLO env ph sloID startUnix endUnix) as [sloResult| |];
    try discriminate H.
  cbn in H. injection H as <- <- _ <-. repeat split. apply sloDefinitionFrom_SLI.
Qed.

Lemma ProcessOpenProblemTile_shape (env : Env) (ph : Handler.t)
    (problemSelector entitySelector : string) (startUnix endUnix : Time) :
  tileResultShape
    (ProcessOpenProblemTile env ph problemSelector entitySelector startUnix endUnix).
Proof.
  intros r name query o H. unfold ProcessOpenProblemTile in H.
  destruct (ExecuteGetDynatraceProblems _ _ _ _ _) as [found| |]; try discriminate H.
  cbn in H. injection H as <- <- _ <-. repeat split. apply sloDefinitionFrom_SLI.
Qed.

Lemma ProcessOpenSecurityProblemTile_shape (env : Env) (ph : Handler.t)
    (securityProblemSelector : string) (startUnix endUnix : Time) :
  tileResultShape
    (ProcessOpenSecurityProblemTile env ph securityProblemSelector startUnix endUnix).
Proof.
  intros r name query o H. unfold ProcessOpenSecurityProblemTile in H.
  destruct (ExecuteGetDynatraceSecurityProblems _ _ _ _ _) as [found| |];
    try discriminate H.
  cbn in H. injection H as <- <- _ <-. repeat split. apply sloDefinitionFrom_SLI.
Qed.

Lemma passesTo_addTileResult (env : Env) (st : Synth)
    (r : res (SLIResult.t * string * string * SLO.t)) :
  tileResultShape r -> passesTo env st (addTileResult st r).
Proof.
  intros Hshape.
  destruct r as [[[[sliResult sliIndicator] sliQuery] sloDefinition]| |]; simpl.
  - destruct (Hshape _ _ _ _ eq_refl) as (<- & Hsuccess & Hname).
    intros st' [= <-]. apply passes_one. now constructor.
  - apply passesTo_refl.
  - intros st' H. discriminate H.
Qed.

Lemma passes_rowEmit (env : Env) (noOfDimensionsInChart : nat) (ts : TileSLO)
    (mq : MetricQuery) (dataResultCount : nat) (rows : list MetricQueryResultNumbers.t)
    (st : Synth) :
  passes env st
    (fold_left (rowEmit env noOfDimensionsInChart ts mq dataResultCount) rows st).
Proof.
  revert st. induction rows as [|row rows IH]; intros st; [apply passes_done|].
  simpl. eapply passes_step; [|apply IH].
  unfold rowEmit.
  apply (step_emit env st
           (SLIResult.mk (rowName env noOfDimensionsInChart ts mq dataResultCount row)
              (rowValue mq row) true "")); reflexivity.
Qed.

Lemma passes_resultEmit (env : Env) (noOfDimensionsInChart : nat) (ts : TileSLO)
    (mq : MetricQuery) (results : list MetricQueryResultValues.t) (st : Synth) :
  passes env st (fold_left (resultEmit env noOfDimensionsInChart ts mq) results st).
Proof.
  revert st. induction results as [|r results IH]; intros st; [apply passes_done|].
  simpl. eapply passes_trans; [|apply IH].
  unfold resultEmit. destruct (isMatchingMetricID _ _); [|apply passes_done].
  apply passes_rowEmit.
Qed.

Lemma passesTo_synthesize (env : Env) (ph : Handler.t) (noOfDimensionsInChart : nat)
    (ts : TileSLO) (mq : MetricQuery) (st : Synth) :
  passesTo env st (synthesize env ph noOfDimensionsInChart ts mq st).
Proof.
  intros st' H. unfold synthesize in H.
  destruct (ExecuteMetricsAPIQuery env ph (mq_fullMetricQuery mq))
    as [queryResult|message|] eqn:Hquery.
  - rewrite (GenerateSLISLOFromMetricsAPIQuery_executed _ _ _ _ _ _ _ _ Hquery) in H.
    cbn in H. injection H as <-.
    pose proof (passes_after env (sliResults st) _ _
                  (passes_resultEmit env noOfDimensionsInChart ts mq
                     (DynatraceMetricsQueryResult.Result queryResult)
                     (mkSynth [] (dashboardSLI st) (dashboardSLO st)))) as Hpass.
    unfold after in Hpass. cbn in Hpass. rewrite app_nil_r in Hpass.
    destruct st; exact Hpass.
  - rewrite (GenerateSLISLOFromMetricsAPIQuery_failed _ _ _ _ _ _ _ _ Hquery) in H.
    cbn in H. injection H as <-. apply passes_one.
    apply (step_failed env st (ts_baseIndicatorName ts) message (mq_metricQuery mq)).
  - unfold GenerateSLISLOFromMetricsAPIQuery in H. rewrite Hquery in H. discriminate H.
Qed.

Lemma passesTo_dataQueryStep (env : Env) (ph : Handler.t) (ts : TileSLO)
    (filter : string) (startUnix endUnix : Time) (st : Synth)
    (dataQuery : DataExplorerQuery.t) :
  passesTo env st (dataQueryStep env ph ts filter startUnix endUnix st dataQuery).
Proof.
  unfold dataQueryStep.
  destruct (GenerateMetricQueryFromDataExplorer _ _ _ _ _ _) as [mq| |].
  - apply passesTo_synthesize.
  - apply passesTo_refl.
  - intros st' H. discriminate H.
Qed.

Lemma passesTo_chartSeriesStep (env : Env) (ph : Handler.t) (tile : Tile.t)
    (ts : TileSLO) (filter : string) (startUnix endUnix : Time) (st : Synth)
    (series : ChartSeries.t) :
  passesTo env st (chartSeriesStep env ph tile ts filter startUnix endUnix st series).
Proof.
  unfold chartSeriesStep.
  destruct (GenerateMetricQueryFromChart _ _ _ _ _ _ _) as [mq| |].
  - apply passesTo_synthesize.
  - apply passesTo_refl.
  - intros st' H. discriminate H.
Qed.

Lemma passesTo_processUSQLRow (env : Env) (tile : Tile.t) (ts : TileSLO) (st : Synth)
    (rowValue : list json_value) :
  passesTo env st (processUSQLRow tile ts st rowValue).
Proof.
  unfold processUSQLRow.
  destruct (usqlRow (Tile.Type_ tile) rowValue) as [[[name value]|]| |]; simpl.
  - intros st' [= <-]. apply passes_one.
    match goal with
    | |- step _ _ (emit _ ?r _ _ _) => apply (step_emit env st r); reflexivity
    end.
  - apply passesTo_refl.
  - intros st' H. discriminate H.
  - intros st' H. discriminate H.
Qed.

Ltac passes_step :=
  first
    [ apply passesTo_refl
    | apply passesTo_foldM; intros;
      first [ apply passesTo_addTileResult; apply ProcessSLOTile_shape
            | apply passesTo_dataQueryStep
            | apply passesTo_chartSeriesStep | apply passesTo_processUSQLRow ]
    | apply passesTo_addTileResult;
      first [ apply ProcessOpenProblemTile_shape
            | apply ProcessOpenSecurityProblemTile_shape ]
    | apply passesTo_bind; [|intros]
    | match goal with
      | |- passesTo _ _ (if ?c then _ else _) => destruct c
      | |- passesTo _ _ (match ?x with Ok _ => _ | Err _ => _ | Panic => _ end) =>
          destruct x
      | |- passesTo _ _ (mbind _ ?x) => destruct x; simpl
      | |- passesTo _ _ Panic => let H := fresh in intros ? H; discriminate H
      | |- passesTo _ _ (Err _) => let H := fresh in intros ? H; discriminate H
      | |- passesTo ?env ?st (Ok (mkSynth _ _ (ParseMarkdownConfiguration _ ?md _))) =>
          let H := fresh in
          intros ? H; injection H as <-; apply passes_one;
          apply (step_markdown env st md)
      end ].

Lemma passesTo_processTile (env : Env) (ph : Handler.t)
    (dashboardJSON : DynatraceDashboard.t) (filter : string) (startUnix endUnix : Time)
    (st : Synth) (tile : Tile.t) :
  passesTo env st (processTile env ph dashboardJSON filter startUnix endUnix st tile).
Proof.
  unfold processTile. cbv zeta. repeat passes_step.
Qed.

Lemma passesTo_processTiles (env : Env) (ph : Handler.t)
    (dashboardJSON : DynatraceDashboard.t) (startUnix endUnix : Time)
    (tiles : list Tile.t) (st : Synth) :
  passesTo env st (processTiles env ph dashboardJSON startUnix endUnix tiles st).
Proof.
  unfold processTiles. apply passesTo_foldM. intros. apply passesTo_processTile.
Qed.

Lemma passes_allDefined (env : Env) (st st' : Synth) :
  passes env st st' -> allDefined st -> allDefined st'.
Proof.
  induction 1 as [|st st1 st2 Hstep _ IH]; [trivial|].
  intros Hdefined. apply IH. unfold allDefined in *.
  destruct Hstep as [st0 r query o _ _ | st0 name message query | st0 markdown]; cbn.
  - apply Forall_app. split.
    + eapply Forall_impl; [exact Hdefined|]. cbn. intros r' [q Hq].
      destruct (decide (SLIResult.Metric r = SLIResult.Metric r')) as [Heq|Hne].
      * rewrite <- Heq, lookup_insert_eq. eauto.
      * rewrite lookup_insert_ne by exact Hne. eauto.
    + constructor; [|constructor]. rewrite lookup_insert_eq. eauto.
  - apply Forall_app. split.
    + eapply Forall_impl; [exact Hdefined|]. cbn. intros r' [q Hq].
      destruct (decide (name = SLIResult.Metric r')) as [Heq|Hne].
      * rewrite <- Heq, lookup_insert_eq. eauto.
      * rewrite lookup_insert_ne by exact Hne. eauto.
    + constructor; [|constructor]. cbn. rewrite lookup_insert_eq. eauto.
  - exact Hdefined.
Qed.

Lemma passes_objectivesFollow (env : Env) (st st' : Synth) :
  (forall markdown slo,
      map SLO.SLI (ServiceLevelObjectives.Objectives
                     (ParseMarkdownConfiguration env markdown slo))
      = map SLO.SLI (ServiceLevelObjectives.Objectives slo)) ->
  passes env st st' -> objectivesFollow st -> objectivesFollow st'.
Proof.
  intros Hmarkdown. induction 1 as [|st st1 st2 Hstep _ IH]; [trivial|].
  intros Hfollow. apply IH. unfold objectivesFollow in *.
  destruct Hstep as [st0 r query o Hsuccess Hname | st0 name message query | st0 markdown];
    cbn.
  - rewrite List.filter_app, !map_app, Hfollow. cbn. now rewrite Hsuccess, Hname.
  - rewrite List.filter_app, map_app, Hfollow. cbn. now rewrite app_nil_r.
  - now rewrite Hmarkdown.
Qed.

(** X11: every SLI result that [QueryDynatraceDashboardForSLIs] returns,
    failed ones included, has an SLI definition under its metric name in the
    SLI document returned with it. *)
Theorem every_result_has_a_definition (env : Env) (ph : Handler.t)
    (keptnEvent : BaseKeptnEvent.t) (dashboard : string) (startUnix endUnix : Time)
    (out : DashboardResult) (r : SLIResult.t) :
  QueryDynatraceDashboardForSLIs env ph keptnEvent dashboard startUnix endUnix = Ok out ->
  In r (dr_sliResults out) ->
  exists sli query,
    dr_SLI out = Some sli
    /\ SLI.Indicators sli !! SLIResult.Metric r = Some query.
Proof.
  unfold QueryDynatraceDashboardForSLIs.
  destruct (GetKeptnResource env keptnEvent (DynatraceDashboardFilename env))
    as [existingDashboardContent err0].
  destruct (loadDynatraceDashboard env ph keptnEvent _)
    as [[[dashboardJSON dashboardID] err]| |]; cbn; try discriminate.
  destruct err; [discriminate|].
  destruct dashboardJSON as [dashboardJSON|]; [|intros [= <-] []].
  destruct (negb (HasDashboardChanged env dashboardJSON existingDashboardContent));
    [intros [= <-] []|].
  destruct (processTiles env ph dashboardJSON startUnix endUnix
              (DynatraceDashboard.Tiles dashboardJSON) initialSynth) as [st| |] eqn:Hpass;
    cbn; try discriminate.
  intros [= <-] Hin. cbn in *.
  apply passesTo_processTiles in Hpass.
  apply passes_allDefined in Hpass; [|constructor].
  unfold allDefined in Hpass. rewrite Forall_forall in Hpass.
  destruct (Hpass r) as [query Hquery].
  { now apply list_elem_of_In. }
  eauto.
Qed.

Lemma every_result_has_a_definition_witness :
  exists out,
    QueryDynatraceDashboardForSLIs (Example.env (Scenario.passBackend None)) Example.handler
      Example.event Scenario.dashboardID 10 20 = Ok out
    /\ In (SLIResult.mk "teststep" 0 false Scenario.refused) (dr_sliResults out)
    /\ exists sli query,
         dr_SLI out = Some sli
         /\ SLI.Indicators sli !! "teststep" = Some query.
Proof.
  eexists. split; [exact failed_query_pass|]. split; [now left|].
  apply (every_result_has_a_definition (Example.env (Scenario.passBackend None))
           Example.handler Example.event Scenario.dashboardID 10 20 _
           (SLIResult.mk "teststep" 0 false Scenario.refused) failed_query_pass).
  now left.
Defined.

(** X12: the objectives of the SLO document that
    [QueryDynatraceDashboardForSLIs] returns are those of the successful SLI
    results it returns, one each and in the same order; the failed result of
    a query that could not be executed has an SLI definition but no
    objective. This holds when the settings of a markdown tile leave the
    names of the objectives as they are. *)
Theorem objectives_follow_successful_results (env : Env) (ph : Handler.t)
    (keptnEvent : BaseKeptnEvent.t) (dashboard : string) (startUnix endUnix : Time)
    (out : DashboardResult) (slo : ServiceLevelObjectives.t) :
  (forall markdown slo,
      map SLO.SLI (ServiceLevelObjectives.Objectives
                     (ParseMarkdownConfiguration env markdown slo))
      = map SLO.SLI (ServiceLevelObjectives.Objectives slo)) ->
  QueryDynatraceDashboardForSLIs env ph keptnEvent dashboard startUnix endUnix = Ok out ->
  dr_SLO out = Some slo ->
  map SLO.SLI (ServiceLevelObjectives.Objectives slo)
  = map SLIResult.Metric (List.filter SLIResult.Success (dr_sliResults out)).
Proof.
  intros Hmarkdown. unfold QueryDynatraceDashboardForSLIs.
  destruct (GetKeptnResource env keptnEvent (DynatraceDashboardFilename env))
    as [existingDashboardContent err0].
  destruct (loadDynatraceDashboard env ph keptnEvent _)
    as [[[dashboardJSON dashboardID] err]| |]; cbn; try discriminate.
  destruct err; [discriminate|].
  destruct dashboardJSON as [dashboardJSON|]; [|intros [= <-]; discriminate].
  destruct (negb (HasDashboardChanged env dashboardJSON existingDashboardContent));
    [intros [= <-]; discriminate|].
  destruct (processTiles env ph dashboardJSON startUnix endUnix
              (DynatraceDashboard.Tiles dashboardJSON) initialSynth) as [st| |] eqn:Hpass;
    cbn; try discriminate.
  intros [= <-] [= <-]. cbn.
  apply passesTo_processTiles in Hpass.
  exact (passes_objectivesFollow env _ _ Hmarkdown Hpass eq_refl).
Qed.

Lemma objectives_follow_successful_results_witness :
  exists out slo,
    QueryDynatraceDashboardForSLIs (Example.env (Scenario.passBackend None)) Example.handler
      Example.event Scenario.dashboardID 10 20 = Ok out
    /\ dr_SLO out = Some slo
    /\ map SLIResult.Metric (dr_sliResults out)
       = ["teststep"; "problems"; "security_problems"]
    /\ map SLO.SLI (ServiceLevelObjectives.Objectives slo)
       = map SLIResult.Metric (List.filter SLIResult.Success (dr_sliResults out)).
Proof.
  eexists. eexists. split; [exact failed_query_pass|]. split; [reflexivity|].
  split; [reflexivity|].
  apply (objectives_follow_successful_results (Example.env (Scenario.passBackend None))
           Example.handler Example.event Scenario.dashboardID 10 20 _ _
           (fun _ _ => eq_refl) failed_query_pass eq_refl).
Defined.

(** ** Splitting at a separator *)

Lemma Contains_byte_cons (c c' : ascii) (s : string) :
  Strings.Contains (String c' s) (String c "")
  = Ascii.eqb c' c || Strings.Contains s (String c "").
Proof.
  unfold Strings.Contains. cbn [Strings.index_of]. rewrite prefix_byte.
  destruct (ascii_dec c c') as [->|Hne].
  - now rewrite Ascii.eqb_refl.
  - destruct (Ascii.eqb c' c) eqn:E.
    + apply Ascii.eqb_eq in E. congruence.
    + cbn. now destruct (Strings.index_of s (String c "")).
Qed.

Lemma Contains_byte_app (a b : string) (c : ascii) :
  Strings.Contains (a ++ b) (String c "")
  = Strings.Contains a (String c "") || Strings.Contains b (String c "").
Proof.
  induction a as [|c' a IH].
  - now rewrite append_nil.
  - rewrite append_cons, !Contains_byte_cons, IH. now rewrite orb_assoc.
Qed.

Lemma Split_no_sep (s : string) (c : ascii) :
  Strings.Contains s (String c "") = false -> Strings.Split s c = [s].
Proof.
  induction s as [|c' s IH]; [reflexivity|].
  rewrite Contains_byte_cons. intros H. apply orb_false_iff in H as [Hc Hs].
  cbn [Strings.Split]. rewrite Hc, (IH Hs). reflexivity.
Qed.

Lemma Split_app_sep (a b : string) (c : ascii) :
  Strings.Contains a (String c "") = false ->
  Strings.Split (a ++ String c b) c = a :: Strings.Split b c.
Proof.
  induction a as [|c' a IH].
  - intros _. rewrite append_nil. cbn [Strings.Split]. now rewrite Ascii.eqb_refl.
  - rewrite Contains_byte_cons. intros H. apply orb_false_iff in H as [Hc Ha].
    rewrite append_cons. cbn [Strings.Split]. rewrite Hc, (IH Ha). reflexivity.
Qed.

Lemma Split_with_sep (s : string) (c : ascii) :
  Strings.Contains s (String c "") = true ->
  exists a b rest, Strings.Split s c = a :: b :: rest.
Proof.
  induction s as [|c' s IH]; [discriminate|].
  rewrite Contains_byte_cons. cbn [Strings.Split].
  destruct (Ascii.eqb c' c).
  - intros _. destruct (Strings.Split s c) as [|b rest] eqn:E.
    + now apply Split_nonempty in E.
    + eauto.
  - cbn. intros H. destruct (IH H) as (a & b & rest & ->). eauto.
Qed.

(** ** Replaying the stored query of an SLO tile *)

Lemma ExecuteGetDynatraceSLO_withQueries (env : Env) (ph : Handler.t)
    (queries : gmap string string) (sloID : string) (startUnix endUnix : Time) :
  ExecuteGetDynatraceSLO env (withQueries ph queries) sloID startUnix endUnix
  = ExecuteGetDynatraceSLO env ph sloID startUnix endUnix.
Proof. reflexivity. Qed.

(** X13: the query [ProcessSLOTile] stores, [SLO;<id>], replays: for an SLO
    ID without a semicolon, [GetSLIValue] from the stored definition over
    the same window makes the same call and returns the value the tile
    reported. An ID with a semicolon is stored all the same, and replaying
    it fails on the format of the stored query. *)
Theorem SLO_query_round_trip (env : Env) (ph : Handler.t) (sloID : string)
    (startUnix endUnix : Time) (sliResult : SLIResult.t) (sliIndicator sliQuery : string)
    (sloDefinition : SLO.t) (queries : gmap string string) :
  ProcessSLOTile env ph sloID startUnix endUnix
    = Ok (sliResult, sliIndicator, sliQuery, sloDefinition) ->
  queries !! sliIndicator = Some sliQuery ->
  sliQuery = "SLO;" ++ sloID
  /\ GetSLIValue env (withQueries ph queries) sliIndicator startUnix endUnix
     = if Strings.Contains sloID ";"
       then Err ("SLO Indicator query has wrong format. Should be SLO;<SLID> but is: SLO;"
                 ++ sloID)
       else Ok (SLIResult.Value sliResult).
Proof.
  intros Htile Hstored. unfold ProcessSLOTile in Htile.
  destruct (ExecuteGetDynatraceSLO env ph sloID startUnix endUnix) as [sloResult| |]
    eqn:Hslo; try discriminate Htile.
  cbn in Htile. injection Htile as <- <- <- <-. split; [reflexivity|].
  unfold GetSLIValue, getTimeseriesConfig.
  cbn [withQueries Handler.CustomQueries]. rewrite Hstored.
  change (Strings.HasPrefix ("SLO;" ++ sloID) "USQL;") with false.
  rewrite (HasPrefix_app "SLO;" sloID).
  change ("SLO;" ++ sloID) with ("SLO" ++ String ";"%char sloID) at 1.
  rewrite (Split_app_sep "SLO" sloID ";"%char eq_refl).
  destruct (Strings.Contains sloID ";") eqn:Hid.
  - destruct (Split_with_sep sloID ";"%char Hid) as (a & b & rest & ->). reflexivity.
  - rewrite (Split_no_sep sloID ";"%char Hid).
    rewrite ExecuteGetDynatraceSLO_withQueries, Hslo. reflexivity.
Qed.

Lemma SLO_query_round_trip_witness :
  "SLO;slo-1" = "SLO;" ++ "slo-1"
  /\ GetSLIValue Cases.sloEnv
       (withQueries Example.handler {["availability" := "SLO;slo-1"]}) "availability" 10 20
     = Ok 99.5%float.
Proof.
  apply (SLO_query_round_trip Cases.sloEnv Example.handler "slo-1" 10 20
           (SLIResult.mk "availability" 99.5 true "") "availability" "SLO;slo-1"
           (sloDefinitionFrom Cases.sloEnv "availability"
              "sli=availability;pass=>=0.000000;warning=>=0.000000")
           {["availability" := "SLO;slo-1"]});
    vm_compute; reflexivity.
Defined.

(** ** Replaying the stored query of a problem tile *)

Lemma ExecuteGetDynatraceProblems_withQueries (env : Env) (ph : Handler.t)
    (queries : gmap string string) (problemQuery : string) (startUnix endUnix : Time) :
  ExecuteGetDynatraceProblems env (withQueries ph queries) problemQuery startUnix endUnix
  = ExecuteGetDynatraceProblems env ph problemQuery startUnix endUnix.
Proof. reflexivity. Qed.

Lemma ExecuteGetDynatraceSecurityProblems_withQueries (env : Env) (ph : Handler.t)
    (queries : gmap string string) (problemQuery : string) (startUnix endUnix : Time) :
  ExecuteGetDynatraceSecurityProblems env (withQueries ph queries) problemQuery
    startUnix endUnix
  = ExecuteGetDynatraceSecurityProblems env ph problemQuery startUnix endUnix.
Proof. reflexivity. Qed.

(** X14: the queries the problem tiles store, [PV2;<query>] and
    [SECPV2;<query>], replay: when the problem query holds no semicolon,
    [GetSLIValue] from the stored definition over the same window makes the
    same call and returns the count the tile reported; with a semicolon in
    the query (in a management zone ID, say) replaying fails on the format
    of the stored query. *)
Theorem problem_query_round_trip (env : Env) (ph : Handler.t)
    (startUnix endUnix : Time) (sliResult : SLIResult.t) (sliIndicator sliQuery : string)
    (sloDefinition : SLO.t) (queries : gmap string string) :
  queries !! sliIndicator = Some sliQuery ->
  (forall problemSelector entitySelector,
      ProcessOpenProblemTile env ph problemSelector entitySelector startUnix endUnix
        = Ok (sliResult, sliIndicator, sliQuery, sloDefinition) ->
      let problemQuery := openProblemQuery problemSelector entitySelector in
      sliQuery = "PV2;" ++ problemQuery
      /\ GetSLIValue env (withQueries ph queries) sliIndicator startUnix endUnix
         = if Strings.Contains problemQuery ";"
           then Err ("Problemv2 Indicator query has wrong format. Should be PV2;entitySelectory=selector&problemSelector=selector but is: PV2;"
                     ++ problemQuery)
           else Ok (SLIResult.Value sliResult))
  /\ (forall securityProblemSelector,
        ProcessOpenSecurityProblemTile env ph securityProblemSelector startUnix endUnix
          = Ok (sliResult, sliIndicator, sliQuery, sloDefinition) ->
        let problemQuery :=
          if Strings.Equal securityProblemSelector "" then ""
          else "securityProblemSelector=" ++ securityProblemSelector in
        sliQuery = "SECPV2;" ++ problemQuery
        /\ GetSLIValue env (withQueries ph queries) sliIndicator startUnix endUnix
           = if Strings.Contains problemQuery ";"
             then Err ("Security Problemv2 Indicator query has wrong format. Should be SECPV2;securityProblemSelector=selector but is: SECPV2;"
                       ++ problemQuery)
             else Ok (SLIResult.Value sliResult)).
Proof.
  intros Hstored. split.
  - intros problemSelector entitySelector Htile problemQuery.
    unfold ProcessOpenProblemTile in Htile. fold problemQuery in Htile.
    destruct (ExecuteGetDynatraceProblems env ph problemQuery startUnix endUnix)
      as [found| |] eqn:Hfound; try discriminate Htile.
    cbn in Htile. injection Htile as <- <- <- <-. split; [reflexivity|].
    unfold GetSLIValue, getTimeseriesConfig.
    cbn [withQueries Handler.CustomQueries]. rewrite Hstored.
    change (Strings.HasPrefix ("PV2;" ++ problemQuery) "USQL;") with false.
    change (Strings.HasPrefix ("PV2;" ++ problemQuery) "SLO;") with false.
    rewrite (HasPrefix_app "PV2;" problemQuery).
    change ("PV2;" ++ problemQuery) with ("PV2" ++ String ";"%char problemQuery) at 1.
    rewrite (Split_app_sep "PV2" problemQuery ";"%char eq_refl).
    destruct (Strings.Contains problemQuery ";") eqn:Hquery.
    + destruct (Split_with_sep problemQuery ";"%char Hquery) as (a & b & rest & ->).
      reflexivity.
    + rewrite (Split_no_sep problemQuery ";"%char Hquery).
      rewrite ExecuteGetDynatraceProblems_withQueries, Hfound. reflexivity.
  - intros securityProblemSelector Htile problemQuery.
    unfold ProcessOpenSecurityProblemTile in Htile. fold problemQuery in Htile.
    destruct (ExecuteGetDynatraceSecurityProblems env ph problemQuery startUnix endUnix)
      as [found| |] eqn:Hfound; try discriminate Htile.
    cbn in Htile. injection Htile as <- <- <- <-. split; [reflexivity|].
    unfold GetSLIValue, getTimeseriesConfig.
    cbn [withQueries Handler.CustomQueries]. rewrite Hstored.
    change (Strings.HasPrefix ("SECPV2;" ++ problemQuery) "USQL;") with false.
    change (Strings.HasPrefix ("SECPV2;" ++ problemQuery) "SLO;") with false.
    change (Strings.HasPrefix ("SECPV2;" ++ problemQuery) "PV2;") with false.
    rewrite (HasPrefix_app "SECPV2;" problemQuery).
    change ("SECPV2;" ++ problemQuery)
      with ("SECPV2" ++ String ";"%char problemQuery) at 1.
    rewrite (Split_app_sep "SECPV2" problemQuery ";"%char eq_refl).
    destruct (Strings.Contains problemQuery ";") eqn:Hquery.
    + destruct (Split_with_sep problemQuery ";"%char Hquery) as (a & b & rest & ->).
      reflexivity.
    + rewrite (Split_no_sep problemQuery ";"%char Hquery).
      rewrite ExecuteGetDynatraceSecurityProblems_withQueries, Hfound. reflexivity.
Qed.

Lemma problem_query_round_trip_witness :
  GetSLIValue (Example.env (Scenario.passBackend None))
    (withQueries Example.handler {["problems" := "PV2;problemSelector=status(open)"]})
    "problems" 10 20
  = Ok 3%float.
Proof.
  destruct (problem_query_round_trip (Example.env (Scenario.passBackend None))
              Example.handler 10 20 (SLIResult.mk "problems" 3 true "") "problems"
              "PV2;problemSelector=status(open)"
              (sloDefinitionFrom (Example.env (Scenario.passBackend None)) "problems"
                 "sli=problems;pass=<=0;key=true")
              {["problems" := "PV2;problemSelector=status(open)"]})
    as [Hproblems _]; [vm_compute; reflexivity|].
  destruct (Hproblems "status(open)" "") as [_ Hreplay]; [vm_compute; reflexivity|].
  exact Hreplay.
Defined.

(** ** Replaying the stored query of a USQL tile *)

Lemma BuildDynatraceUSQLQuery_withQueries (env : Env) (ph : Handler.t)
    (queries : gmap string string) (query : string) (startUnix endUnix : Time) :
  BuildDynatraceUSQLQuery env (withQueries ph queries) query startUnix endUnix
  = BuildDynatraceUSQLQuery env ph query startUnix endUnix.
Proof. reflexivity. Qed.

Lemma ExecuteUSQLQuery_withQueries (env : Env) (ph : Handler.t)
    (queries : gmap string string) (usql : string) :
  ExecuteUSQLQuery env (withQueries ph queries) usql = ExecuteUSQLQuery env ph usql.
Proof. reflexivity. Qed.

(** The visualization types [usqlRow] reads a row for. *)
Lemma usqlRow_supported (tileType : string) (rowValue : list json_value)
    (p : string * float) :
  usqlRow tileType rowValue = Ok (Some p) ->
  In tileType ["SINGLE_VALUE"; "PIE_CHART"; "COLUMN_CHART"; "TABLE"].
Proof.
  unfold usqlRow. intros H.
  destruct (Strings.Equal tileType "SINGLE_VALUE") eqn:E1;
    [apply Equal_true in E1; subst; cbn; tauto|].
  destruct (Strings.Equal tileType "PIE_CHART") eqn:E2;
    [apply Equal_true in E2; subst; cbn; tauto|].
  destruct (Strings.Equal tileType "COLUMN_CHART") eqn:E3;
    [apply Equal_true in E3; subst; cbn; tauto|].
  destruct (Strings.Equal tileType "TABLE") eqn:E4;
    [apply Equal_true in E4; subst; cbn; tauto|].
  discriminate H.
Qed.

Lemma usqlLookup_row (tileName requestedDimensionName : string) (acc : bool * float)
    (rowValue : list json_value) (p : option (string * float)) :
  usqlRow tileName rowValue = Ok p ->
  usqlLookup tileName requestedDimensionName acc rowValue
  = Ok match p with
       | Some (name, value) =>
           if Strings.Equal name requestedDimensionName then (true, value) else acc
       | None => acc
       end.
Proof.
  intros H. unfold usqlLookup. rewrite H. cbn.
  destruct p as [[name value]|]; [|reflexivity].
  now destruct (Strings.Equal name requestedDimensionName).
Qed.

Lemma usqlLookup_others (tileName requestedDimensionName : string)
    (rows : list (list json_value)) (acc : bool * float) :
  Forall (fun r => exists name value,
                     usqlRow tileName r = Ok (Some (name, value))
                     /\ name <> requestedDimensionName) rows ->
  foldM (usqlLookup tileName requestedDimensionName) rows acc = Ok acc.
Proof.
  induction 1 as [|r rows (name & value & Hrow & Hname) _ IH]; [reflexivity|].
  cbn [foldM]. rewrite (usqlLookup_row _ _ _ _ _ Hrow).
  apply Equal_false in Hname. rewrite Hname. cbn. exact IH.
Qed.

Lemma usqlLookup_returns (tileName requestedDimensionName : string)
    (rows : list (list json_value)) (acc : bool * float) :
  Forall (fun r => exists p, usqlRow tileName r = Ok p) rows ->
  exists acc', foldM (usqlLookup tileName requestedDimensionName) rows acc = Ok acc'.
Proof.
  intros H. revert acc. induction H as [|r rows [p Hrow] _ IH]; intros acc; [now eexists|].
  cbn [foldM]. rewrite (usqlLookup_row _ _ _ _ _ Hrow). cbn. apply IH.
Qed.

(** X15: the query a DTAQL tile stores for a row,
    [USQL;<type>;<dimension>;<query>], replays: when neither the dimension
    name nor the tile's query holds a semicolon, every row of the result can
    be read and no later row carries the same dimension name,
    [GetSLIValue] from the stored definition over the same window runs the
    same query and returns the value the tile reported for that row. *)
Theorem USQL_query_round_trip (env : Env) (ph : Handler.t) (tile : Tile.t) (ts : TileSLO)
    (startUnix endUnix : Time) (usql : string) (usqlResult : DTUSQLResult.t)
    (before after : list (list json_value)) (row : list json_value)
    (dimensionName : string) (dimensionValue : float) (st : Synth)
    (queries : gmap string string) :
  BuildDynatraceUSQLQuery env ph (Tile.Query tile) startUnix endUnix = Ok usql ->
  ExecuteUSQLQuery env ph usql = Ok usqlResult ->
  DTUSQLResult.Values usqlResult = (before ++ row :: after)%list ->
  usqlRow (Tile.Type_ tile) row = Ok (Some (dimensionName, dimensionValue)) ->
  Forall (fun r => exists p, usqlRow (Tile.Type_ tile) r = Ok p) before ->
  Forall (fun r => exists name value,
                     usqlRow (Tile.Type_ tile) r = Ok (Some (name, value))
                     /\ name <> dimensionName) after ->
  Strings.Contains dimensionName ";" = false ->
  Strings.Contains (Tile.Query tile) ";" = false ->
  let indicatorName :=
    if Strings.Equal dimensionName "" then ts_baseIndicatorName ts
    else ts_baseIndicatorName ts ++ "_" ++ dimensionName in
  let stored :=
    "USQL;" ++ Tile.Type_ tile ++ ";" ++ dimensionName ++ ";" ++ Tile.Query tile in
  processUSQLRow tile ts st row
    = Ok (emit st (SLIResult.mk indicatorName dimensionValue true "") indicatorName stored
            (sloDefinitionOf ts indicatorName))
  /\ (queries !! indicatorName = Some stored ->
      GetSLIValue env (withQueries ph queries) indicatorName startUnix endUnix
      = Ok dimensionValue).
Proof.
  intros Hbuild Hexec Hrows Hrow Hbefore Hafter Hname Hquery indicatorName stored.
  split.
  { unfold processUSQLRow. rewrite Hrow. reflexivity. }
  intros Hstored.
  assert (Htype : Strings.Contains (Tile.Type_ tile) ";" = false).
  { apply usqlRow_supported in Hrow.
    cbn in Hrow. destruct Hrow as [<-|[<-|[<-|[<-|[]]]]]; reflexivity. }
  unfold GetSLIValue, getTimeseriesConfig.
  cbn [withQueries Handler.CustomQueries]. rewrite Hstored. subst stored.
  rewrite (HasPrefix_app "USQL;").
  change ("USQL;" ++ Tile.Type_ tile ++ ";" ++ dimensionName ++ ";" ++ Tile.Query tile)
    with ("USQL" ++ String ";"%char
            (Tile.Type_ tile ++ String ";"%char
               (dimensionName ++ String ";"%char (Tile.Query tile)))).
  rewrite (Split_app_sep "USQL" _ ";"%char eq_refl).
  rewrite (Split_app_sep (Tile.Type_ tile) _ ";"%char Htype).
  rewrite (Split_app_sep dimensionName _ ";"%char Hname).
  rewrite (Split_no_sep (Tile.Query tile) ";"%char Hquery).
  rewrite BuildDynatraceUSQLQuery_withQueries, Hbuild. cbn [mbind res_bind].
  rewrite ExecuteUSQLQuery_withQueries, Hexec, Hrows, foldM_app.
  destruct (usqlLookup_returns (Tile.Type_ tile) dimensionName before (false, 0%float)
              Hbefore) as [acc ->].
  cbn [mbind res_bind foldM]. rewrite (usqlLookup_row _ _ _ _ _ Hrow).
  rewrite Equal_refl. cbn [mbind res_bind].
  rewrite (usqlLookup_others _ _ _ _ Hafter). reflexivity.
Qed.

Lemma USQL_query_round_trip_witness :
  processUSQLRow Cases.browsersTile
    (parseTileSLO Cases.browsersEnv (tileTitleOf Cases.browsersTile)) initialSynth
    [JString "Chrome"; JNumber 120]
    = Ok (emit initialSynth (SLIResult.mk "browser_Chrome" 120 true "") "browser_Chrome"
            ("USQL;PIE_CHART;Chrome;" ++ Cases.browsersQuery)
            (SLO.mk "browser_Chrome" [] [] 1 false))
  /\ GetSLIValue Cases.browsersEnv
       (withQueries Example.handler
          {["browser_Chrome" := "USQL;PIE_CHART;Chrome;" ++ Cases.browsersQuery]})
       "browser_Chrome" 10 20
     = Ok 120%float.
Proof.
  destruct (USQL_query_round_trip Cases.browsersEnv Example.handler Cases.browsersTile
              (parseTileSLO Cases.browsersEnv (tileTitleOf Cases.browsersTile))
              10 20 Cases.browsersURL Cases.browsers []
              [[JString "Firefox"; JNumber 30]] [JString "Chrome"; JNumber 120]
              "Chrome" 120 initialSynth
              {["browser_Chrome" := "USQL;PIE_CHART;Chrome;" ++ Cases.browsersQuery]})
    as [Hrow Hreplay]; try (vm_compute; reflexivity).
  - constructor.
  - constructor; [|constructor]. exists "Firefox", 30%float.
    split; [reflexivity | discriminate].
  - split; [exact Hrow|]. apply Hreplay. vm_compute. reflexivity.
Defined.

(** ** Stored queries that cannot be replayed *)

(** X16: a stored query that starts with [MV2;] and holds no further
    semicolon makes [GetSLIValue] panic: the index of the semicolon after
    the unit is -1, and the query is sliced up to it. *)
Theorem MV2_without_separator_panics (env : Env) (ph : Handler.t)
    (metric rest : string) (startUnix endUnix : Time) :
  getTimeseriesConfig ph metric = Ok ("MV2;" ++ rest) ->
  Strings.Contains rest ";" = false ->
  GetSLIValue env ph metric startUnix endUnix = Panic.
Proof.
  intros Hstored Hrest. unfold GetSLIValue. rewrite Hstored.
  destruct (stored_MV2_prefixes rest) as (-> & -> & -> & ->).
  assert (Hsplit : splitMV2 ("MV2;" ++ rest) = Panic).
  { unfold splitMV2. rewrite HasPrefix_app.
    change 4 with (Z.of_nat (String.length "MV2;")).
    rewrite slice_from_app. cbn [mbind res_bind].
    unfold Strings.Index, Strings.Contains in *.
    destruct (Strings.index_of rest ";"); [discriminate|]. reflexivity. }
  rewrite Hsplit. reflexivity.
Qed.

Lemma MV2_without_separator_panics_witness :
  GetSLIValue (Example.env Example.noBackend) Cases.truncatedHandler "teststep" 10 20
  = Panic.
Proof.
  apply (MV2_without_separator_panics (Example.env Example.noBackend)
           Cases.truncatedHandler "teststep"
           "metricSelector=calc:service.teststep:avg:names" 10 20);
    vm_compute; reflexivity.
Defined.

(** ** The queries of the built-in indicators *)

(** X17: a custom query configured for a metric is the one that is used,
    also for the names of the built-in indicators; without a custom query
    the five built-in indicators are the only metrics [getTimeseriesConfig]
    knows, and [GetSLIValue] answers every other metric with "Unsupported
    SLI metric", whatever the backend. *)
Theorem only_built_in_metrics_have_defaults (env : Env) (ph : Handler.t)
    (metric : string) (startUnix endUnix : Time) :
  (forall query,
      Handler.CustomQueries ph !! metric = Some query ->
      getTimeseriesConfig ph metric = Ok query)
  /\ (Handler.CustomQueries ph !! metric = None ->
      ((exists query, getTimeseriesConfig ph metric = Ok query)
       <-> In metric [Throughput; ErrorRate; ResponseTimeP50; ResponseTimeP90;
                      ResponseTimeP95])
      /\ (~ In metric [Throughput; ErrorRate; ResponseTimeP50; ResponseTimeP90;
                       ResponseTimeP95] ->
          GetSLIValue env ph metric startUnix endUnix
          = Err ("Error when fetching SLI config for " ++ metric
                 ++ " Unsupported SLI metric " ++ metric ++ "."))).
Proof.
  split.
  { intros query Hcustom. unfold getTimeseriesConfig. now rewrite Hcustom. }
  intros Hcustom.
  assert (Hunknown :
            ~ In metric [Throughput; ErrorRate; ResponseTimeP50; ResponseTimeP90;
                         ResponseTimeP95] ->
            getTimeseriesConfig ph metric = Err ("Unsupported SLI metric " ++ metric)).
  { intros Hnot. unfold getTimeseriesConfig. rewrite Hcustom.
    repeat match goal with
           | |- context [Strings.Equal metric ?name] =>
               let E := fresh "E" in
               destruct (Strings.Equal metric name) eqn:E;
               [apply Equal_true in E; exfalso; apply Hnot; subst metric; cbn; tauto|]
           end.
    reflexivity. }
  split.
  - split.
    + intros [query Hquery].
      destruct (in_dec string_dec metric
                  [Throughput; ErrorRate; ResponseTimeP50; ResponseTimeP90;
                   ResponseTimeP95]) as [Hin|Hnot]; [exact Hin|].
      rewrite (Hunknown Hnot) in Hquery. discriminate Hquery.
    + intros Hin. unfold getTimeseriesConfig. rewrite Hcustom.
      cbn in Hin. destruct Hin as [<-|[<-|[<-|[<-|[<-|[]]]]]]; eexists; reflexivity.
  - intros Hnot. unfold GetSLIValue. rewrite (Hunknown Hnot). reflexivity.
Qed.

(** ** Custom filters *)

Lemma Contains_first_byte (s rest : string) (c : ascii) :
  Strings.Contains s (String c rest) = true -> Strings.Contains s (String c "") = true.
Proof.
  unfold Strings.Contains. induction s as [|c' s IH]; [discriminate|].
  cbn [Strings.index_of]. rewrite prefix_byte.
  change (String.prefix (String c rest) (String c' s))
    with (if ascii_dec c c' then String.prefix rest s else false).
  destruct (ascii_dec c c'); [reflexivity|].
  destruct (Strings.index_of s (String c rest)); [|discriminate].
  intros _. destruct (Strings.index_of s (String c "")); [reflexivity|].
  now specialize (IH eq_refl).
Qed.

Lemma applyCustomFilters_without_dollar (env : Env) (filters : list SLIFilter.t) (query : string) :
  Strings.Contains query "$" = false -> fst (applyCustomFilters env filters query) = query.
Proof.
  intros Hquery.
  assert (Hkey : forall key, Strings.Contains query ("$" ++ key) = false).
  { intros key. destruct (Strings.Contains query ("$" ++ key)) eqn:E; [|reflexivity].
    apply (Contains_first_byte query key "$"%char) in E. congruence. }
  assert (Hold : forall key, "$" ++ key <> "").
  { intros key. change ("$" ++ key) with (String "$"%char key). discriminate. }
  induction filters as [|f filters IH]; [reflexivity|].
  cbn [applyCustomFilters].
  rewrite (Replace_all_absent query _ _ (Hkey _) (Hold _)).
  rewrite (Replace_all_absent query _ _ (Hkey _) (Hold _)).
  destruct (applyCustomFilters env filters query) as [query' rest] eqn:E.
  cbn in *. exact IH.
Qed.

(** X18: a query without a dollar sign passes the custom filters unchanged,
    whatever their keys and values: [replaceQueryParameters] hands it to
    [ReplaceKeptnPlaceholders] as it is. *)
Theorem query_without_placeholder_is_kept (env : Env) (ph : Handler.t) (query : string) :
  Strings.Contains query "$" = false ->
  fst (applyCustomFilters env (Handler.CustomFilters ph) query) = query
  /\ replaceQueryParameters env ph query
     = ReplaceKeptnPlaceholders env query (Handler.KeptnEvent ph).
Proof.
  intros Hquery. unfold replaceQueryParameters.
  now rewrite applyCustomFilters_without_dollar.
Qed.

Lemma query_without_placeholder_is_kept_witness :
  fst (applyCustomFilters (Example.env Example.noBackend)
         (Handler.CustomFilters Cases.filteredHandler)
         "metricSelector=builtin:service.response.time:merge(0):avg")
    = "metricSelector=builtin:service.response.time:merge(0):avg"
  /\ replaceQueryParameters (Example.env Example.noBackend) Cases.filteredHandler
       "metricSelector=builtin:service.response.time:merge(0):avg"
     = ReplaceKeptnPlaceholders (Example.env Example.noBackend)
         "metricSelector=builtin:service.response.time:merge(0):avg"
         (Handler.KeptnEvent Cases.filteredHandler).
Proof.
  refine (query_without_placeholder_is_kept (Example.env Example.noBackend)
            Cases.filteredHandler
            "metricSelector=builtin:service.response.time:merge(0):avg" _).
  vm_compute. reflexivity.
Defined.

(** X19: the custom filters settle. [replaceQueryParameters] strips the
    quotes from the values of the handler's filters in place; the filters it
    leaves do not depend on the query, stripping them again changes
    nothing, and a later call that starts from them substitutes exactly as
    one that starts from the original filters. *)
Theorem custom_filters_settle (env : Env) (ph : Handler.t) (first query : string) :
  keptFilters env ph first = map sanitizeFilter (Handler.CustomFilters ph)
  /\ keptFilters env (withFilters ph (keptFilters env ph first)) query
     = keptFilters env ph first
  /\ replaceQueryParameters env (withFilters ph (keptFilters env ph first)) query
     = replaceQueryParameters env ph query.
Proof.
  unfold keptFilters, replaceQueryParameters. cbn [withFilters Handler.CustomFilters
                                                   Handler.KeptnEvent].
  rewrite !applyCustomFilters_filters. repeat split.
  - rewrite map_map. apply map_ext. intros f. apply sanitizeFilter_idempotent.
  - f_equal. rewrite <- (applyCustomFilters_filters env _ first).
    apply applyCustomFilters_again.
Qed.

(** ** The formats of a metrics query *)

Lemma Replace_first_prefix (old new rest : string) :
  old <> "" -> Strings.Replace (old ++ rest) old new 1 = new ++ rest.
Proof.
  intros Hold. unfold Strings.Replace.
  change (if 1 <? 0 then None else Some (Z.to_nat 1)) with (Some 1%nat).
  destruct old as [|c old]; [contradiction|].
  rewrite append_cons. cbn [Strings.replace_go].
  pose proof (HasPrefix_app (String c old) rest) as Hprefix.
  unfold Strings.HasPrefix in Hprefix. rewrite append_cons in Hprefix.
  rewrite Hprefix. cbn [option_map Nat.pred String.length Nat.sub].
  rewrite replace_go_exhausted, Nat.sub_0_r, drop_app. reflexivity.
Qed.

(** X20: a metrics query written with a question mark in front of
    [metricSelector=] is the query without it: both give the same URL and
    the same metric ID, or the same error. *)
Theorem leading_question_mark_is_dropped (env : Env) (ph : Handler.t)
    (withMark without rest : string) (startUnix endUnix : Time) :
  replaceQueryParameters env ph withMark = "?metricSelector=" ++ rest ->
  replaceQueryParameters env ph without = "metricSelector=" ++ rest ->
  BuildDynatraceMetricsQuery env ph withMark startUnix endUnix
  = BuildDynatraceMetricsQuery env ph without startUnix endUnix.
Proof.
  intros HwithMark Hwithout.
  assert (Hsplit : splitMetricQuery env ph withMark = splitMetricQuery env ph without).
  { unfold splitMetricQuery. rewrite HwithMark, Hwithout.
    rewrite (HasPrefix_app "?metricSelector=" rest).
    rewrite (Replace_first_prefix "?metricSelector=" "metricSelector=" rest)
      by discriminate.
    change (Strings.HasPrefix ("metricSelector=" ++ rest) "?metricSelector=") with false.
    reflexivity. }
  unfold BuildDynatraceMetricsQuery. now rewrite Hsplit.
Qed.

Lemma leading_question_mark_is_dropped_witness :
  BuildDynatraceMetricsQuery (Example.env Example.noBackend) Example.handler
    "?metricSelector=builtin:service.response.time:merge(0):avg" 10 20
  = BuildDynatraceMetricsQuery (Example.env Example.noBackend) Example.handler
      "metricSelector=builtin:service.response.time:merge(0):avg" 10 20.
Proof.
  apply (leading_question_mark_is_dropped (Example.env Example.noBackend) Example.handler
           "?metricSelector=builtin:service.response.time:merge(0):avg"
           "metricSelector=builtin:service.response.time:merge(0):avg"
           "builtin:service.response.time:merge(0):avg" 10 20);
    vm_compute; reflexivity.
Defined.

(** ** Tiles the pass leaves aside *)

Lemma foldM_unchanged {A : Type} (f : Synth -> A -> res Synth) (l : list A) :
  (forall st a, In a l -> f st a = Ok st) -> forall st, foldM f l st = Ok st.
Proof.
  induction l as [|a rest IH]; intros Hf st; simpl; [reflexivity|].
  rewrite (Hf st a) by now left. simpl. apply IH.
  intros s b Hb. apply Hf. now right.
Qed.

Lemma processTile_passedOver (env : Env) (ph : Handler.t)
    (dashboardJSON : DynatraceDashboard.t) (filter : string) (startUnix endUnix : Time)
    (st : Synth) (tile : Tile.t) :
  passedOver env tile ->
  processTile env ph dashboardJSON filter startUnix endUnix st tile = Ok st.
Proof.
  unfold passedOver, processTile. cbv zeta.
  intros [H|[H|[[H Hmarkdown]|[[H Hname]|[H Hname]]]]].
  - now rewrite H.
  - now rewrite H.
  - rewrite H. cbn. now rewrite Hmarkdown.
  - rewrite H. cbn. now rewrite Hname.
  - assert (Hno : forall t, In t ["HEADER"; "SYNTHETIC_TESTS"; "MARKDOWN"; "SLO";
                                   "OPEN_PROBLEMS"; "OPEN_SECURITY_PROBLEMS";
                                   "DATA_EXPLORER"] ->
                            Strings.Equal (Tile.TileType tile) t = false).
    { intros t Ht. apply Equal_false. intros Heq. subst t. contradiction. }
    rewrite (Hno "HEADER"), (Hno "SYNTHETIC_TESTS"), (Hno "MARKDOWN"), (Hno "SLO"),
      (Hno "OPEN_PROBLEMS"), (Hno "OPEN_SECURITY_PROBLEMS"), (Hno "DATA_EXPLORER")
      by (simpl; tauto).
    cbn. now rewrite Hname.
Qed.

(** X21: a dashboard without an indicator. Headers, synthetic tests, markdown
    without [KQG.] settings, and data explorer, chart and other tiles whose
    title names no SLI are passed over, whatever the backend would answer;
    a changed dashboard that holds only such tiles is returned with its
    link, the empty SLI document of version 0.1.4, the default SLO document
    (total score 90%/75%, comparison with a single result) and no SLI
    result. *)
Theorem dashboard_without_indicators (env : Env) (ph : Handler.t)
    (keptnEvent : BaseKeptnEvent.t) (dashboard : string) (startUnix endUnix : Time)
    (existingDashboardContent : string) (err : option string)
    (dashboardJSON : DynatraceDashboard.t) (dashboardID : string) :
  GetKeptnResource env keptnEvent (DynatraceDashboardFilename env)
    = (existingDashboardContent, err) ->
  loadDynatraceDashboard env ph keptnEvent
      (dashboardToLoad existingDashboardContent err dashboard)
    = Ok (Some dashboardJSON, dashboardID, None) ->
  HasDashboardChanged env dashboardJSON existingDashboardContent = true ->
  Forall (passedOver env) (DynatraceDashboard.Tiles dashboardJSON) ->
  (forall st tile,
      In tile (DynatraceDashboard.Tiles dashboardJSON) ->
      processTile env ph dashboardJSON (dashboardManagementZoneFilterOf dashboardJSON)
        startUnix endUnix st tile = Ok st)
  /\ QueryDynatraceDashboardForSLIs env ph keptnEvent dashboard startUnix endUnix
     = Ok (mkDashboardResult (dashboardLink env ph dashboardJSON startUnix endUnix)
             (Some dashboardJSON)
             (Some (SLI.mk "0.1.4" ∅))
             (Some (ServiceLevelObjectives.mk []
                      (SLOScore.mk "90%" "75%")
                      (SLOComparison.mk "single_result" "pass" 1 "avg")))
             []).
Proof.
  intros Hres Hload Hchanged Htiles. split.
  - intros st tile Hin. apply processTile_passedOver.
    rewrite Forall_forall in Htiles. apply Htiles. now apply list_elem_of_In.
  - unfold QueryDynatraceDashboardForSLIs. rewrite Hres, Hload. cbn.
    rewrite Hchanged. cbn. unfold processTiles.
    rewrite foldM_unchanged; [reflexivity|].
    intros st tile Hin. apply processTile_passedOver.
    rewrite Forall_forall in Htiles. apply Htiles. now apply list_elem_of_In.
Qed.

Lemma dashboard_without_indicators_witness :
  QueryDynatraceDashboardForSLIs (Example.env Cases.plainBackend) Example.handler
    Example.event Scenario.dashboardID 10 20
  = Ok (mkDashboardResult
          (dashboardLink (Example.env Cases.plainBackend) Example.handler
             Cases.plainDashboard 10 20)
          (Some Cases.plainDashboard)
          (Some (SLI.mk "0.1.4" ∅))
          (Some (ServiceLevelObjectives.mk []
                   (SLOScore.mk "90%" "75%")
                   (SLOComparison.mk "single_result" "pass" 1 "avg")))
          []).
Proof.
  refine (proj2 (dashboard_without_indicators (Example.env Cases.plainBackend)
                   Example.handler Example.event Scenario.dashboardID 10 20 "" None
                   Cases.plainDashboard Scenario.dashboardID _ _ _ _)).
  - reflexivity.
  - vm_compute. reflexivity.
  - vm_compute. reflexivity.
  - constructor; [left; reflexivity|].
    constructor; [right; right; left; split; reflexivity|].
    constructor; [right; right; right; left; split; vm_compute; reflexivity|].
    constructor; [|constructor].
    right. right. right. right. split; [|vm_compute; reflexivity].
    simpl. intros H. repeat (destruct H as [H|H]; [discriminate H|]). exact H.
Defined.

Lemma foldM_skipped {A : Type} (f : Synth -> A -> res Synth) (l : list A) :
  Forall (fun a => forall st, f st a = Ok st) l -> forall st, foldM f l st = Ok st.
Proof.
  induction 1 as [|a rest Ha _ IH]; intros st; simpl; [reflexivity|].
  rewrite Ha. simpl. apply IH.
Qed.

(** X22: a metric without a definition. When the metric of a data explorer
    query or of a chart series cannot be described (the request for its
    definition fails), the query is passed over without a trace: the tile
    adds no SLI result, not even a failed one, no SLI definition and no
    objective; this is unlike a query that was built and then could not be
    executed. *)
Theorem metric_without_definition_is_passed_over (env : Env) (ph : Handler.t)
    (dashboardJSON : DynatraceDashboard.t) (startUnix endUnix : Time)
    (st : Synth) (tile : Tile.t) :
  withoutDefinitions env ph tile ->
  processTile env ph dashboardJSON (dashboardManagementZoneFilterOf dashboardJSON)
    startUnix endUnix st tile = Ok st.
Proof.
  intros [[Htype Hall]|[Htype Hall]]; unfold processTile; rewrite Htype; cbn.
  - destruct (Strings.Equal _ ""); [reflexivity|].
    apply foldM_skipped. eapply Forall_impl; [exact Hall|].
    intros dataQuery [e He] s. unfold dataQueryStep, GenerateMetricQueryFromDataExplorer.
    now rewrite He.
  - destruct (Strings.Equal _ ""); [reflexivity|].
    rewrite foldM_skipped; [reflexivity|]. eapply Forall_impl; [exact Hall|].
    intros series [e He] s. unfold chartSeriesStep, GenerateMetricQueryFromChart.
    now rewrite He.
Qed.

Lemma metric_without_definition_is_passed_over_witness :
  processTile (Example.env Example.noBackend) Example.handler Scenario.teststepDashboard
    (dashboardManagementZoneFilterOf Scenario.teststepDashboard) 10 20 initialSynth
    Scenario.teststepTile
  = Ok initialSynth.
Proof.
  apply (metric_without_definition_is_passed_over (Example.env Example.noBackend)
           Example.handler Scenario.teststepDashboard 10 20 initialSynth
           Scenario.teststepTile).
  left. split; [reflexivity|]. repeat constructor.
  eexists. vm_compute. reflexivity.
Defined.
